(** * dl-fldigi Debian package builder ([debian.py]): model and properties

    The script drives external tools (git, autotools, debuild) around a
    disposable build directory.  The model below follows [Builder] method by
    method.  Python values are embedded as follows:

    - [str] is [string], a sequence of 8-bit characters, with the whitespace
      of [string.whitespace];
    - the attributes of [self] are a record of optional fields, read with
      [AttributeError] when unset;
    - exceptions are an error monad over an explicit world (file tree, the
      attributes of [self], and the sequence of system calls performed);
    - everything the script cannot decide by itself (what the external
      commands do, what [glob] and [realpath] see, which system calls fail)
      is an [Env] record of oracles, over which the theorems quantify.

    Calls to [logger] are left out: they neither raise nor touch the file
    tree.  External commands are assumed to terminate, and the output read
    back through the pipe of [cmd_output] is assumed to fit in it (the
    source says "Only works for small outputs"). *)

From Stdlib Require Import Ascii String ZArith Lia Bool List.
From stdpp Require Import gmap strings.
Import ListNotations.

Local Open Scope string_scope.

(** ** Python string operations *)

Module Py.

Definition LF : ascii := "010"%char.

(** [str.isspace] on one 8-bit character: the members of [string.whitespace]. *)
Definition isspace (c : ascii) : bool :=
  let n := nat_of_ascii c in
  ((9 <=? n)%nat && (n <=? 13)%nat) || (n =? 32)%nat.

Fixpoint lstrip (s : string) : string :=
  match s with
  | String c r => if isspace c then lstrip r else s
  | EmptyString => EmptyString
  end.

Fixpoint rstrip (s : string) : string :=
  match s with
  | String c r =>
      match rstrip r with
      | EmptyString => if isspace c then EmptyString else String c EmptyString
      | r' => String c r'
      end
  | EmptyString => EmptyString
  end.

(** [s.strip()] *)
Definition strip (s : string) : string := rstrip (lstrip s).

(** [s.split()] with no separator: maximal runs of non-whitespace.  [cur] is
    the token being read, if any. *)
Fixpoint split_go (cur : option string) (s : string) : list string :=
  match s with
  | EmptyString => match cur with Some t => [t] | None => [] end
  | String c r =>
      if isspace c then
        match cur with
        | Some t => t :: split_go None r
        | None => split_go None r
        end
      else
        split_go (Some (match cur with Some t => t ++ String c "" | None => String c "" end)) r
  end.

Definition split (s : string) : list string := split_go None s.

Definition startswith (s p : string) : bool := String.prefix p s.

Definition endswith (s p : string) : bool :=
  (String.length p <=? String.length s)%nat &&
  String.eqb (String.substring (String.length s - String.length p) (String.length p) s) p.

(** Index normalisation of a slice bound, as [PySlice_AdjustIndices] does for
    step 1: a negative bound counts from the end, and both are clamped. *)
Definition clamp (len i : Z) : Z :=
  if (i <? 0)%Z then Z.max (len + i) 0 else Z.min i len.

(** [s[i:j]] *)
Definition slice (s : string) (i j : Z) : string :=
  let len := Z.of_nat (String.length s) in
  let a := clamp len i in
  let b := clamp len j in
  if (a <? b)%Z then String.substring (Z.to_nat a) (Z.to_nat (b - a)) s else "".

Definition len (s : string) : Z := Z.of_nat (String.length s).

(** *** [posixpath] *)

(** One step of [os.path.join]: an absolute component restarts the path. *)
Definition join2 (path b : string) : string :=
  if startswith b "/" then b
  else if String.eqb path "" || endswith path "/" then path ++ b
  else path ++ "/" ++ b.

Definition join (a : string) (ps : list string) : string := fold_left join2 ps a.

(** Split at the last slash: the head keeps that slash ([None] when there is
    no slash), the tail is what follows it. *)
Fixpoint rsplit_slash (p : string) : option string * string :=
  match p with
  | EmptyString => (None, EmptyString)
  | String c r =>
      match rsplit_slash r with
      | (Some h, t) => (Some (String c h), t)
      | (None, t) =>
          if Ascii.eqb c "/" then (Some "/", t) else (None, String c t)
      end
  end.

Definition basename (p : string) : string := snd (rsplit_slash p).

Fixpoint all_slashes (s : string) : bool :=
  match s with
  | EmptyString => true
  | String c r => Ascii.eqb c "/" && all_slashes r
  end.

Fixpoint rstrip_slash (s : string) : string :=
  match s with
  | String c r =>
      match rstrip_slash r with
      | EmptyString => if Ascii.eqb c "/" then EmptyString else String c EmptyString
      | r' => String c r'
      end
  | EmptyString => EmptyString
  end.

Definition dirname (p : string) : string :=
  match fst (rsplit_slash p) with
  | None => ""
  | Some head => if all_slashes head then head else rstrip_slash head
  end.

(** The first line of a text: what precedes its first line feed. *)
Fixpoint first_line (s : string) : string :=
  match s with
  | EmptyString => EmptyString
  | String c r => if Ascii.eqb c LF then EmptyString else String c (first_line r)
  end.

End Py.

(** ** The regular expression of [setup_build_dir]

    [re.match(r"^[a-zA-Z0-9_\-/]+$", s)].  The pattern is a character class
    under [+] followed by [$]; [re.match] anchors at position 0, where [^]
    holds.  Without [re.MULTILINE], [$] holds at the end of the subject and
    also just before a line feed that is its last character. *)

Module Re.

Definition in_range (lo hi c : ascii) : bool :=
  (nat_of_ascii lo <=? nat_of_ascii c)%nat && (nat_of_ascii c <=? nat_of_ascii hi)%nat.

(** The class [[a-zA-Z0-9_\-/]]. *)
Definition location_class (c : ascii) : bool :=
  in_range "a" "z" c || in_range "A" "Z" c || in_range "0" "9" c
  || Ascii.eqb c "_" || Ascii.eqb c "-" || Ascii.eqb c "/".

(** [$] at a position whose remaining subject is [rest]. *)
Definition at_dollar (rest : string) : bool :=
  String.eqb rest "" || String.eqb rest (String Py.LF "").

(** [cls+] followed by the continuation [k], with backtracking: every
    non-empty run of class characters is tried, longest first. *)
Fixpoint plus (cls : ascii -> bool) (k : string -> bool) (s : string) : bool :=
  match s with
  | EmptyString => false
  | String c r => cls c && (plus cls k r || k r)
  end.

(** Truth value of the match object. *)
Definition match_location (s : string) : bool := plus location_class at_dollar s.

End Re.

(** ** Exceptions and results *)

Inductive errno :=
| ENOENT | EEXIST | ENOTDIR | EISDIR
| EACCES | EIO | ENOSPC | EROFS | EBUSY.

(** Reasons for which the host refuses a system call and that the file tree
    does not show.  The errors the tree explains (a missing or existing path,
    a file where a directory is needed and conversely) come from the tree
    alone. *)
Inductive refusal := Permission | InputOutput | NoSpace | ReadOnly | Busy.

Definition errno_of (r : refusal) : errno :=
  match r with
  | Permission => EACCES
  | InputOutput => EIO
  | NoSpace => ENOSPC
  | ReadOnly => EROFS
  | Busy => EBUSY
  end.

(** The exceptions the script raises or lets through.  [SubprocessExited args]
    is [Exception("subprocess error exited " + repr(args))]; [Exception_ msg]
    is [Exception(msg)]; [SameFile src dst] is the [shutil.Error] by which
    [shutil.copy] refuses to copy a file onto itself. *)
Inductive exn :=
| AssertionError
| IndexError
| KeyError (key : string)
| ValueError
| AttributeError (attr : string)
| OSError (e : errno)
| Exception_ (msg : string)
| SubprocessExited (args : list string)
| SameFile (src dst : string).

Inductive result (A : Type) :=
| Ok (a : A)
| Raise (e : exn).
Arguments Ok {A} a.
Arguments Raise {A} e.

Definition is_ok {A} (r : result A) : bool :=
  match r with Ok _ => true | Raise _ => false end.

Definition raised {A} (r : result A) : Prop :=
  match r with Ok _ => False | Raise _ => True end.

(** ** [str.format] with keyword arguments

    The formatter reads the template left to right.  Doubled braces are
    literal braces; [{name}] is replaced by the keyword argument [name]
    ([KeyError] when there is none); a lone closing brace and an unclosed
    field are [ValueError].  Fields that are empty or numbered, or that carry
    a conversion, a format specification, an attribute or an index (the
    characters [! : . [ {] inside the braces) are not interpreted here: on
    the first such field the scan answers [None] and the caller falls back on
    the environment's account of [str.format]. *)

Module Fmt.

Inductive state :=
| Text
| Open
| Close
| Field (name : string).

Definition special (c : ascii) : bool :=
  Ascii.eqb c "!" || Ascii.eqb c ":" || Ascii.eqb c "." || Ascii.eqb c "[" || Ascii.eqb c "{".

Definition digit (c : ascii) : bool := Re.in_range "0" "9" c.

Definition emit (t : string) (r : option (result string)) : option (result string) :=
  match r with
  | Some (Ok s) => Some (Ok (t ++ s))
  | other => other
  end.

Fixpoint scan (kw : gmap string string) (st : state) (s : string) : option (result string) :=
  match s with
  | EmptyString =>
      match st with
      | Text => Some (Ok "")
      | _ => Some (Raise ValueError)
      end
  | String c r =>
      match st with
      | Text =>
          if Ascii.eqb c "{" then scan kw Open r
          else if Ascii.eqb c "}" then scan kw Close r
          else emit (String c "") (scan kw Text r)
      | Open =>
          if Ascii.eqb c "{" then emit "{" (scan kw Text r)
          else if Ascii.eqb c "}" || special c || digit c then None
          else scan kw (Field (String c "")) r
      | Close =>
          if Ascii.eqb c "}" then emit "}" (scan kw Text r)
          else Some (Raise ValueError)
      | Field name =>
          if Ascii.eqb c "}" then
            match kw !! name with
            | Some v => emit v (scan kw Text r)
            | None => Some (Raise (KeyError name))
            end
          else if special c then None
          else scan kw (Field (name ++ String c "")) r
      end
  end.

End Fmt.

(** ** File tree, system calls, world

    The file tree is a map from paths to nodes.  A path names a node by its
    spelling: two paths are the same file when they are the same string,
    and a path lies below another when it begins with it and a slash. *)

Inductive node :=
| Dir
| File (content : string).

Inductive stream := Inherit | DevNull | Pipe.

(** Outcome of [subprocess.call]: the program could not be started, or it ran
    and exited with [rc], having written [out] on its standard output and
    turned the file tree into [tree]. *)
Inductive proc :=
| SpawnError (e : errno)
| Exited (rc : Z) (out : string) (tree : gmap string node).

(** The calls the script makes to the operating system, in the order made. *)
Inductive event :=
| EOpenNull
| ECloseNull
| EStat (p : string)
| ERmtree (p : string)
| EMkdir (p : string)
| ECall (args : list string) (cwd : option string) (out err : stream)
| EGlob (pattern : string)
| ECopy (src dst : string)
| ECopytree (src dst : string)
| ERead (p : string)
| EWrite (p : string) (data : string).

(** Keyword arguments handed to [cmd]: each may be absent. *)
Record kwargs := {
  kw_cwd : option (option string);
  kw_stdout : option stream;
  kw_stderr : option stream
}.

Definition no_kwargs : kwargs := {| kw_cwd := None; kw_stdout := None; kw_stderr := None |}.
Definition cwd_ (d : option string) : kwargs :=
  {| kw_cwd := Some d; kw_stdout := None; kw_stderr := None |}.

(** [self.options] together with the two positional arguments. *)
Record Options := {
  directory : string;
  quiet : bool;
  verbose : bool;
  output : string;
  get_src : bool;
  make_jobs : option string;
  distro : option string;
  dl_fldigi_source : string;
  dl_fldigi_commit : option string
}.

(** Truth value of an object that is [None] or a string. *)
Definition truthy (o : option string) : bool :=
  match o with
  | Some s => negb (String.eqb s "")
  | None => false
  end.

(** What the script does not decide. *)
Record Env := {
  realpath : string -> string;                         (* os.path.realpath *)
  script_file : string;                                (* __file__ *)
  fault : event -> gmap string node -> option refusal;  (* a system call refused *)
  run : list string -> option string -> gmap string node -> proc;
  glob : string -> gmap string node -> list string;    (* glob.glob *)
  formatdate : string;                                 (* email.utils.formatdate() *)
  format_ext : string -> gmap string string -> result string
}.

(** The attributes of [self] set along the way. *)
Record Builder := {
  self_null : option unit;
  self_location : option string;
  self_version : option string;
  self_git : option string;
  self_origname : option string;
  self_debsrc : option string
}.

Definition new_builder : Builder :=
  {| self_null := None; self_location := None; self_version := None;
     self_git := None; self_origname := None; self_debsrc := None |}.

Record World := {
  fs : gmap string node;
  self : Builder;
  pipe : string;          (* what sits in the pipe opened by [cmd_output] *)
  trace : list event
}.

Definition with_fs (t : gmap string node) (w : World) : World :=
  {| fs := t; self := self w; pipe := pipe w; trace := trace w |}.
Definition with_self (b : Builder) (w : World) : World :=
  {| fs := fs w; self := b; pipe := pipe w; trace := trace w |}.
Definition with_pipe (p : string) (w : World) : World :=
  {| fs := fs w; self := self w; pipe := p; trace := trace w |}.
Definition record (e : event) (w : World) : World :=
  {| fs := fs w; self := self w; pipe := pipe w; trace := trace w ++ [e] |}.

Definition boot (t : gmap string node) : World :=
  {| fs := t; self := new_builder; pipe := ""; trace := [] |}.

(** *** File-tree operations *)

(** [k] is [p] or lies below it. *)
Definition under (p k : string) : bool :=
  String.eqb k p || String.prefix (Py.join2 p "") k.

Definition remove_tree (p : string) (t : gmap string node) : gmap string node :=
  filter (fun kn => under p kn.1 = false) t.

Definition rebase (src dst k : string) : string :=
  dst ++ String.substring (String.length src) (String.length k - String.length src) k.

Definition graft (src dst : string) (t : gmap string node) : gmap string node :=
  foldr (fun kn acc => if under src kn.1 then <[rebase src dst kn.1 := kn.2]> acc else acc)
        t (map_to_list t).

(** A regular file stands where [p] needs a directory: [p] lies below a
    path at which the tree has a regular file. *)
Definition through_file (t : gmap string node) (p : string) : bool :=
  existsb (fun kn =>
             match kn.2 with
             | File _ => under kn.1 p && negb (String.eqb kn.1 p)
             | Dir => false
             end)
          (map_to_list t).

(** ** The error-and-state monad *)

Definition M (A : Type) : Type := World -> result A * World.

Definition ret {A} (a : A) : M A := fun w => (Ok a, w).
Definition raise {A} (e : exn) : M A := fun w => (Raise e, w).
Definition bind {A B} (m : M A) (k : A -> M B) : M B :=
  fun w =>
    match m w with
    | (Ok a, w') => k a w'
    | (Raise e, w') => (Raise e, w')
    end.
(** [try: m] with the outcome handed to the handler as a value. *)
Definition try {A} (m : M A) : M (result A) :=
  fun w => let (r, w') := m w in (Ok r, w').

Notation "x <- m ;; k" := (bind m (fun x => k))
  (at level 100, m at next level, right associativity).
Notation "m ;; k" := (bind m (fun _ => k))
  (at level 100, right associativity).

Definition assert (b : bool) : M unit :=
  if b then ret tt else raise AssertionError.

Fixpoint for_each {A} (l : list A) (body : A -> M unit) : M unit :=
  match l with
  | [] => ret tt
  | x :: r => body x ;; for_each r body
  end.

Definition getattr (name : string) (f : Builder -> option string) : M string :=
  fun w =>
    match f (self w) with
    | Some v => (Ok v, w)
    | None => (Raise (AttributeError name), w)
    end.

Definition get_null : M unit :=
  fun w =>
    match self_null (self w) with
    | Some _ => (Ok tt, w)
    | None => (Raise (AttributeError "null"), w)
    end.

Definition set_null : M unit := fun w =>
  let b := self w in
  (Ok tt, with_self {| self_null := Some tt; self_location := self_location b;
                       self_version := self_version b; self_git := self_git b;
                       self_origname := self_origname b; self_debsrc := self_debsrc b |} w).
Definition set_location (v : string) : M unit := fun w =>
  let b := self w in
  (Ok tt, with_self {| self_null := self_null b; self_location := Some v;
                       self_version := self_version b; self_git := self_git b;
                       self_origname := self_origname b; self_debsrc := self_debsrc b |} w).
Definition set_version (v : string) : M unit := fun w =>
  let b := self w in
  (Ok tt, with_self {| self_null := self_null b; self_location := self_location b;
                       self_version := Some v; self_git := self_git b;
                       self_origname := self_origname b; self_debsrc := self_debsrc b |} w).
Definition set_git (v : string) : M unit := fun w =>
  let b := self w in
  (Ok tt, with_self {| self_null := self_null b; self_location := self_location b;
                       self_version := self_version b; self_git := Some v;
                       self_origname := self_origname b; self_debsrc := self_debsrc b |} w).
Definition set_origname (v : string) : M unit := fun w =>
  let b := self w in
  (Ok tt, with_self {| self_null := self_null b; self_location := self_location b;
                       self_version := self_version b; self_git := self_git b;
                       self_origname := Some v; self_debsrc := self_debsrc b |} w).
Definition set_debsrc (v : string) : M unit := fun w =>
  let b := self w in
  (Ok tt, with_self {| self_null := self_null b; self_location := self_location b;
                       self_version := self_version b; self_git := self_git b;
                       self_origname := self_origname b; self_debsrc := Some v |} w).

(** ** The script *)

Section Script.

Context (env : Env) (opts : Options).

(** A system call: it is recorded, then it fails with [OSError] if the host
    refuses it, and otherwise acts on the file tree as [sem] tells. *)
Definition sys {A} (e : event)
    (sem : gmap string node -> result (A * gmap string node)) : M A :=
  fun w =>
    let w1 := record e w in
    match fault env e (fs w) with
    | Some x => (Raise (OSError (errno_of x)), w1)
    | None =>
        match sem (fs w) with
        | Ok (a, t) => (Ok a, with_fs t w1)
        | Raise x => (Raise x, w1)
        end
    end.

(** [os.stat(p)]: [ENOTDIR] when the path runs through a regular file,
    [ENOENT] when nothing is there. *)
Definition os_stat (p : string) : M unit :=
  sys (EStat p) (fun t =>
    if through_file t p then Raise (OSError ENOTDIR)
    else
      match t !! p with
      | Some _ => Ok (tt, t)
      | None => Raise (OSError ENOENT)
      end).

Definition shutil_rmtree (p : string) : M unit :=
  sys (ERmtree p) (fun t =>
    match t !! p with
    | Some Dir => Ok (tt, remove_tree p t)
    | Some (File _) => Raise (OSError ENOTDIR)
    | None => Raise (OSError ENOENT)
    end).

Definition os_mkdir (p : string) : M unit :=
  sys (EMkdir p) (fun t =>
    match t !! p with
    | Some _ => Raise (OSError EEXIST)
    | None => Ok (tt, <[p := Dir]> t)
    end).

(** [shutil.copy(src, dst)]: into [dst] when it is a directory.  The
    same-file check of [copyfile] comes first, then the source is opened,
    then the target. *)
Definition shutil_copy (src dst : string) : M unit :=
  sys (ECopy src dst) (fun t =>
    let target :=
      match t !! dst with
      | Some Dir => Py.join dst [Py.basename src]
      | _ => dst
      end in
    match t !! src with
    | None => Raise (OSError ENOENT)
    | Some n =>
        if String.eqb src target then Raise (SameFile src target)
        else
          match n with
          | Dir => Raise (OSError EISDIR)
          | File c =>
              match t !! target with
              | Some Dir => Raise (OSError EISDIR)
              | _ => Ok (tt, <[target := File c]> t)
              end
          end
    end).

(** [shutil.copytree(src, dst)]: the source is listed first, then the
    destination is created, which must not exist. *)
Definition shutil_copytree (src dst : string) : M unit :=
  sys (ECopytree src dst) (fun t =>
    match t !! src with
    | Some Dir =>
        match t !! dst with
        | Some _ => Raise (OSError EEXIST)
        | None => Ok (tt, graft src dst t)
        end
    | Some (File _) => Raise (OSError ENOTDIR)
    | None => Raise (OSError ENOENT)
    end).

(** [with open(p) as f: f.read()] *)
Definition file_read (p : string) : M string :=
  sys (ERead p) (fun t =>
    match t !! p with
    | Some (File c) => Ok (c, t)
    | Some Dir => Raise (OSError EISDIR)
    | None => Raise (OSError ENOENT)
    end).

(** [with open(p, "w") as f: f.write(data)] *)
Definition file_write (p data : string) : M unit :=
  sys (EWrite p data) (fun t =>
    match t !! p with
    | Some Dir => Raise (OSError EISDIR)
    | _ => Ok (tt, <[p := File data]> t)
    end).

(** [self.null = open("/dev/null", "w")] *)
Definition open_null : M unit :=
  sys EOpenNull (fun t => Ok (tt, t)) ;; set_null.

(** [self.null.close()]: nothing was ever written through the handle, so
    there is nothing to flush and the call does not fail. *)
Definition close_null : M unit :=
  get_null ;; (fun w => (Ok tt, record ECloseNull w)).

Definition glob_glob (pattern : string) : M (list string) :=
  fun w => (Ok (glob env pattern (fs w)), record (EGlob pattern) w).

(** [subprocess.call(args, **kw)]: what the child writes on its standard
    output lands in the pipe when that is where its output goes. *)
Definition subprocess_call (args : list string) (kw : kwargs) : M Z :=
  fun w =>
    let cwd := match kw_cwd kw with Some d => d | None => None end in
    let out := match kw_stdout kw with Some s => s | None => Inherit end in
    let err := match kw_stderr kw with Some s => s | None => Inherit end in
    let w1 := record (ECall args cwd out err) w in
    match run env args cwd (fs w) with
    | SpawnError e => (Raise (OSError e), w1)
    | Exited rc text t =>
        (Ok rc,
         with_fs t (match out with
                    | Pipe => with_pipe (pipe w ++ text) w1
                    | _ => w1
                    end))
    end.

Definition cmd (args : list string) (kw : kwargs) : M unit :=
  kw <- (if verbose opts then ret kw
         else
           kw <- (match kw_stdout kw with
                  | Some _ => ret kw
                  | None =>
                      get_null ;;
                      ret {| kw_cwd := kw_cwd kw; kw_stdout := Some DevNull;
                             kw_stderr := kw_stderr kw |}
                  end) ;;
           match kw_stderr kw with
           | Some _ => ret kw
           | None =>
               get_null ;;
               ret {| kw_cwd := kw_cwd kw; kw_stdout := kw_stdout kw;
                      kw_stderr := Some DevNull |}
           end) ;;
  kw <- (match kw_cwd kw with
         | Some _ => ret kw
         | None =>
             l <- getattr "location" self_location ;;
             ret {| kw_cwd := Some (Some l); kw_stdout := kw_stdout kw;
                    kw_stderr := kw_stderr kw |}
         end) ;;
  rc <- subprocess_call args kw ;;
  if (rc =? 0)%Z then ret tt else raise (SubprocessExited args).

Definition loc (parts : list string) : M string :=
  l <- getattr "location" self_location ;;
  ret (Py.join l parts).

Definition os_pipe : M unit := fun w => (Ok tt, with_pipe "" w).
Definition read_pipe : M string := fun w => (Ok (pipe w), with_pipe "" w).

Definition cmd_output (args : list string) (kw : kwargs) : M string :=
  os_pipe ;;
  cmd args {| kw_cwd := kw_cwd kw; kw_stdout := Some Pipe; kw_stderr := kw_stderr kw |} ;;
  text <- read_pipe ;;
  ret (Py.strip text).

Definition default_distro : M string :=
  distributor <- cmd_output ["lsb_release"; "-si"] no_kwargs ;;
  if String.eqb (Py.strip distributor) "Debian" then ret "unstable"
  else
    codename <- cmd_output ["lsb_release"; "-sc"] no_kwargs ;;
    ret (Py.strip codename).

Definition clean_build_dir : M unit :=
  l <- getattr "location" self_location ;;
  r <- try (os_stat l) ;;
  match r with
  | Raise (OSError ENOENT) => ret tt
  | Raise e => raise e
  | Ok _ =>
      l <- getattr "location" self_location ;;
      shutil_rmtree l
  end.

Definition charset_message : string :=
  "Some build scripts don't like non a-zA-Z0-9-_ in the path to the build directory; sorry :-(".

Definition setup_build_dir : M unit :=
  set_location (realpath env (directory opts)) ;;
  l <- getattr "location" self_location ;;
  if negb (Re.match_location l) then raise (Exception_ charset_message)
  else
    clean_build_dir ;;
    l <- getattr "location" self_location ;;
    os_mkdir l.

(** *** [get_orig_tar], in its four successive blocks *)

(** Lines 150-160: clone, check out, sub-repositories, [make dist]. *)
Definition make_dist : M unit :=
  g <- loc ["git-tmp"] ;;
  cmd ["git"; "clone"; dl_fldigi_source opts; g] (cwd_ None) ;;
  (match dl_fldigi_commit opts with
   | Some c =>
       if truthy (Some c) then cmd ["git"; "checkout"; c] (cwd_ (Some g)) else ret tt
   | None => ret tt
   end) ;;
  cmd ["git"; "submodule"; "init"] (cwd_ (Some g)) ;;
  cmd ["git"; "submodule"; "update"] (cwd_ (Some g)) ;;
  cmd ["autoreconf"; "-vfi"] (cwd_ (Some g)) ;;
  cmd ["./configure"] (cwd_ (Some g)) ;;
  cmd ["make"; "dist"] (cwd_ (Some g)) ;;
  ret tt.

(** Lines 162-168: the distribution archive and the version in its name.
    The value is [distname]. *)
Definition find_dist : M string :=
  pattern <- loc ["git-tmp"; "dl-fldigi-*.tar.gz"] ;;
  search <- glob_glob pattern ;;
  assert (length search =? 1)%nat ;;
  match search with
  | [] => raise IndexError
  | first :: _ =>
      let distname := Py.basename first in
      assert (Py.startswith distname "dl-fldigi-") ;;
      assert (Py.endswith distname ".tar.gz") ;;
      set_version (Py.slice distname (Py.len "dl-fldigi-") (- Py.len ".tar.gz")) ;;
      ret distname
  end.

(** Lines 170-175: the abbreviated commit hash. *)
Definition find_commit : M unit :=
  g <- loc ["git-tmp"] ;;
  line <- cmd_output ["git"; "log"; "--oneline"; "-1"] (cwd_ (Some g)) ;;
  match Py.split line with
  | [] => raise IndexError
  | first :: _ =>
      set_git first ;;
      commit <- getattr "git" self_git ;;
      assert (Py.len commit =? 7)%Z
  end.

(** Lines 177-182: the archive under its Debian name, the clone discarded. *)
Definition keep_orig (distname : string) : M unit :=
  v <- getattr "version" self_version ;;
  set_origname ("dl-fldigi_" ++ v ++ ".orig.tar.gz") ;;
  src <- loc ["git-tmp"; distname] ;;
  o <- getattr "origname" self_origname ;;
  dst <- loc [o] ;;
  shutil_copy src dst ;;
  g <- loc ["git-tmp"] ;;
  shutil_rmtree g.

Definition get_orig_tar : M unit :=
  make_dist ;;
  distname <- find_dist ;;
  find_commit ;;
  keep_orig distname.

(** [changelog.format(version=..., distro=..., commit=..., date=...)] *)
Definition changelog_kwargs (v g d date : string) : gmap string string :=
  <["version" := v ++ "-" ++ g]> (<["distro" := d]> (<["commit" := g]> (<["date" := date]> ∅))).

Definition str_format (template : string) (kw : gmap string string) : M string :=
  match Fmt.scan kw Fmt.Text template with
  | Some (Ok s) => ret s
  | Some (Raise e) => raise e
  | None =>
      match format_ext env template kw with
      | Ok s => ret s
      | Raise e => raise e
      end
  end.

(** [distro = self.options["distro"]; if not distro: distro = self.default_distro()] *)
Definition resolve_distro : M string :=
  match distro opts with
  | Some d => if truthy (Some d) then ret d else default_distro
  | None => default_distro
  end.

(** *** [add_debian_dir], in its two successive blocks *)

(** Lines 185-194: the versioned directory, the archive unpacked into it,
    the bundled [debian] directory copied over. *)
Definition unpack_orig : M unit :=
  v <- getattr "version" self_version ;;
  g <- getattr "git" self_git ;;
  set_debsrc ("dl-fldigi-" ++ v ++ "-" ++ g) ;;
  d <- getattr "debsrc" self_debsrc ;;
  t <- loc [d] ;;
  os_mkdir t ;;
  o <- getattr "origname" self_origname ;;
  orig <- loc [o] ;;
  cmd ["tar"; "xfC"; orig; t; "--strip-components=1"] no_kwargs ;;
  let script_loc := Py.dirname (realpath env (script_file env)) in
  let debian := Py.join script_loc ["debian"] in
  d <- getattr "debsrc" self_debsrc ;;
  target <- loc [d; "debian"] ;;
  shutil_copytree debian target.

(** Lines 196-210: the changelog read, filled in and written back. *)
Definition fill_changelog : M unit :=
  d <- getattr "debsrc" self_debsrc ;;
  changelog_file <- loc [d; "debian"; "changelog"] ;;
  changelog <- file_read changelog_file ;;
  dist <- resolve_distro ;;
  v <- getattr "version" self_version ;;
  g <- getattr "git" self_git ;;
  changelog <- str_format changelog (changelog_kwargs v g dist (formatdate env)) ;;
  file_write changelog_file changelog.

Definition add_debian_dir : M unit :=
  unpack_orig ;;
  fill_changelog.

Definition build : M unit :=
  let args :=
    app (match make_jobs opts with
         | Some j => if truthy (Some j) then ["-j" ++ j] else []
         | None => []
         end)
        (if get_src opts then ["-S"] else []) in
  d <- getattr "debsrc" self_debsrc ;;
  dir <- loc [d] ;;
  cmd ("debuild" :: "-uc" :: "-us" :: args) (cwd_ (Some dir)).

Definition get_files : M unit :=
  v <- getattr "version" self_version ;;
  g <- getattr "git" self_git ;;
  let prefix := "dl-fldigi_" ++ v ++ "-" ++ g in
  if get_src opts then
    let files := [prefix ++ ".orig.tar.gz"; prefix ++ ".debian.tar.gz"; prefix ++ ".dsc"] in
    o <- getattr "origname" self_origname ;;
    assert (String.eqb (prefix ++ ".orig.tar.gz") o) ;;
    for_each files (fun fn =>
      src <- loc [fn] ;;
      shutil_copy src (output opts))
  else
    let name := prefix ++ "_*.deb" in
    pattern <- loc [name] ;;
    search <- glob_glob pattern ;;
    assert (length search =? 1)%nat ;;
    match search with
    | [] => raise IndexError
    | deb :: _ => shutil_copy deb (output opts)
    end.

(** *** [main], from its first [try] on *)

Definition setup_phase : M unit := open_null ;; setup_build_dir.
Definition build_phase : M unit := get_orig_tar ;; add_debian_dir ;; build ;; get_files.
Definition cleanup_phase : M unit := close_null ;; clean_build_dir.

(** The value is the exit status of the process. *)
Definition main (w : World) : Z * World :=
  match setup_phase w with
  | (Raise _, w1) => (1%Z, w1)
  | (Ok _, w1) =>
      let (r2, w2) := build_phase w1 in
      let delay_error := negb (is_ok r2) in
      let (r3, w3) := cleanup_phase w2 in
      ((if delay_error then 1 else 0)%Z, w3)
  end.

End Script.

(** ** A concrete environment

    A host on which every tool works: [git clone] creates the clone,
    [make dist] leaves the archives named in [dist] in it, [git log] prints
    [summary], [debuild] leaves its products next to the source directory.
    [stuck], when given, is a directory that [shutil.rmtree] is refused
    permission to remove. *)

Module Sample.

Definition nl : string := String Py.LF "".

(** [fnmatch] for patterns whose only wildcard is [*]; the star stays inside
    one path component. *)
Fixpoint wild (p s : string) : bool :=
  match p with
  | EmptyString => String.eqb s ""
  | String c p' =>
      if Ascii.eqb c "*" then
        (fix star (s : string) : bool :=
           wild p' s ||
           match s with
           | String d s' => negb (Ascii.eqb d "/") && star s'
           | EmptyString => false
           end) s
      else
        match s with
        | String d s' => Ascii.eqb c d && wild p' s'
        | EmptyString => false
        end
  end.

Definition host_glob (pattern : string) (t : gmap string node) : list string :=
  List.filter (wild pattern) (map fst (map_to_list t)).

Definition is_cmd (args prefix : list string) : bool :=
  bool_decide (take (length prefix) args = prefix).

Definition debuild (args : list string) (d : string) (t : gmap string node) : gmap string node :=
  let name := Py.basename d in
  let stem := Py.join (Py.dirname d)
                ["dl-fldigi_" ++ String.substring 10 (String.length name - 10) name] in
  if bool_decide ("-S" ∈ args) then
    <[stem ++ ".dsc" := File "dsc"]> (<[stem ++ ".debian.tar.gz" := File "debian"]> t)
  else
    <[stem ++ "_amd64.deb" := File "deb"]> t.

Definition host_run (dist : list string) (summary : string)
    (args : list string) (cwd : option string) (t : gmap string node) : proc :=
  if is_cmd args ["git"; "clone"] then
    match args with
    | [_; _; _; g] => Exited 0 "" (<[Py.join g ["configure.ac"] := File "AC_INIT"]> (<[g := Dir]> t))
    | _ => Exited 129 "" t
    end
  else if is_cmd args ["make"; "dist"] then
    match cwd with
    | Some g => Exited 0 "" (foldr (fun f acc => <[Py.join g [f] := File "tarball"]> acc) t dist)
    | None => Exited 2 "" t
    end
  else if is_cmd args ["git"; "log"] then Exited 0 summary t
  else if is_cmd args ["lsb_release"; "-si"] then Exited 0 ("Debian" ++ nl) t
  else if is_cmd args ["lsb_release"; "-sc"] then Exited 0 ("bookworm" ++ nl) t
  else if is_cmd args ["debuild"] then
    match cwd with
    | Some d => Exited 0 "" (debuild args d t)
    | None => Exited 2 "" t
    end
  else Exited 0 "" t.

Definition host_fault (stuck : option string) (e : event) (t : gmap string node)
    : option refusal :=
  match e with
  | ERmtree p => if bool_decide (Some p = stuck) then Some Permission else None
  | _ => None
  end.

Definition env (dist : list string) (summary : string) (stuck : option string) : Env :=
  {| realpath := fun p => if Py.startswith p "/" then p else Py.join "/home/u" [p];
     script_file := "/opt/pkg/debian.py";
     fault := host_fault stuck;
     run := host_run dist summary;
     glob := host_glob;
     formatdate := "Tue, 03 Nov 2026 10:49:00 -0000";
     format_ext := fun _ _ => Raise ValueError |}.

Definition template : string :=
  "dl-fldigi ({version}) {distro}; urgency=low" ++ nl ++ nl ++
  "  * Build of {commit}" ++ nl ++ nl ++
  " -- Builder <builder@example.org>  {date}" ++ nl.

Definition tree : gmap string node :=
  <["/opt/pkg/debian/changelog" := File template]>
    (<["/opt/pkg/debian/control" := File "Source: dl-fldigi"]>
       (<["/opt/pkg/debian" := Dir]> (<["." := Dir]> ∅))).

Definition opts : Options :=
  {| directory := "debian_build"; quiet := false; verbose := false; output := ".";
     get_src := false; make_jobs := None; distro := None;
     dl_fldigi_source := "./repo"; dl_fldigi_commit := None |}.

Definition source_only (o : Options) : Options :=
  {| directory := directory o; quiet := quiet o; verbose := verbose o; output := output o;
     get_src := true; make_jobs := make_jobs o; distro := distro o;
     dl_fldigi_source := dl_fldigi_source o; dl_fldigi_commit := dl_fldigi_commit o |}.

Definition in_directory (d : string) (o : Options) : Options :=
  {| directory := d; quiet := quiet o; verbose := verbose o; output := output o;
     get_src := get_src o; make_jobs := make_jobs o; distro := distro o;
     dl_fldigi_source := dl_fldigi_source o; dl_fldigi_commit := dl_fldigi_commit o |}.

Definition for_distro (d : option string) (o : Options) : Options :=
  {| directory := directory o; quiet := quiet o; verbose := verbose o; output := output o;
     get_src := get_src o; make_jobs := make_jobs o; distro := d;
     dl_fldigi_source := dl_fldigi_source o; dl_fldigi_commit := dl_fldigi_commit o |}.

(** The host where all goes well. *)
Definition good : Env := env ["dl-fldigi-3.21.tar.gz"] ("abcdef1 Release 3.21" ++ nl) None.

End Sample.

(** ** Vocabulary of the statements *)

(** The glob pattern of the distribution archive and the revision query. *)
Definition dist_pattern (l : string) : string := Py.join l ["git-tmp"; "dl-fldigi-*.tar.gz"].
Definition git_log : list string := ["git"; "log"; "--oneline"; "-1"].

(** The streams and the directory [cmd] hands to [subprocess.call]. *)
Definition stream_for (verbose : bool) (given : option stream) : stream :=
  match given with
  | Some s => s
  | None => if verbose then Inherit else DevNull
  end.

Definition cwd_for (w : World) (kw : kwargs) : option string :=
  match kw_cwd kw with
  | Some d => d
  | None => self_location (self w)
  end.

(** [cmd] finds the attributes it reads. *)
Definition cmd_ready (opts : Options) (w : World) (kw : kwargs) : Prop :=
  (verbose opts = false -> self_null (self w) = Some tt) /\
  (kw_cwd kw = None -> exists l, self_location (self w) = Some l).

(** The calls by which [add_debian_dir] injects the packaging metadata: the
    versioned directory, the unpacking, the overlay, the changelog. *)
Definition injection (e : event) : bool :=
  match e with
  | EMkdir _ | ECopytree _ _ | ERead _ | EWrite _ _ => true
  | ECall (tool :: _) _ _ _ => String.eqb tool "tar"
  | _ => false
  end.

Definition quiet_event (e : event) : Prop := injection e = false.
Definition any_event (e : event) : Prop := True.

(** Attributes a computation may change. *)
Definition same_self (b b' : Builder) : Prop := b' = b.
Definition same_base (b b' : Builder) : Prop :=
  self_null b' = self_null b /\ self_location b' = self_location b.

(** [m] changes [self] within [R] and only adds events that satisfy [P]. *)
Definition steady (R : Builder -> Builder -> Prop) (P : event -> Prop) {A} (m : M A) : Prop :=
  forall w,
    R (self w) (self (snd (m w))) /\
    exists evs, trace (snd (m w)) = (trace w ++ evs)%list /\ Forall P evs.

(** Texts without a line feed, and texts of one line. *)
Fixpoint no_lf (s : string) : bool :=
  match s with
  | EmptyString => true
  | String c r => negb (Ascii.eqb c Py.LF) && no_lf r
  end.

Definition single_line (text : string) : Prop :=
  exists l, no_lf l = true /\ (text = l \/ text = l ++ String Py.LF "").

(** Texts of whitespace only, and texts without whitespace. *)
Fixpoint all_space (s : string) : bool :=
  match s with
  | EmptyString => true
  | String c r => Py.isspace c && all_space r
  end.

Fixpoint no_space (s : string) : bool :=
  match s with
  | EmptyString => true
  | String c r => negb (Py.isspace c) && no_space r
  end.

(** Names without a slash. *)
Fixpoint no_slash (s : string) : bool :=
  match s with
  | EmptyString => true
  | String c r => negb (Ascii.eqb c "/") && no_slash r
  end.

(** [name] is the file name of [path]: what follows its last slash, or all
    of it when it has none. *)
Definition file_name (path name : string) : Prop :=
  no_slash name = true /\ (path = name \/ exists dir, path = dir ++ "/" ++ name).

(** [tok] is the first whitespace-separated token of [text]: [text] is
    whitespace, then [tok], which is not empty and holds no whitespace, then
    nothing more or a whitespace character and whatever follows it. *)
Definition first_token (text tok : string) : Prop :=
  exists lead rest,
    text = lead ++ tok ++ rest /\
    all_space lead = true /\
    tok <> "" /\ no_space tok = true /\
    match rest with
    | EmptyString => True
    | String c _ => Py.isspace c = true
    end.

(** Paths made of allowed characters only. *)
Fixpoint allowed (s : string) : bool :=
  match s with
  | EmptyString => true
  | String c r => Re.location_class c && allowed r
  end.

(** *** Changelog templates

    A template seen as the spec describes it: literal text (without braces)
    and the four placeholders. *)

Inductive placeholder := PVersion | PDistro | PCommit | PDate.

Definition key (p : placeholder) : string :=
  match p with
  | PVersion => "version"
  | PDistro => "distro"
  | PCommit => "commit"
  | PDate => "date"
  end.

Inductive piece :=
| Plain (text : string)
| Hole (p : placeholder).

Fixpoint plain (s : string) : bool :=
  match s with
  | EmptyString => true
  | String c r => negb (Ascii.eqb c "{") && negb (Ascii.eqb c "}") && plain r
  end.

Definition well_formed (ps : list piece) : bool :=
  forallb (fun p => match p with Plain t => plain t | Hole _ => true end) ps.

Fixpoint render (ps : list piece) : string :=
  match ps with
  | [] => ""
  | Plain t :: r => t ++ render r
  | Hole p :: r => "{" ++ key p ++ "}" ++ render r
  end.

(** What each placeholder stands for, by the spec. *)
Definition value (v g dist date : string) (p : placeholder) : string :=
  match p with
  | PVersion => v ++ "-" ++ g
  | PDistro => dist
  | PCommit => g
  | PDate => date
  end.

Fixpoint substitute (val : placeholder -> string) (ps : list piece) : string :=
  match ps with
  | [] => ""
  | Plain t :: r => t ++ substitute val r
  | Hole p :: r => val p ++ substitute val r
  end.

(** ** Scenarios

    Runs of the script on the concrete host, used to try the statements. *)

Module Scenario.

Import Sample.

Definition wd : string := "/home/u/debian_build".
Definition archive : string := "dl-fldigi-3.21.tar.gz".
Definition summary : string := "abcdef1 Release 3.21" ++ nl.

(** The working directory cannot be removed. *)
Definition stuck : Env := env [archive] summary (Some wd).

(** [make dist] leaves no archive; with and without a stuck directory. *)
Definition no_dist : Env := env [] summary None.
Definition no_dist_stuck : Env := env [] summary (Some wd).

(** [git log] prints an abbreviated hash of five characters. *)
Definition short_hash : Env := env [archive] ("abc12 Release 3.21" ++ nl) None.

(** [git log] prints a line of seven characters whose first token has three. *)
Definition seven_wide : Env := env [archive] ("abc 123" ++ nl) None.

(** [git log] prints two lines. *)
Definition two_lines : Env :=
  env [archive] ("abcdef1 Release 3.21" ++ nl ++ "0123456 Older" ++ nl) None.

(** The project's version is empty. *)
Definition empty_version : Env := env ["dl-fldigi-.tar.gz"] summary None.

(** A tree in which the working directory [b<LF>] is left from an earlier run. *)
Definition newline_dir : string := "/home/u/b" ++ nl.
Definition old_tree : gmap string node :=
  <[Py.join newline_dir ["stale"] := File "old"]> (<[newline_dir := Dir]> tree).

(** The home directory has a space in its name. *)
Definition spaced_home : Env :=
  {| realpath := fun p => if Py.startswith p "/" then p else Py.join "/home/my user" [p];
     script_file := script_file good;
     fault := fault good;
     run := run good;
     glob := glob good;
     formatdate := formatdate good;
     format_ext := format_ext good |}.

(** The sample changelog, piece by piece. *)
Definition pieces : list piece :=
  [Plain "dl-fldigi ("; Hole PVersion; Plain ") "; Hole PDistro;
   Plain ("; urgency=low" ++ nl ++ nl ++ "  * Build of "); Hole PCommit;
   Plain (nl ++ nl ++ " -- Builder <builder@example.org>  "); Hole PDate; Plain nl].

Definition debsrc : string := "dl-fldigi-3.21-abcdef1".
Definition changelog_file : string := Py.join wd [debsrc; "debian"; "changelog"].

(** The worlds a good run goes through. *)
Definition started (e : Env) (o : Options) : World := snd (setup_phase e o (boot tree)).
Definition distributed (e : Env) (o : Options) : World := snd (make_dist e o (started e o)).
Definition found (e : Env) (o : Options) : World := snd (find_dist e (distributed e o)).
Definition acquired (e : Env) (o : Options) : World := snd (get_orig_tar e o (started e o)).
Definition unpacked (e : Env) (o : Options) : World := snd (unpack_orig e o (acquired e o)).
Definition built (e : Env) (o : Options) : World :=
  snd ((get_orig_tar e o ;; add_debian_dir e o ;; build e o) (started e o)).

End Scenario.


(** ** Vocabulary of the further properties *)

(** The calls setup makes on the working directory [l]. *)
Definition setup_call (l : string) (e : event) : Prop :=
  e = EOpenNull \/ e = EStat l \/ e = ERmtree l \/ e = EMkdir l.

(** The commands of [make_dist], in order, each with its directory. *)
Definition dist_commands (opts : Options) (g : string) : list (list string * option string) :=
  ((["git"; "clone"; dl_fldigi_source opts; g], None)
   :: match dl_fldigi_commit opts with
      | Some c => if truthy (Some c) then [(["git"; "checkout"; c], Some g)] else []
      | None => []
      end
   ++ [(["git"; "submodule"; "init"], Some g);
       (["git"; "submodule"; "update"], Some g);
       (["autoreconf"; "-vfi"], Some g);
       (["./configure"], Some g);
       (["make"; "dist"], Some g)])%list.

(** The call [cmd] makes for a command given with its directory only. *)
Definition call_of (opts : Options) (c : list string * option string) : event :=
  ECall c.1 c.2 (stream_for (verbose opts) None) (stream_for (verbose opts) None).

(** Field names that [Fmt.scan] looks up among the keyword arguments. *)
Definition field_start (c : ascii) : bool :=
  negb (Ascii.eqb c "{") && negb (Ascii.eqb c "}") && negb (Fmt.special c) && negb (Fmt.digit c).

Fixpoint field_tail (s : string) : bool :=
  match s with
  | EmptyString => true
  | String c r => negb (Ascii.eqb c "}") && negb (Fmt.special c) && field_tail r
  end.

Definition field_name (s : string) : bool :=
  match s with
  | EmptyString => false
  | String c r => field_start c && field_tail r
  end.


(** The calls by which the script itself changes the file tree, with the
    place they change: it is the working directory [l] or begins with it,
    or it is the output option handed to [shutil.copy].  A command is
    started in the working directory or below it, or it is the clone, which
    is given no directory. *)
Definition confined (l out : string) (e : event) : Prop :=
  match e with
  | ERmtree p | EMkdir p | EWrite p _ => under l p = true
  | ECopytree _ dst => under l dst = true
  | ECopy _ dst => under l dst = true \/ dst = out
  | ECall args (Some c) _ _ => under l c = true
  | ECall args None _ _ => exists src g, args = ["git"; "clone"; src; g]
  | _ => True
  end.

(** [self.location] is [l]; and [self.debsrc] is set to a relative name. *)
Definition located (l : string) (b : Builder) : Prop := self_location b = Some l.
Definition sourced (l : string) (b : Builder) : Prop :=
  located l b /\ exists d, self_debsrc b = Some d /\ Py.startswith d "/" = false.

(** From attributes that satisfy [pre], [m] only adds events that satisfy
    [P], and a value it returns satisfies [post] with the attributes then. *)
Definition hoare (P : event -> Prop) {A} (pre : Builder -> Prop) (m : M A)
    (post : A -> Builder -> Prop) : Prop :=
  forall w, pre (self w) ->
    (forall a, fst (m w) = Ok a -> post a (self (snd (m w)))) /\
    exists evs, trace (snd (m w)) = (trace w ++ evs)%list /\ Forall P evs.

(** The orig archive is named after the version in [self.version]. *)
Definition named (b : Builder) : Prop :=
  exists v, self_version b = Some v /\
            self_origname b = Some ("dl-fldigi_" ++ v ++ ".orig.tar.gz").

(** Inputs on which the further properties are exercised. *)
Module Cases.

Import Sample Scenario.

(** A regular file sits where the working directory is to be. *)
Definition occupied : gmap string node := <[wd := File "notes"]> tree.

(** The world before [keep_orig]. *)
Definition hashed : World := snd (find_commit good opts (found good opts)).

(** A world whose working directory is to lie below a regular file. *)
Definition blocked : World :=
  snd (set_location (Py.join wd ["notes"; "build"])
         (boot (<[Py.join wd ["notes"] := File "notes"]> tree))).

(** The world after the changelog is filled in, and the package the build leaves. *)
Definition injected : World := snd (add_debian_dir good opts (acquired good opts)).
Definition package : string := Py.join wd ["dl-fldigi_3.21-abcdef1_amd64.deb"].

(** The package is to be delivered into the working directory itself. *)
Definition into_workdir : Options :=
  {| directory := directory opts; quiet := quiet opts; verbose := verbose opts;
     output := wd; get_src := get_src opts; make_jobs := make_jobs opts;
     distro := distro opts; dl_fldigi_source := dl_fldigi_source opts;
     dl_fldigi_commit := dl_fldigi_commit opts |}.

(** A changelog that asks for a fifth placeholder. *)
Definition odd_tree : gmap string node :=
  <["/opt/pkg/debian/changelog" := File "dl-fldigi ({version}) {urgency}"]> tree.
Definition odd_pieces : list piece := [Plain "dl-fldigi ("; Hole PVersion; Plain ") "].
Definition odd_unpacked : World :=
  snd (unpack_orig good opts
         (snd (get_orig_tar good opts (snd (setup_phase good opts (boot odd_tree)))))).

End Cases.

(** * Properties *)

(** ** Strings *)

Lemma str_app_cons c s t : String c s ++ t = String c (s ++ t).
Proof. reflexivity. Qed.

Lemma str_app_nil_l t : "" ++ t = t.
Proof. reflexivity. Qed.

Lemma str_app_nil_r s : s ++ "" = s.
Proof. induction s as [|c s IH]; [reflexivity|]. rewrite str_app_cons, IH. reflexivity. Qed.

Lemma str_app_assoc s t u : (s ++ t) ++ u = s ++ (t ++ u).
Proof.
  induction s as [|c s IH]; [reflexivity|].
  rewrite !str_app_cons, IH. reflexivity.
Qed.

Lemma str_length_app s t : String.length (s ++ t) = (String.length s + String.length t)%nat.
Proof.
  induction s as [|c s IH]; [reflexivity|].
  rewrite str_app_cons. simpl. rewrite IH. reflexivity.
Qed.

Lemma prefix_split p s : String.prefix p s = true -> exists r, s = p ++ r.
Proof.
  revert s. induction p as [|c p IH]; intros s H.
  - exists s. reflexivity.
  - destruct s as [|d s]; [discriminate|]. simpl in H.
    destruct (ascii_dec c d) as [->|]; [|discriminate].
    destruct (IH s H) as [r ->]. exists r. reflexivity.
Qed.

Lemma substring_skip p n r :
  String.substring (String.length p) n (p ++ r) = String.substring 0 n r.
Proof.
  induction p as [|c p IH]; [reflexivity|].
  rewrite str_app_cons. simpl. exact IH.
Qed.

Lemma substring_take a b : String.substring 0 (String.length a) (a ++ b) = a.
Proof.
  induction a as [|c a IH]; [destruct b; reflexivity|].
  rewrite str_app_cons. simpl. rewrite IH. reflexivity.
Qed.

Lemma substring_cut n s :
  (n <= String.length s)%nat ->
  s = String.substring 0 n s ++ String.substring n (String.length s - n) s.
Proof.
  revert n. induction s as [|c s IH]; intros n H.
  - destruct n; [reflexivity|simpl in H; lia].
  - destruct n as [|n].
    + simpl. rewrite str_app_nil_l. f_equal.
      pose proof (substring_take s "") as E. rewrite str_app_nil_r in E. symmetry. exact E.
    + simpl. rewrite str_app_cons. f_equal. apply IH. simpl in H. lia.
Qed.

Lemma endswith_split s suf : Py.endswith s suf = true -> exists h, s = h ++ suf.
Proof.
  unfold Py.endswith. intros H. apply andb_prop in H as [Hl He].
  apply Nat.leb_le in Hl. apply String.eqb_eq in He.
  exists (String.substring 0 (String.length s - String.length suf) s).
  rewrite (substring_cut (String.length s - String.length suf) s) at 1 by lia.
  f_equal. replace (String.length s - (String.length s - String.length suf))%nat
    with (String.length suf) by lia. exact He.
Qed.

Lemma str_prefix_app a b : String.prefix a (a ++ b) = true.
Proof.
  induction a as [|c a IH]; [by destruct b|].
  rewrite str_app_cons. simpl. destruct (ascii_dec c c); [exact IH|contradiction].
Qed.

Lemma endswith_app h suf : Py.endswith (h ++ suf) suf = true.
Proof.
  unfold Py.endswith. rewrite str_length_app. apply andb_true_intro. split.
  - apply Nat.leb_le. lia.
  - replace (String.length h + String.length suf - String.length suf)%nat
      with (String.length h) by lia.
    rewrite substring_skip. pose proof (substring_take suf "") as E.
    rewrite str_app_nil_r in E. rewrite E. apply String.eqb_refl.
Qed.

(** [s[len(p):-len(suf)]] of [p + h + suf] is [h], for a non-empty suffix. *)
Lemma slice_between p h s :
  (0 < String.length s)%nat ->
  Py.slice (p ++ h ++ s) (Py.len p) (- Py.len s) = h.
Proof.
  intros Hs.
  unfold Py.slice, Py.len, Py.clamp. rewrite !str_length_app.
  remember (String.length p) as a eqn:Ea.
  remember (String.length h) as b eqn:Eb.
  remember (String.length s) as c eqn:Ec.
  destruct (Z.ltb_spec (- Z.of_nat c) 0) as [Hc|Hc]; [|lia].
  destruct (Z.ltb_spec (Z.of_nat a) 0) as [Ha|Ha]; [lia|].
  rewrite Z.min_l by lia. rewrite Z.max_l by lia.
  destruct (Z.ltb_spec (Z.of_nat a) (Z.of_nat (a + (b + c)) + - Z.of_nat c)) as [Hlt|Hge].
  - rewrite Nat2Z.id.
    replace (Z.to_nat (Z.of_nat (a + (b + c)) + - Z.of_nat c - Z.of_nat a)) with b by lia.
    subst a b. rewrite substring_skip. apply substring_take.
  - assert (b = 0)%nat as Hb by lia. subst b. destruct h; [reflexivity|simpl in Hb; lia].
Qed.

(** After the prefix, a name that ends with the suffix has room for it: the
    suffix cannot start inside the prefix. *)
Lemma dist_tail_long r :
  Py.endswith ("dl-fldigi-" ++ r) ".tar.gz" = true -> (7 <= String.length r)%nat.
Proof.
  intros H.
  destruct r as [|c1 [|c2 [|c3 [|c4 [|c5 [|c6 [|c7 r]]]]]]];
    try (vm_compute in H; discriminate H).
  simpl. lia.
Qed.

(** A name that passes both assertions of [find_dist] is the prefix, the
    slice and the suffix in a row. *)
Lemma dist_name_shape d :
  Py.startswith d "dl-fldigi-" = true ->
  Py.endswith d ".tar.gz" = true ->
  d = "dl-fldigi-" ++ Py.slice d (Py.len "dl-fldigi-") (- Py.len ".tar.gz") ++ ".tar.gz".
Proof.
  intros Hp Hs. apply prefix_split in Hp as [r ->].
  pose proof (dist_tail_long r Hs) as Hlen.
  assert (exists h, r = h ++ ".tar.gz") as [h ->].
  { apply endswith_split. unfold Py.endswith in *.
    apply andb_prop in Hs as [_ He]. apply andb_true_intro. split.
    - apply Nat.leb_le. exact Hlen.
    - rewrite str_length_app in He.
      replace (String.length "dl-fldigi-" + String.length r - String.length ".tar.gz")%nat
        with (String.length "dl-fldigi-" + (String.length r - String.length ".tar.gz"))%nat in He
        by (simpl in *; lia).
      revert He. generalize (String.length r - String.length ".tar.gz")%nat as n.
      intros n. change ("dl-fldigi-" ++ r) with
        (String "d" (String "l" (String "-" (String "f" (String "l" (String "d"
          (String "i" (String "g" (String "i" (String "-" r)))))))))).
      simpl. auto. }
  rewrite slice_between by (simpl; lia). reflexivity.
Qed.

(** The name [get_files] computes for the orig archive is longer than the
    one [keep_orig] gave it. *)
Lemma orig_names_differ v g :
  String.eqb (("dl-fldigi_" ++ v ++ "-" ++ g) ++ ".orig.tar.gz")
             ("dl-fldigi_" ++ v ++ ".orig.tar.gz") = false.
Proof.
  apply String.eqb_neq. intros E. apply (f_equal String.length) in E.
  rewrite !str_length_app in E. simpl in E. lia.
Qed.

Lemma lstrip_head s :
  Py.lstrip s = "" \/ exists c r, Py.lstrip s = String c r /\ Py.isspace c = false.
Proof.
  induction s as [|c s IH]; [left; reflexivity|].
  simpl. destruct (Py.isspace c) eqn:E; [exact IH|].
  right. exists c, s. split; [reflexivity|exact E].
Qed.

Lemma rstrip_idem s : Py.rstrip (Py.rstrip s) = Py.rstrip s.
Proof.
  induction s as [|c s IH]; [reflexivity|].
  simpl. destruct (Py.rstrip s) as [|d r'] eqn:E.
  - destruct (Py.isspace c) eqn:Ec; [reflexivity|]. simpl. rewrite Ec. reflexivity.
  - change (Py.rstrip (String c (String d r'))) with
      (match Py.rstrip (String d r') with
       | "" => if Py.isspace c then "" else String c ""
       | r'' => String c r''
       end).
    rewrite IH. reflexivity.
Qed.

Lemma rstrip_keeps_head c r :
  Py.isspace c = false -> exists r', Py.rstrip (String c r) = String c r'.
Proof.
  intros Ec. simpl. destruct (Py.rstrip r).
  - rewrite Ec. eauto.
  - eauto.
Qed.

Lemma strip_idem s : Py.strip (Py.strip s) = Py.strip s.
Proof.
  unfold Py.strip. destruct (lstrip_head s) as [E|(c & r & E & Ec)]; rewrite E.
  - reflexivity.
  - destruct (rstrip_keeps_head c r Ec) as [r' Er]. rewrite Er.
    simpl Py.lstrip. rewrite Ec. rewrite <- Er. apply rstrip_idem.
Qed.

Lemma rstrip_app_space s c : Py.isspace c = true -> Py.rstrip (s ++ String c "") = Py.rstrip s.
Proof.
  intros Ec. induction s as [|d s IH].
  - rewrite str_app_nil_l. simpl. rewrite Ec. reflexivity.
  - rewrite str_app_cons. simpl. rewrite IH. reflexivity.
Qed.

Lemma lstrip_app_space s c :
  Py.isspace c = true ->
  Py.lstrip (s ++ String c "") = Py.lstrip s \/
  Py.lstrip (s ++ String c "") = Py.lstrip s ++ String c "".
Proof.
  intros Ec. induction s as [|d s IH].
  - left. rewrite str_app_nil_l. simpl. rewrite Ec. reflexivity.
  - rewrite str_app_cons. simpl. destruct (Py.isspace d); [exact IH|].
    right. reflexivity.
Qed.

Lemma strip_app_space s c : Py.isspace c = true -> Py.strip (s ++ String c "") = Py.strip s.
Proof.
  intros Ec. unfold Py.strip.
  destruct (lstrip_app_space s c Ec) as [E|E]; rewrite E; [reflexivity|].
  apply rstrip_app_space. exact Ec.
Qed.

Lemma first_line_no_lf l rest :
  no_lf l = true -> Py.first_line (l ++ String Py.LF rest) = l.
Proof.
  induction l as [|c l IH]; intros H.
  - reflexivity.
  - rewrite str_app_cons. simpl in *. apply andb_prop in H as [Hc Hl].
    destruct (Ascii.eqb c Py.LF); [discriminate|]. rewrite IH by assumption. reflexivity.
Qed.

Lemma first_line_whole l : no_lf l = true -> Py.first_line l = l.
Proof.
  induction l as [|c l IH]; intros H; [reflexivity|].
  simpl in *. apply andb_prop in H as [Hc Hl].
  destruct (Ascii.eqb c Py.LF); [discriminate|]. rewrite IH by assumption. reflexivity.
Qed.

(** For a text of one line, stripping the text and stripping its first line
    give the same. *)
Lemma strip_single_line text :
  single_line text -> Py.strip text = Py.strip (Py.first_line text).
Proof.
  intros (l & Hl & [-> | ->]).
  - by rewrite first_line_whole.
  - rewrite first_line_no_lf by exact Hl. by apply strip_app_space.
Qed.

(** *** Tokens *)

Lemma split_go_cons cur c r :
  Py.split_go cur (String c r) =
    if Py.isspace c then
      match cur with
      | Some t => t :: Py.split_go None r
      | None => Py.split_go None r
      end
    else
      Py.split_go (Some (match cur with Some t => t ++ String c "" | None => String c "" end)) r.
Proof. reflexivity. Qed.

Lemma split_go_spaces cur s :
  all_space s = true ->
  Py.split_go cur s = match cur with Some t => [t] | None => [] end.
Proof.
  revert cur. induction s as [|c r IH]; intros cur H; [reflexivity|].
  simpl in H. apply andb_prop in H as [Hc Hr].
  rewrite split_go_cons, Hc, (IH None Hr). by destruct cur.
Qed.

Lemma split_go_lead lead s :
  all_space lead = true -> Py.split_go None (lead ++ s) = Py.split_go None s.
Proof.
  induction lead as [|c r IH]; intros H; [reflexivity|].
  simpl in H. apply andb_prop in H as [Hc Hr].
  rewrite str_app_cons, split_go_cons, Hc. by apply IH.
Qed.

Lemma split_go_token acc tok rest :
  no_space tok = true ->
  Py.split_go (Some acc) (tok ++ rest) = Py.split_go (Some (acc ++ tok)) rest.
Proof.
  revert acc. induction tok as [|c t IH]; intros acc H.
  - by rewrite str_app_nil_l, str_app_nil_r.
  - simpl in H. apply andb_prop in H as [Hc Ht]. apply negb_true_iff in Hc.
    rewrite str_app_cons, split_go_cons, Hc, (IH _ Ht), str_app_assoc. reflexivity.
Qed.

(** The first token, as the spec words it, is the head of [split]. *)
Lemma split_first_token text tok :
  first_token text tok -> exists more, Py.split text = tok :: more.
Proof.
  intros (lead & rest & -> & Hlead & Hne & Htok & Hrest). unfold Py.split.
  rewrite (split_go_lead _ _ Hlead).
  destruct tok as [|c t]; [contradiction|].
  simpl in Htok. apply andb_prop in Htok as [Hc Ht]. apply negb_true_iff in Hc.
  rewrite str_app_cons, split_go_cons, Hc, (split_go_token _ _ _ Ht).
  change (String c "" ++ t) with (String c t).
  destruct rest as [|d r]; [by exists []|].
  rewrite split_go_cons, Hrest. by eexists.
Qed.

Lemma split_blank text : all_space text = true -> Py.split text = [].
Proof. intros H. unfold Py.split. by rewrite (split_go_spaces None _ H). Qed.

Lemma rstrip_nil_spaces s : Py.rstrip s = "" -> all_space s = true.
Proof.
  induction s as [|c r IH]; [reflexivity|]. simpl.
  destruct (Py.rstrip r) eqn:E; [|discriminate].
  destruct (Py.isspace c); [|discriminate]. intros _. by apply IH.
Qed.

Lemma split_go_rstrip cur s : Py.split_go cur (Py.rstrip s) = Py.split_go cur s.
Proof.
  revert cur. induction s as [|c r IH]; intros cur; [reflexivity|].
  rewrite (split_go_cons cur c r). simpl Py.rstrip.
  destruct (Py.rstrip r) as [|a q] eqn:E.
  - pose proof (rstrip_nil_spaces r E) as Hr.
    destruct (Py.isspace c) eqn:Hc.
    + rewrite (split_go_spaces None r Hr). by destruct cur.
    + rewrite split_go_cons, Hc, (split_go_spaces _ r Hr). reflexivity.
  - rewrite split_go_cons, !IH. reflexivity.
Qed.

Lemma split_go_lstrip s : Py.split_go None (Py.lstrip s) = Py.split_go None s.
Proof.
  induction s as [|c r IH]; [reflexivity|].
  rewrite (split_go_cons None c r). simpl Py.lstrip.
  destruct (Py.isspace c) eqn:Hc; [exact IH|]. by rewrite split_go_cons, Hc.
Qed.

(** Stripping a text does not change its tokens. *)
Lemma split_strip s : Py.split (Py.strip s) = Py.split s.
Proof. unfold Py.split, Py.strip. by rewrite split_go_rstrip, split_go_lstrip. Qed.

(** A text is blank or has a first token. *)
Lemma token_span s :
  exists tok rest,
    s = tok ++ rest /\ no_space tok = true /\
    match rest with
    | EmptyString => True
    | String c _ => Py.isspace c = true
    end.
Proof.
  induction s as [|c r (tok & rest & E & Ht & Hr)]; [by exists "", ""|].
  destruct (Py.isspace c) eqn:Hc.
  - by exists "", (String c r).
  - exists (String c tok), rest. rewrite str_app_cons, <- E. simpl. by rewrite Hc.
Qed.

Lemma token_or_blank text : all_space text = true \/ exists tok, first_token text tok.
Proof.
  induction text as [|c r IH]; [by left|].
  destruct (Py.isspace c) eqn:Hc.
  - destruct IH as [Hb|(tok & lead & rest & E & Hl & Hne & Ht & Hr)].
    + left. simpl. by rewrite Hc.
    + right. exists tok, (String c lead), rest. rewrite str_app_cons, <- E.
      simpl. by rewrite Hc.
  - right. destruct (token_span r) as (tok & rest & E & Ht & Hr).
    exists (String c tok), "", rest. rewrite str_app_nil_l, str_app_cons, <- E.
    repeat split; [discriminate|simpl; by rewrite Hc|exact Hr].
Qed.

(** *** File names *)

Lemma rsplit_slash_spec p :
  no_slash (snd (Py.rsplit_slash p)) = true /\
  match fst (Py.rsplit_slash p) with
  | None => p = snd (Py.rsplit_slash p)
  | Some h => exists dir, h = dir ++ "/" /\ p = h ++ snd (Py.rsplit_slash p)
  end.
Proof.
  induction p as [|c r [Hn IH]]; [by split|]. simpl.
  destruct (Py.rsplit_slash r) as [[h|] t]; simpl in *.
  - split; [exact Hn|]. destruct IH as (dir & -> & ->). exists (String c dir). by split.
  - destruct (Ascii.eqb_spec c "/") as [->|Hc]; simpl.
    + split; [exact Hn|]. exists "". by rewrite IH.
    + split; [|by rewrite IH]. rewrite Hn. by apply Ascii.eqb_neq in Hc as ->.
Qed.

(** [os.path.basename] gives the file name. *)
Lemma basename_file_name path : file_name path (Py.basename path).
Proof.
  unfold file_name, Py.basename. destruct (rsplit_slash_spec path) as [Hn H].
  split; [exact Hn|]. destruct (fst (Py.rsplit_slash path)) as [h|]; [|by left].
  destruct H as (dir & -> & E). right. exists dir. by rewrite E at 1; rewrite str_app_assoc.
Qed.

(** ** What a computation leaves alone *)

#[local] Instance same_self_refl : Reflexive same_self.
Proof. by intros b. Qed.
#[local] Instance same_self_trans : Transitive same_self.
Proof. unfold same_self. intros a b c -> ->. reflexivity. Qed.
#[local] Instance same_base_refl : Reflexive same_base.
Proof. by intros b. Qed.
#[local] Instance same_base_trans : Transitive same_base.
Proof. unfold same_base. intros a b c [-> ->] [-> ->]. by split. Qed.

Section Steady.

Context (env : Env) (opts : Options).
Context (R : Builder -> Builder -> Prop) `{!Reflexive R} `{!Transitive R}.
Context (P : event -> Prop).

Lemma steady_still {A} (m : M A) :
  (forall w, snd (m w) = w) -> steady R P m.
Proof.
  intros H w. rewrite H. split; [reflexivity|].
  exists []. split; [by rewrite List.app_nil_r|constructor].
Qed.

Lemma steady_ret {A} (a : A) : steady R P (ret a).
Proof. by apply steady_still. Qed.

Lemma steady_raise {A} e : steady R P (@raise A e).
Proof. by apply steady_still. Qed.

Lemma steady_bind {A B} (m : M A) (k : A -> M B) :
  steady R P m -> (forall a, steady R P (k a)) -> steady R P (bind m k).
Proof.
  intros Hm Hk w. unfold bind. specialize (Hm w).
  destruct (m w) as [[a|e] w1]; simpl in Hm; [|exact Hm].
  destruct Hm as (Hr & evs & Ht & Hp).
  destruct (Hk a w1) as (Hr' & evs' & Ht' & Hp').
  split; [by transitivity (self w1)|].
  exists (evs ++ evs')%list. split.
  - rewrite Ht', Ht. by rewrite <- List.app_assoc.
  - by apply Forall_app.
Qed.

Lemma steady_try {A} (m : M A) : steady R P m -> steady R P (try m).
Proof.
  intros Hm w. unfold try. specialize (Hm w). by destruct (m w).
Qed.

Lemma steady_getattr name f : steady R P (getattr name f).
Proof. apply steady_still. intros w. unfold getattr. by destruct (f (self w)). Qed.

Lemma steady_get_null : steady R P get_null.
Proof. apply steady_still. intros w. unfold get_null. by destruct (self_null (self w)). Qed.

Lemma steady_assert b : steady R P (assert b).
Proof. destruct b; [apply steady_ret|apply steady_raise]. Qed.

Lemma steady_event {A} (m : M A) e :
  P e ->
  (forall w, self (snd (m w)) = self w /\ trace (snd (m w)) = (trace w ++ [e])%list) ->
  steady R P m.
Proof.
  intros He H w. destruct (H w) as [Hs Ht]. rewrite Hs. split; [reflexivity|].
  exists [e]. split; [exact Ht|]. by constructor.
Qed.

Lemma steady_sys {A} e (sem : gmap string node -> result (A * gmap string node)) :
  P e -> steady R P (sys env e sem).
Proof.
  intros He. apply (steady_event _ e He). intros w. unfold sys.
  destruct (fault env e (fs w)); [done|].
  destruct (sem (fs w)) as [[a t]|]; done.
Qed.

Lemma steady_glob pat : P (EGlob pat) -> steady R P (glob_glob env pat).
Proof. intros He. by apply (steady_event _ (EGlob pat) He). Qed.

Lemma steady_subprocess_call args kw :
  (forall c o e, P (ECall args c o e)) -> steady R P (subprocess_call env args kw).
Proof.
  intros He. eapply steady_event; [apply He|]. intros w. unfold subprocess_call.
  destruct (run env _ _ _); [done|]. destruct (kw_stdout kw) as [[]|]; done.
Qed.

Lemma steady_os_pipe : steady R P os_pipe.
Proof. intros w. split; [reflexivity|]. exists []. split; [by rewrite List.app_nil_r|constructor]. Qed.

Lemma steady_read_pipe : steady R P read_pipe.
Proof. intros w. split; [reflexivity|]. exists []. split; [by rewrite List.app_nil_r|constructor]. Qed.

Lemma steady_for_each {A} (l : list A) body :
  (forall x, steady R P (body x)) -> steady R P (for_each l body).
Proof.
  intros H. induction l as [|x l IH]; simpl.
  - apply steady_ret.
  - apply steady_bind; [apply H|intros _; exact IH].
Qed.

End Steady.

(** The setters of the build phase keep [self.null] and [self.location]. *)
Lemma steady_setter P (m : M unit) :
  (forall w, same_base (self w) (self (snd (m w))) /\ trace (snd (m w)) = trace w) ->
  steady same_base P m.
Proof.
  intros H w. destruct (H w) as [Hb Ht]. split; [exact Hb|].
  exists []. split; [by rewrite List.app_nil_r|constructor].
Qed.

Lemma steady_set_version P v : steady same_base P (set_version v).
Proof. by apply steady_setter. Qed.
Lemma steady_set_git P v : steady same_base P (set_git v).
Proof. by apply steady_setter. Qed.
Lemma steady_set_origname P v : steady same_base P (set_origname v).
Proof. by apply steady_setter. Qed.
Lemma steady_set_debsrc P v : steady same_base P (set_debsrc v).
Proof. by apply steady_setter. Qed.

Ltac steady_step :=
  lazymatch goal with
  | |- steady _ _ (bind _ _) => apply steady_bind; [try (by apply _) .. | intros ?]
  | |- steady _ _ (ret _) => apply steady_ret
  | |- steady _ _ (raise _) => apply steady_raise
  | |- steady _ _ (getattr _ _) => apply steady_getattr
  | |- steady _ _ get_null => apply steady_get_null
  | |- steady _ _ (assert _) => apply steady_assert
  | |- steady _ _ (try _) => apply steady_try
  | |- steady _ _ (set_version _) => apply steady_set_version
  | |- steady _ _ (set_git _) => apply steady_set_git
  | |- steady _ _ (set_origname _) => apply steady_set_origname
  | |- steady _ _ (set_debsrc _) => apply steady_set_debsrc
  | |- steady _ _ os_pipe => apply steady_os_pipe
  | |- steady _ _ read_pipe => apply steady_read_pipe
  | |- steady _ _ (for_each _ _) => apply steady_for_each; [try (by apply _) .. | intros ?]
  | |- steady _ _ (glob_glob _ _) => apply steady_glob
  | |- steady _ _ (subprocess_call _ _ _) => apply steady_subprocess_call; [try (by apply _) .. | intros]
  | |- steady _ _ (os_stat _ _) => apply steady_sys
  | |- steady _ _ (os_mkdir _ _) => apply steady_sys
  | |- steady _ _ (shutil_rmtree _ _) => apply steady_sys
  | |- steady _ _ (shutil_copy _ _ _) => apply steady_sys
  | |- steady _ _ (shutil_copytree _ _ _) => apply steady_sys
  | |- steady _ _ (file_read _ _) => apply steady_sys
  | |- steady _ _ (file_write _ _ _) => apply steady_sys
  | |- steady _ _ (if ?b then _ else _) => destruct b
  | |- steady _ _ (match ?x with _ => _ end) => destruct x
  | |- Reflexive _ => apply _
  | |- Transitive _ => apply _
  end.

Section SteadyScript.

Context (env : Env) (opts : Options).
Context (R : Builder -> Builder -> Prop) `{!Reflexive R} `{!Transitive R}.
Context (P : event -> Prop).

Lemma steady_cmd args kw :
  (forall c o e, P (ECall args c o e)) -> steady R P (cmd env opts args kw).
Proof. intros He. unfold cmd. repeat steady_step. all: apply He. Qed.

Lemma steady_loc parts : steady R P (loc parts).
Proof. unfold loc. repeat steady_step. Qed.

Lemma steady_cmd_output args kw :
  (forall c o e, P (ECall args c o e)) -> steady R P (cmd_output env opts args kw).
Proof. intros He. unfold cmd_output. repeat steady_step. by apply steady_cmd. Qed.

End SteadyScript.

Ltac steady_script :=
  lazymatch goal with
  | |- steady _ _ (cmd _ _ _ _) => apply steady_cmd; [try (by apply _) .. | intros]
  | |- steady _ _ (cmd_output _ _ _ _) => apply steady_cmd_output; [try (by apply _) .. | intros]
  | |- steady _ _ (loc _) => apply steady_loc
  | |- _ => steady_step
  end.

Section Stages.

Context (env : Env) (opts : Options).

Lemma make_dist_quiet : steady same_base quiet_event (make_dist env opts).
Proof. unfold make_dist. repeat steady_script; reflexivity. Qed.

Lemma find_dist_quiet : steady same_base quiet_event (find_dist env).
Proof. unfold find_dist. repeat steady_script; reflexivity. Qed.

Lemma find_commit_quiet : steady same_base quiet_event (find_commit env opts).
Proof. unfold find_commit. repeat steady_script; reflexivity. Qed.

(** Asking the host for its distribution changes no attribute. *)
Lemma default_distro_steady R `{!Reflexive R} `{!Transitive R} :
  steady R any_event (default_distro env opts).
Proof. unfold default_distro. repeat steady_script; exact I. Qed.

Lemma resolve_distro_steady R `{!Reflexive R} `{!Transitive R} :
  steady R any_event (resolve_distro env opts).
Proof.
  unfold resolve_distro.
  repeat first [ apply default_distro_steady; assumption | steady_script ].
Qed.

(** The build phase never touches [self.null] nor [self.location]. *)
Lemma build_phase_steady : steady same_base any_event (build_phase env opts).
Proof.
  unfold build_phase, get_orig_tar, make_dist, find_dist, find_commit, keep_orig,
    add_debian_dir, unpack_orig, fill_changelog, str_format, build, get_files.
  repeat first [ apply resolve_distro_steady; apply _ | steady_script ]; exact I.
Qed.

End Stages.

(** ** Setup, cleanup and the exit status *)

Section Main.

Context (env : Env) (opts : Options).

Lemma remove_tree_gone p t : remove_tree p t !! p = None.
Proof.
  unfold remove_tree. apply map_lookup_filter_None. right. intros x _.
  simpl. unfold under. rewrite String.eqb_refl. discriminate.
Qed.

(** [clean_build_dir] in a world whose [self.location] is [l]: one [stat],
    at most one [rmtree], and no directory left when it returns normally. *)
Lemma clean_build_dir_spec w l :
  self_location (self w) = Some l ->
  self (snd (clean_build_dir env w)) = self w /\
  (trace (snd (clean_build_dir env w)) = (trace w ++ [EStat l])%list \/
   trace (snd (clean_build_dir env w)) = (trace w ++ [EStat l; ERmtree l])%list) /\
  (is_ok (fst (clean_build_dir env w)) = true ->
   fs (snd (clean_build_dir env w)) !! l = None).
Proof.
  intros Hl. unfold clean_build_dir, bind, getattr. rewrite Hl.
  unfold try, os_stat, sys.
  destruct (fault env (EStat l) (fs w)) as [x|] eqn:Ef; simpl.
  - destruct x; simpl; (split; [reflexivity|split; [left; reflexivity|discriminate]]).
  - destruct (through_file (fs w) l); simpl;
      [split; [reflexivity|split; [left; reflexivity|discriminate]]|].
    destruct (fs w !! l) as [n|] eqn:El; simpl.
    + rewrite Hl. unfold shutil_rmtree, sys. simpl. rewrite El.
      destruct (fault env (ERmtree l) (fs w)) as [x|]; simpl.
      * split; [reflexivity|]. split; [right; by rewrite <- List.app_assoc|discriminate].
      * destruct n; simpl.
        -- split; [reflexivity|]. split; [right; by rewrite <- List.app_assoc|].
           intros _. apply remove_tree_gone.
        -- split; [reflexivity|]. split; [right; by rewrite <- List.app_assoc|discriminate].
    + split; [reflexivity|]. split; [left; reflexivity|]. intros _. exact El.
Qed.

(** A successful setup leaves the handle open and [self.location] set to the
    resolved path, which passed the check. *)
Lemma setup_phase_ok w w1 :
  setup_phase env opts w = (Ok tt, w1) ->
  self_null (self w1) = Some tt /\
  self_location (self w1) = Some (realpath env (directory opts)) /\
  Re.match_location (realpath env (directory opts)) = true.
Proof.
  unfold setup_phase, open_null, setup_build_dir.
  set (l := realpath env (directory opts)).
  unfold bind at 1 2. unfold sys.
  destruct (fault env EOpenNull (fs w)); [discriminate|]. simpl.
  unfold bind at 1. simpl. unfold bind at 1. simpl.
  destruct (Re.match_location l) eqn:Em; simpl; [|discriminate].
  unfold bind at 1.
  match goal with |- context [clean_build_dir env ?w0] =>
    pose proof (clean_build_dir_spec w0 l eq_refl) as (Hs & _ & _);
    destruct (clean_build_dir env w0) as [[[]|e] w'] end; [|discriminate].
  simpl in Hs. unfold bind, getattr. rewrite Hs. simpl.
  unfold os_mkdir, sys.
  destruct (fault env (EMkdir l) (fs w')); [discriminate|].
  destruct (fs w' !! l); [discriminate|].
  intros [= <-]. simpl. rewrite Hs. simpl. auto.
Qed.

Lemma cleanup_phase_spec w l :
  self_null (self w) = Some tt ->
  self_location (self w) = Some l ->
  (trace (snd (cleanup_phase env w)) = (trace w ++ [ECloseNull; EStat l])%list \/
   trace (snd (cleanup_phase env w)) = (trace w ++ [ECloseNull; EStat l; ERmtree l])%list) /\
  (is_ok (fst (cleanup_phase env w)) = true ->
   fs (snd (cleanup_phase env w)) !! l = None).
Proof.
  intros Hn Hl. unfold cleanup_phase, close_null, bind, get_null. rewrite Hn.
  pose proof (clean_build_dir_spec (record ECloseNull w) l Hl) as (_ & Ht & Hf).
  destruct (clean_build_dir env (record ECloseNull w)) as [[[]|e] w']; simpl in *.
  all: split; [|exact Hf].
  all: destruct Ht as [-> | ->]; [left|right]; by rewrite <- List.app_assoc.
Qed.

Lemma main_after_setup w w1 :
  setup_phase env opts w = (Ok tt, w1) ->
  main env opts w =
    ((if is_ok (fst (build_phase env opts w1)) then 0 else 1)%Z,
     snd (cleanup_phase env (snd (build_phase env opts w1)))).
Proof.
  intros H. unfold main. rewrite H.
  destruct (build_phase env opts w1) as [r2 w2]. simpl.
  destruct (cleanup_phase env w2) as [r3 w3]. simpl.
  by destruct r2.
Qed.

(** C1, as the code has it.  Once the options are parsed, the exit status
    is 1 exactly when the setup phase raised or, setup having succeeded, the
    build phase raised, and 0 otherwise.  What the cleanup phase does has no
    part in it. *)
Theorem exit_status_setup_and_build w :
  fst (main env opts w) =
    (if is_ok (fst (setup_phase env opts w))
        && is_ok (fst (build_phase env opts (snd (setup_phase env opts w))))
     then 0 else 1)%Z.
Proof.
  unfold main. destruct (setup_phase env opts w) as [[[]|e] w1]; simpl; [|reflexivity].
  destruct (build_phase env opts w1) as [r2 w2]. simpl.
  destruct (cleanup_phase env w2) as [r3 w3]. simpl.
  by destruct r2.
Qed.

(** C3, as the code has it.  After a successful setup the process ends in
    the world that one run of the cleanup phase makes of the world the build
    phase left, whatever the build phase did: what follows the build phase
    in the sequence of system calls is the closing of the null handle, one
    [stat] of the working directory and at most one [rmtree] of it.  When
    that cleanup does not raise, the working directory does not exist at
    exit. *)
Theorem cleanup_once_after_build w w1 :
  setup_phase env opts w = (Ok tt, w1) ->
  let l := realpath env (directory opts) in
  let w2 := snd (build_phase env opts w1) in
  let w3 := snd (main env opts w) in
  w3 = snd (cleanup_phase env w2) /\
  (trace w3 = (trace w2 ++ [ECloseNull; EStat l])%list \/
   trace w3 = (trace w2 ++ [ECloseNull; EStat l; ERmtree l])%list) /\
  (is_ok (fst (cleanup_phase env w2)) = true -> fs w3 !! l = None).
Proof.
  intros H l w2 w3.
  destruct (setup_phase_ok w w1 H) as (Hn & Hl & _).
  destruct (build_phase_steady env opts w1) as ([Hn2 Hl2] & _).
  assert (w3 = snd (cleanup_phase env w2)) as E.
  { unfold w3. by rewrite (main_after_setup w w1 H). }
  split; [exact E|]. rewrite E.
  apply cleanup_phase_spec; unfold w2, l; congruence.
Qed.

End Main.

(** ** Running commands *)

Section Cmd.

Context (env : Env) (opts : Options).

(** [cmd], once the attributes it reads are there. *)
Lemma cmd_spec w args kw :
  cmd_ready opts w kw ->
  let out := stream_for (verbose opts) (kw_stdout kw) in
  let err := stream_for (verbose opts) (kw_stderr kw) in
  let w1 := record (ECall args (cwd_for w kw) out err) w in
  cmd env opts args kw w =
    match run env args (cwd_for w kw) (fs w) with
    | SpawnError e => (Raise (OSError e), w1)
    | Exited rc text t =>
        (if (rc =? 0)%Z then Ok tt else Raise (SubprocessExited args),
         with_fs t (match out with Pipe => with_pipe (pipe w ++ text) w1 | _ => w1 end))
    end.
Proof.
  intros [Hn Hl]. unfold cmd, cwd_for, stream_for.
  destruct kw as [c o e]. simpl in *.
  destruct (verbose opts) eqn:Ev.
  - destruct c as [d|].
    + unfold bind, ret, subprocess_call. simpl.
      destruct (run env args d (fs w)) as [x|rc text t]; [reflexivity|].
      destruct o as [[]|]; destruct e as [[]|]; destruct (rc =? 0)%Z; reflexivity.
    + destruct (Hl eq_refl) as [l El].
      unfold bind, ret, getattr, subprocess_call. simpl. rewrite El. simpl.
      destruct (run env args (Some l) (fs w)) as [x|rc text t]; [reflexivity|].
      destruct o as [[]|]; destruct e as [[]|]; destruct (rc =? 0)%Z; reflexivity.
  - specialize (Hn eq_refl).
    destruct c as [d|].
    + unfold bind, ret, get_null, subprocess_call.
      destruct o as [o|]; destruct e as [e|]; simpl; repeat (rewrite Hn; simpl);
      (destruct (run env args d (fs w)) as [x|rc text t]; [reflexivity|]);
      try destruct o; try destruct e; destruct (rc =? 0)%Z; reflexivity.
    + destruct (Hl eq_refl) as [l El].
      unfold bind, ret, get_null, getattr, subprocess_call.
      destruct o as [o|]; destruct e as [e|]; simpl; repeat (rewrite Hn; simpl);
      rewrite El; simpl;
      (destruct (run env args (Some l) (fs w)) as [x|rc text t]; [reflexivity|]);
      try destruct o; try destruct e; destruct (rc =? 0)%Z; reflexivity.
Qed.

Lemma cmd_output_spec w args kw text t :
  cmd_ready opts w kw ->
  run env args (cwd_for w kw) (fs w) = Exited 0 text t ->
  cmd_output env opts args kw w =
    (Ok (Py.strip text),
     with_pipe "" (with_fs t (with_pipe text
       (record (ECall args (cwd_for w kw) Pipe (stream_for (verbose opts) (kw_stderr kw)))
               (with_pipe "" w))))).
Proof.
  intros Hr Hrun. unfold cmd_output. unfold bind at 1. unfold os_pipe at 1.
  unfold bind at 1.
  rewrite cmd_spec by exact Hr. simpl.
  change (cwd_for (with_pipe "" w) _) with (cwd_for w kw).
  rewrite Hrun. simpl. reflexivity.
Qed.

(** C8, as the code has it.  When the command exits with status 0, the
    capturing variant returns everything the command wrote on its standard
    output, stripped of surrounding whitespace; for an output of one line
    that is its first line, stripped. *)
Theorem cmd_output_whole_text w args kw text t :
  cmd_ready opts w kw ->
  run env args (cwd_for w kw) (fs w) = Exited 0 text t ->
  fst (cmd_output env opts args kw w) = Ok (Py.strip text) /\
  (single_line text ->
   fst (cmd_output env opts args kw w) = Ok (Py.strip (Py.first_line text))).
Proof.
  intros Hr Hrun. rewrite (cmd_output_spec w args kw text t Hr Hrun). simpl.
  split; [reflexivity|]. intros H. by rewrite (strip_single_line text H).
Qed.

End Cmd.

(** ** Acquisition *)

Section Acquire.

Context (env : Env) (opts : Options).

Lemma find_dist_mismatch w l :
  self_location (self w) = Some l ->
  length (glob env (dist_pattern l) (fs w)) <> 1%nat ->
  find_dist env w = (Raise AssertionError, record (EGlob (dist_pattern l)) w).
Proof.
  unfold dist_pattern. intros Hl Hn. unfold find_dist, loc, bind, getattr. rewrite Hl.
  simpl in *.
  destruct (Nat.eqb_spec (length (glob env (Py.join2 (Py.join2 l "git-tmp")
    "dl-fldigi-*.tar.gz") (fs w))) 1); [contradiction|].
  reflexivity.
Qed.

Lemma find_dist_ok w d w' :
  find_dist env w = (Ok d, w') ->
  exists l path,
    self_location (self w) = Some l /\
    glob env (dist_pattern l) (fs w) = [path] /\
    d = Py.basename path /\
    Py.startswith d "dl-fldigi-" = true /\
    Py.endswith d ".tar.gz" = true /\
    self_version (self w') = Some (Py.slice d (Py.len "dl-fldigi-") (- Py.len ".tar.gz")).
Proof.
  unfold dist_pattern, find_dist, loc, bind, getattr.
  destruct (self_location (self w)) as [l|] eqn:Hl; [|discriminate]. simpl.
  destruct (glob env (Py.join2 (Py.join2 l "git-tmp") "dl-fldigi-*.tar.gz") (fs w))
    as [|path [|more rest]] eqn:Hg; simpl; try discriminate.
  destruct (Py.startswith (Py.basename path) "dl-fldigi-") eqn:Hp; simpl; [|discriminate].
  destruct (Py.endswith (Py.basename path) ".tar.gz") eqn:Hs; simpl; [|discriminate].
  intros [= <- <-]. exists l, path. simpl. auto 10.
Qed.

(** C4, as the code has it.  When, after a successful setup and a successful
    [make dist], the glob for the distribution archive yields no match or
    several, the build phase stops there with [AssertionError] (the glob is
    the last call of the phase), the cleanup phase runs on that world and
    the exit status is 1.  The working directory is gone at exit whenever
    that cleanup does not raise. *)
Theorem dist_glob_mismatch w w1 w2 :
  setup_phase env opts w = (Ok tt, w1) ->
  make_dist env opts w1 = (Ok tt, w2) ->
  let l := realpath env (directory opts) in
  length (glob env (dist_pattern l) (fs w2)) <> 1%nat ->
  let w3 := record (EGlob (dist_pattern l)) w2 in
  build_phase env opts w1 = (Raise AssertionError, w3) /\
  fst (main env opts w) = 1%Z /\
  snd (main env opts w) = snd (cleanup_phase env w3) /\
  (trace (snd (main env opts w)) = (trace w3 ++ [ECloseNull; EStat l])%list \/
   trace (snd (main env opts w)) = (trace w3 ++ [ECloseNull; EStat l; ERmtree l])%list) /\
  (is_ok (fst (cleanup_phase env w3)) = true -> fs (snd (main env opts w)) !! l = None).
Proof.
  intros Hsetup Hdist l Hglob w3.
  destruct (setup_phase_ok env opts w w1 Hsetup) as (Hn & Hl & _).
  destruct (make_dist_quiet env opts w1) as ([Hn2 Hl2] & _).
  rewrite Hdist in Hn2, Hl2. simpl in Hn2, Hl2.
  assert (build_phase env opts w1 = (Raise AssertionError, w3)) as Hb.
  { unfold build_phase, get_orig_tar. unfold bind at 1 2. rewrite Hdist.
    unfold bind at 1.
    rewrite (find_dist_mismatch w2 l); [reflexivity|unfold l; congruence|exact Hglob]. }
  split; [exact Hb|].
  rewrite (main_after_setup env opts w w1 Hsetup), Hb. simpl.
  split; [reflexivity|]. split; [reflexivity|].
  apply cleanup_phase_spec; unfold l; simpl; congruence.
Qed.

(** C9, as the code has it.  Let the glob for the distribution archive
    yield one path, and let [name] be its file name, what follows the last
    slash of the path.  When [name] begins with
    the prefix and ends with the suffix, [find_dist] returns [name] and sets
    the version to [name] without its prefix and suffix: [name] is the
    prefix, the version and the suffix in a row, and the version is empty
    exactly when the archive is named [dl-fldigi-.tar.gz].  Otherwise
    [find_dist] raises [AssertionError] and sets no version.  So, for every
    [v], an archive named [dl-fldigi-<v>.tar.gz] gives the version [v]. *)
Theorem version_from_dist_name w l path :
  self_location (self w) = Some l ->
  glob env (dist_pattern l) (fs w) = [path] ->
  let name := Py.basename path in
  file_name path name /\
  (Py.startswith name "dl-fldigi-" = true -> Py.endswith name ".tar.gz" = true ->
   exists v,
     fst (find_dist env w) = Ok name /\
     self_version (self (snd (find_dist env w))) = Some v /\
     v = Py.slice name (Py.len "dl-fldigi-") (- Py.len ".tar.gz") /\
     name = "dl-fldigi-" ++ v ++ ".tar.gz" /\
     (v = "" <-> name = "dl-fldigi-.tar.gz")) /\
  (Py.startswith name "dl-fldigi-" = false \/ Py.endswith name ".tar.gz" = false ->
   fst (find_dist env w) = Raise AssertionError /\
   self_version (self (snd (find_dist env w))) = self_version (self w)) /\
  (forall v, name = "dl-fldigi-" ++ v ++ ".tar.gz" ->
   fst (find_dist env w) = Ok name /\
   self_version (self (snd (find_dist env w))) = Some v).
Proof.
  intros Hl Hglob name. unfold dist_pattern in Hglob.
  assert (find_dist env w =
          let w0 := record (EGlob (Py.join l ["git-tmp"; "dl-fldigi-*.tar.gz"])) w in
          if Py.startswith name "dl-fldigi-" then
            if Py.endswith name ".tar.gz" then
              (Ok name,
               snd (set_version (Py.slice name (Py.len "dl-fldigi-") (- Py.len ".tar.gz")) w0))
            else (Raise AssertionError, w0)
          else (Raise AssertionError, w0)) as E.
  { unfold find_dist, loc. unfold bind at 1. unfold bind at 1. unfold getattr at 1.
    rewrite Hl. unfold ret at 1. unfold bind at 1. unfold glob_glob at 1.
    rewrite Hglob. unfold bind at 1. change (assert (length [path] =? 1)%nat) with (ret tt).
    unfold ret at 1. fold name. unfold bind, assert, ret, raise, set_version.
    destruct (Py.startswith name "dl-fldigi-"); [|reflexivity].
    destruct (Py.endswith name ".tar.gz"); reflexivity. }
  rewrite E. cbv zeta. split; [apply basename_file_name|]. split.
  - intros Hp Hs. rewrite Hp, Hs. eexists. split; [reflexivity|]. split; [reflexivity|].
    split; [reflexivity|]. pose proof (dist_name_shape name Hp Hs) as En.
    split; [exact En|]. split.
    + intros Hnil. rewrite En at 1. rewrite Hnil. reflexivity.
    + intros Hd. rewrite Hd. reflexivity.
  - split.
    + intros [Hp|Hs]; [rewrite Hp; by split|].
      rewrite Hs. destruct (Py.startswith name "dl-fldigi-"); by split.
    + intros v Hname.
      assert (Py.startswith name "dl-fldigi-" = true) as Hp
        by (rewrite Hname; apply str_prefix_app).
      assert (Py.endswith name ".tar.gz" = true) as Hs
        by (rewrite Hname, <- str_app_assoc; apply endswith_app).
      rewrite Hp, Hs. split; [reflexivity|]. simpl. f_equal.
      rewrite Hname. apply slice_between. simpl. lia.
Qed.

(** The revision query of [find_commit], given what [git log] printed. *)
Lemma find_commit_eq w l text t :
  self_location (self w) = Some l ->
  (verbose opts = false -> self_null (self w) = Some tt) ->
  run env git_log (Some (Py.join l ["git-tmp"])) (fs w) = Exited 0 text t ->
  exists w',
    trace w' = (trace w ++ [ECall git_log (Some (Py.join l ["git-tmp"])) Pipe
                             (stream_for (verbose opts) None)])%list /\
    find_commit env opts w =
      match Py.split (Py.strip text) with
      | [] => (Raise IndexError, w')
      | tok :: _ =>
          (if (Py.len tok =? 7)%Z then Ok tt else Raise AssertionError,
           snd (set_git tok w'))
      end.
Proof.
  intros Hl Hn Hrun. unfold find_commit. unfold bind at 1. unfold loc at 1.
  unfold bind at 1, getattr at 1. rewrite Hl. unfold ret at 1. unfold bind at 1.
  rewrite (cmd_output_spec env opts w git_log _ text t); [|split; [exact Hn|discriminate]|exact Hrun].
  eexists. split; cycle 1.
  - destruct (Py.split (Py.strip text)) as [|tok rest]; [reflexivity|].
    unfold bind, set_git, getattr. simpl.
    destruct (Py.len tok =? 7)%Z; reflexivity.
  - reflexivity.
Qed.

(** C6.  Once the archive is found, let [text] be what [git log --oneline
    -1] prints.  A text is blank or has a first whitespace-separated token.
    If the first token has 7 characters, [find_commit] returns with
    [self.git] set to that token.  If it has another length, the build phase
    raises [AssertionError], with [self.git] set to that token, and if the
    text is blank it raises [IndexError]; in both cases none of the calls
    made since the build phase began is a call of the metadata injection. *)
Theorem short_hash_gate w1 w1' w2 d l text t :
  make_dist env opts w1 = (Ok tt, w1') ->
  find_dist env w1' = (Ok d, w2) ->
  self_location (self w1) = Some l ->
  (verbose opts = false -> self_null (self w1) = Some tt) ->
  run env git_log (Some (Py.join l ["git-tmp"])) (fs w2) = Exited 0 text t ->
  (all_space text = true \/ exists tok, first_token text tok) /\
  (forall tok, first_token text tok ->
     (String.length tok = 7%nat ->
      exists w3, find_commit env opts w2 = (Ok tt, w3) /\ self_git (self w3) = Some tok) /\
     (String.length tok <> 7%nat ->
      exists w3,
        build_phase env opts w1 = (Raise AssertionError, w3) /\
        self_git (self w3) = Some tok /\
        Forall quiet_event (drop (length (trace w1)) (trace w3)))) /\
  (all_space text = true ->
   exists w3,
     build_phase env opts w1 = (Raise IndexError, w3) /\
     Forall quiet_event (drop (length (trace w1)) (trace w3))).
Proof.
  intros Hdist Hfind Hl Hn Hrun.
  destruct (make_dist_quiet env opts w1) as ([Hn1 Hl1] & ev1 & Ht1 & Hq1).
  rewrite Hdist in Hn1, Hl1, Ht1. simpl in Hn1, Hl1, Ht1.
  destruct (find_dist_quiet env w1') as ([Hn2 Hl2] & ev2 & Ht2 & Hq2).
  rewrite Hfind in Hn2, Hl2, Ht2. simpl in Hn2, Hl2, Ht2.
  destruct (find_commit_eq w2 l text t) as (w' & Ht' & Hc);
    [congruence|intros Hv; rewrite Hn2, Hn1; auto|exact Hrun|].
  rewrite split_strip in Hc.
  assert (forall e w3, find_commit env opts w2 = (Raise e, w3) -> trace w3 = trace w' ->
            build_phase env opts w1 = (Raise e, w3) /\
            Forall quiet_event (drop (length (trace w1)) (trace w3))) as Hstop.
  { intros e w3 Hraise Htr. split.
    - unfold build_phase, get_orig_tar. unfold bind at 1 2. rewrite Hdist.
      unfold bind at 1. rewrite Hfind. unfold bind at 1. rewrite Hraise. reflexivity.
    - rewrite Htr, Ht', Ht2, Ht1. rewrite <- !List.app_assoc. rewrite drop_app_length.
      repeat (apply Forall_app; split); try assumption.
      constructor; [reflexivity|constructor]. }
  split; [apply token_or_blank|]. split.
  - intros tok Htok. destruct (split_first_token text tok Htok) as [more Hs].
    rewrite Hs in Hc. split; intros Hlen.
    + assert ((Py.len tok =? 7)%Z = true) as Hz
        by (unfold Py.len; rewrite Hlen; reflexivity).
      rewrite Hz in Hc. eexists. split; [exact Hc|reflexivity].
    + assert ((Py.len tok =? 7)%Z = false) as Hz
        by (apply Z.eqb_neq; unfold Py.len; lia).
      rewrite Hz in Hc. destruct (Hstop _ _ Hc eq_refl) as [Hb Hq].
      eexists. split; [exact Hb|]. split; [reflexivity|exact Hq].
  - intros Hblank. rewrite (split_blank text Hblank) in Hc. exists w'. by apply Hstop.
Qed.

End Acquire.

(** ** Collection *)

Section Collect.

Context (env : Env) (opts : Options).

(** C2, as the code has it.  In source-only mode, with the orig archive
    named as [keep_orig] names it, the name [get_files] computes for it
    differs, the assertion fails, and [get_files] raises [AssertionError]
    with the world untouched: no file is copied, no glob is made. *)
Theorem get_files_source_only_asserts w v g :
  get_src opts = true ->
  self_version (self w) = Some v ->
  self_git (self w) = Some g ->
  self_origname (self w) = Some ("dl-fldigi_" ++ v ++ ".orig.tar.gz") ->
  get_files env opts w = (Raise AssertionError, w).
Proof.
  intros Hsrc Hv Hg Ho. unfold get_files, bind, getattr. rewrite Hv, Hg, Hsrc, Ho.
  rewrite orig_names_differ. reflexivity.
Qed.

End Collect.

(** ** The changelog *)

Lemma emit_nil r : Fmt.emit "" r = r.
Proof. by destruct r as [[s|e]|]. Qed.

Lemma emit_emit a b r : Fmt.emit a (Fmt.emit b r) = Fmt.emit (a ++ b) r.
Proof. destruct r as [[s|e]|]; simpl; [|done..]. by rewrite str_app_assoc. Qed.

(** Literal text goes through unchanged. *)
Lemma scan_plain kw t rest :
  plain t = true ->
  Fmt.scan kw Fmt.Text (t ++ rest) = Fmt.emit t (Fmt.scan kw Fmt.Text rest).
Proof.
  induction t as [|c t IH]; intros H.
  - by rewrite emit_nil.
  - simpl in H. apply andb_prop in H as [Hc Ht]. apply andb_prop in Hc as [Ho Hcl].
    rewrite str_app_cons. simpl.
    destruct (Ascii.eqb c "{"); [discriminate|].
    destruct (Ascii.eqb c "}"); [discriminate|].
    rewrite IH by exact Ht. by rewrite emit_emit.
Qed.

(** A placeholder is replaced by the keyword argument of its name. *)
Lemma scan_hole kw p rest v :
  kw !! key p = Some v ->
  Fmt.scan kw Fmt.Text ("{" ++ key p ++ "}" ++ rest) = Fmt.emit v (Fmt.scan kw Fmt.Text rest).
Proof.
  intros H.
  destruct p;
    [ change ("{" ++ key PVersion ++ "}" ++ rest)
        with (String "{" (String "v" ("ersion" ++ String "}" rest)))
    | change ("{" ++ key PDistro ++ "}" ++ rest)
        with (String "{" (String "d" ("istro" ++ String "}" rest)))
    | change ("{" ++ key PCommit ++ "}" ++ rest)
        with (String "{" (String "c" ("ommit" ++ String "}" rest)))
    | change ("{" ++ key PDate ++ "}" ++ rest)
        with (String "{" (String "d" ("ate" ++ String "}" rest))) ];
    simpl;
    match goal with
    | |- context [kw !! ?k] =>
        match type of H with kw !! ?k0 = _ => change k with k0 end
    end;
    by rewrite H.
Qed.

Lemma changelog_kwargs_lookup v g dist date p :
  changelog_kwargs v g dist date !! key p = Some (value v g dist date p).
Proof. unfold changelog_kwargs. destruct p; simpl; by simplify_map_eq. Qed.

(** Formatting a template made of literal text and the four placeholders
    gives the text with each placeholder replaced by its value. *)
Lemma scan_render v g dist date ps :
  well_formed ps = true ->
  Fmt.scan (changelog_kwargs v g dist date) Fmt.Text (render ps) =
    Some (Ok (substitute (value v g dist date) ps)).
Proof.
  induction ps as [|[t|p] ps IH]; intros H.
  - reflexivity.
  - simpl in H. apply andb_prop in H as [Ht Hps].
    change (render (Plain t :: ps)) with (t ++ render ps).
    rewrite scan_plain by exact Ht. rewrite IH by exact Hps. reflexivity.
  - change (render (Hole p :: ps)) with ("{" ++ key p ++ "}" ++ render ps).
    rewrite (scan_hole _ p _ _ (changelog_kwargs_lookup v g dist date p)).
    rewrite IH by exact H. reflexivity.
Qed.

Section Changelog.

Context (env : Env) (opts : Options).

(** [default_distro], given what [lsb_release] prints. *)
Lemma default_distro_spec w l id t1 :
  self_location (self w) = Some l ->
  (verbose opts = false -> self_null (self w) = Some tt) ->
  run env ["lsb_release"; "-si"] (Some l) (fs w) = Exited 0 id t1 ->
  (Py.strip id = "Debian" -> fst (default_distro env opts w) = Ok "unstable") /\
  (Py.strip id <> "Debian" ->
   forall cn t2,
     run env ["lsb_release"; "-sc"] (Some l) t1 = Exited 0 cn t2 ->
     fst (default_distro env opts w) = Ok (Py.strip cn)).
Proof.
  intros Hl Hn Hrun.
  assert (cmd_ready opts w no_kwargs) as Hr by (split; [exact Hn|eauto]).
  assert (cwd_for w no_kwargs = Some l) as Hc by (unfold cwd_for; simpl; exact Hl).
  assert (default_distro env opts w =
          let w0 := with_pipe "" (with_fs t1 (with_pipe id
                      (record (ECall ["lsb_release"; "-si"] (Some l) Pipe
                                 (stream_for (verbose opts) None)) (with_pipe "" w)))) in
          if String.eqb (Py.strip id) "Debian" then (Ok "unstable", w0)
          else bind (cmd_output env opts ["lsb_release"; "-sc"] no_kwargs)
                    (fun codename => ret (Py.strip codename)) w0) as E.
  { unfold default_distro. unfold bind at 1.
    rewrite (cmd_output_spec env opts w _ no_kwargs id t1 Hr); [|by rewrite Hc].
    cbv beta iota zeta. rewrite strip_idem, Hc.
    by destruct (String.eqb (Py.strip id) "Debian"). }
  rewrite E. cbv zeta. split.
  - intros ->. reflexivity.
  - intros Hne cn t2 Hrun2. apply String.eqb_neq in Hne. rewrite Hne.
    unfold bind.
    match goal with |- context [cmd_output env opts _ _ ?w0] =>
      rewrite (cmd_output_spec env opts w0 _ no_kwargs cn t2) end.
    + cbv beta iota. unfold ret, fst. by rewrite strip_idem.
    + split; [exact Hn|]. intros _. exists l. exact Hl.
    + unfold cwd_for. simpl. rewrite Hl. exact Hrun2.
Qed.

(** C7, as the code has it.  Let the changelog be a template of literal text
    and placeholders, and [dist] the name the resolution of the distribution
    gives after the file has been read.  Then [fill_changelog] ends with one
    write, which replaces the content of the file by the template with
    [{version}] replaced by version-shortHash, [{distro}] by [dist],
    [{commit}] by shortHash and [{date}] by the value of
    [email.utils.formatdate()].  [dist] is the explicit option when that is
    a non-empty string; otherwise it is [unstable] when [lsb_release -si]
    says [Debian], and else what [lsb_release -sc] says. *)
Theorem changelog_filled_in w l d v g ps dist w1 :
  self_location (self w) = Some l ->
  self_debsrc (self w) = Some d ->
  self_version (self w) = Some v ->
  self_git (self w) = Some g ->
  (verbose opts = false -> self_null (self w) = Some tt) ->
  let file := Py.join l [d; "debian"; "changelog"] in
  fault env (ERead file) (fs w) = None ->
  fs w !! file = Some (File (render ps)) ->
  well_formed ps = true ->
  resolve_distro env opts (record (ERead file) w) = (Ok dist, w1) ->
  let text := substitute (value v g dist (formatdate env)) ps in
  fault env (EWrite file text) (fs w1) = None ->
  fs w1 !! file <> Some Dir ->
  fill_changelog env opts w =
    (Ok tt, with_fs (<[file := File text]> (fs w1)) (record (EWrite file text) w1)) /\
  (forall n, distro opts = Some n -> n <> "" -> dist = n) /\
  (truthy (distro opts) = false ->
   forall id t1,
     run env ["lsb_release"; "-si"] (Some l) (fs w) = Exited 0 id t1 ->
     (Py.strip id = "Debian" -> dist = "unstable") /\
     (Py.strip id <> "Debian" ->
      forall cn t2,
        run env ["lsb_release"; "-sc"] (Some l) t1 = Exited 0 cn t2 ->
        dist = Py.strip cn)).
Proof.
  intros Hl Hd Hv Hg Hn file Hfr Hfile Hwf Hres text Hfw Hnd.
  destruct (resolve_distro_steady env opts same_self (record (ERead file) w)) as (Hs & _).
  rewrite Hres in Hs. unfold same_self in Hs. simpl in Hs.
  split; [|split].
  - unfold fill_changelog. unfold bind at 1, getattr at 1. rewrite Hd.
    unfold bind at 1, loc at 1, bind at 1, getattr at 1. rewrite Hl. unfold ret at 1.
    fold file. unfold bind at 1, file_read at 1, sys. rewrite Hfr, Hfile.
    change (with_fs (fs w) (record (ERead file) w)) with (record (ERead file) w).
    unfold bind at 1. rewrite Hres.
    unfold bind at 1, getattr at 1. rewrite Hs, Hv.
    unfold bind at 1, getattr at 1. rewrite Hs, Hg.
    unfold bind at 1, str_format. rewrite scan_render by exact Hwf. unfold ret at 1.
    fold text. unfold file_write, sys. rewrite Hfw.
    destruct (fs w1 !! file) as [[|c]|]; [contradiction|reflexivity..].
  - intros n Ho Hne. unfold resolve_distro in Hres. rewrite Ho in Hres. simpl in Hres.
    apply String.eqb_neq in Hne. rewrite Hne in Hres. simpl in Hres.
    by injection Hres as <- _.
  - intros Ht id t1 Hrun.
    assert (default_distro env opts (record (ERead file) w) = (Ok dist, w1)) as Hdef.
    { unfold resolve_distro in Hres. destruct (distro opts) as [n|]; [|exact Hres].
      rewrite Ht in Hres. exact Hres. }
    destruct (default_distro_spec (record (ERead file) w) l id t1 Hl Hn Hrun) as [Hdeb Hoth].
    rewrite Hdef in Hdeb, Hoth. simpl in Hdeb, Hoth. split.
    + intros E. specialize (Hdeb E). by injection Hdeb.
    + intros E cn t2 Hrun2. specialize (Hoth E cn t2 Hrun2). by injection Hoth.
Qed.

End Changelog.

(** ** The path check of setup *)

(** A non-empty path of allowed characters passes the check. *)
Lemma match_location_allowed s :
  s <> "" -> allowed s = true -> Re.match_location s = true.
Proof.
  unfold Re.match_location. induction s as [|c s IH]; intros Hne H; [contradiction|].
  simpl in *. apply andb_prop in H as [Hc Hs]. rewrite Hc. simpl.
  destruct s as [|d s]; [reflexivity|].
  rewrite IH; [reflexivity|discriminate|exact Hs].
Qed.

(** What passes the check: a non-empty run of allowed characters, possibly
    followed by one line feed. *)
Lemma match_location_shape s :
  Re.match_location s = true ->
  exists body,
    body <> "" /\ allowed body = true /\ (s = body \/ s = body ++ String Py.LF "").
Proof.
  unfold Re.match_location. induction s as [|c s IH]; intros H; [discriminate|].
  simpl in H. apply andb_prop in H as [Hc H]. apply orb_prop in H as [H|H].
  - destruct (IH H) as (body & Hne & Hb & Hs).
    exists (String c body). split; [discriminate|]. split; [simpl; by rewrite Hc|].
    destruct Hs as [-> | ->]; [left|right]; reflexivity.
  - exists (String c ""). split; [discriminate|]. split; [simpl; by rewrite Hc|].
    unfold Re.at_dollar in H. apply orb_prop in H as [H|H]; apply String.eqb_eq in H;
      rewrite H; [left|right]; reflexivity.
Qed.

Section Charset.

Context (env : Env) (opts : Options).

(** A path that fails the check makes setup raise with nothing done to the
    file tree and no system call made. *)
Lemma setup_rejects w :
  Re.match_location (realpath env (directory opts)) = false ->
  exists w',
    setup_build_dir env opts w = (Raise (Exception_ charset_message), w') /\
    fs w' = fs w /\ trace w' = trace w.
Proof.
  intros H. unfold setup_build_dir, bind, set_location, getattr. simpl. rewrite H. simpl.
  eexists. split; [reflexivity|]. split; reflexivity.
Qed.

(** [clean_build_dir] raises nothing but [OSError]. *)
Lemma clean_build_dir_raises w l e :
  self_location (self w) = Some l ->
  fst (clean_build_dir env w) = Raise e -> exists x, e = OSError x.
Proof.
  intros Hl. unfold clean_build_dir, bind, getattr. rewrite Hl.
  unfold try, os_stat, sys.
  destruct (fault env (EStat l) (fs w)) as [x|]; simpl.
  - destruct x; simpl; intros [= <-]; eauto.
  - destruct (through_file (fs w) l); simpl; [intros [= <-]; eauto|].
    destruct (fs w !! l) as [n|] eqn:El; simpl; [|discriminate].
    rewrite Hl. unfold shutil_rmtree, sys. simpl. rewrite El.
    destruct (fault env (ERmtree l) (fs w)) as [x|]; simpl.
    + intros [= <-]; eauto.
    + destruct n; simpl; [discriminate|]. intros [= <-]; eauto.
Qed.

(** The exception of the check is raised exactly when the resolved path, and
    not the option as given, fails the check. *)
Lemma charset_verdict_on_realpath w :
  fst (setup_build_dir env opts w) = Raise (Exception_ charset_message) <->
  Re.match_location (realpath env (directory opts)) = false.
Proof.
  split.
  - destruct (Re.match_location (realpath env (directory opts))) eqn:Em; [|reflexivity].
    set (l := realpath env (directory opts)) in *.
    unfold setup_build_dir. fold l. unfold bind at 1. unfold set_location at 1.
    unfold bind at 1. unfold getattr at 1. simpl. rewrite Em. simpl.
    unfold bind at 1.
    match goal with |- context [clean_build_dir env ?w0] =>
      pose proof (clean_build_dir_spec env w0 l eq_refl) as (Hs & _ & _);
      pose proof (clean_build_dir_raises w0 l) as Hr;
      destruct (clean_build_dir env w0) as [[[]|e] w'] end.
    + simpl in Hs. unfold bind, getattr. rewrite Hs. simpl.
      unfold os_mkdir, sys.
      destruct (fault env (EMkdir l) (fs w')); [discriminate|].
      destruct (fs w' !! l); discriminate.
    + destruct (Hr e eq_refl eq_refl) as [x ->]. discriminate.
  - intros H. destruct (setup_rejects w H) as (w' & -> & _). reflexivity.
Qed.

End Charset.

(** C5, at the failing input.  With the working directory option
    [b<LF>], which resolves to [/home/u/b<LF>], a path with a character
    outside the allowed set, setup does not raise: it removes the directory
    found there, with what it holds, and creates it anew. *)
Theorem setup_accepts_trailing_newline :
  let o := Sample.in_directory ("b" ++ Sample.nl) Sample.opts in
  let r := setup_phase Sample.good o (boot Scenario.old_tree) in
  allowed Scenario.newline_dir = false /\
  fst r = Ok tt /\
  trace (snd r) =
    [EOpenNull; EStat Scenario.newline_dir; ERmtree Scenario.newline_dir;
     EMkdir Scenario.newline_dir] /\
  Scenario.old_tree !! Py.join Scenario.newline_dir ["stale"] = Some (File "old") /\
  fs (snd r) !! Py.join Scenario.newline_dir ["stale"] = None.
Proof. vm_compute. repeat split; reflexivity. Qed.

(** C10, at the failing input.  The option [work<LF>] is relative; the path
    checked is its resolved form [/home/u/work<LF>], which holds a character
    outside the allowed set, and setup succeeds all the same. *)
Theorem resolved_path_with_newline_passes :
  let o := Sample.in_directory ("work" ++ Sample.nl) Sample.opts in
  realpath Sample.good (directory o) = "/home/u/work" ++ Sample.nl /\
  allowed (realpath Sample.good (directory o)) = false /\
  Re.match_location (realpath Sample.good (directory o)) = true /\
  fst (setup_phase Sample.good o (boot Sample.tree)) = Ok tt.
Proof. vm_compute. repeat split; reflexivity. Qed.

(** ** The statements on the concrete host *)

Section Concrete.

Import Sample Scenario.

(** C1 as stated fails: the build phase succeeds, the cleanup phase raises,
    and the exit status is 0. *)
Lemma cleanup_failure_exits_zero :
  let w1 := started stuck opts in
  let w2 := snd (build_phase stuck opts w1) in
  fst (setup_phase stuck opts (boot tree)) = Ok tt /\
  fst (build_phase stuck opts w1) = Ok tt /\
  fst (cleanup_phase stuck w2) = Raise (OSError EACCES) /\
  fst (main stuck opts (boot tree)) = 0%Z.
Proof. vm_compute. repeat split; reflexivity. Qed.

(** C3 as stated fails: setup succeeds, and the working directory is still
    there when the process has exited. *)
Lemma working_directory_left_behind :
  fst (setup_phase stuck opts (boot tree)) = Ok tt /\
  fs (snd (main stuck opts (boot tree))) !! wd = Some Dir.
Proof. vm_compute. split; reflexivity. Qed.

Lemma cleanup_once_after_build_witness :
  setup_phase good opts (boot tree) = (Ok tt, started good opts) /\
  (let l := realpath good (directory opts) in
   let w2 := snd (build_phase good opts (started good opts)) in
   let w3 := snd (main good opts (boot tree)) in
   w3 = snd (cleanup_phase good w2) /\
   (trace w3 = (trace w2 ++ [ECloseNull; EStat l])%list \/
    trace w3 = (trace w2 ++ [ECloseNull; EStat l; ERmtree l])%list) /\
   (is_ok (fst (cleanup_phase good w2)) = true -> fs w3 !! l = None)).
Proof.
  assert (setup_phase good opts (boot tree) = (Ok tt, started good opts)) as H
    by (vm_compute; reflexivity).
  split; [exact H|].
  exact (cleanup_once_after_build good opts (boot tree) (started good opts) H).
Defined.

(** C4 as stated fails: the glob yields no match, the run fails, and the
    working directory is still there at exit. *)
Lemma mismatch_leaves_directory :
  fst (setup_phase no_dist_stuck opts (boot tree)) = Ok tt /\
  fst (make_dist no_dist_stuck opts (started no_dist_stuck opts)) = Ok tt /\
  glob no_dist_stuck (dist_pattern wd) (fs (distributed no_dist_stuck opts)) = [] /\
  fst (main no_dist_stuck opts (boot tree)) = 1%Z /\
  fs (snd (main no_dist_stuck opts (boot tree))) !! wd = Some Dir.
Proof. vm_compute. repeat split; reflexivity. Qed.

Lemma dist_glob_mismatch_witness :
  setup_phase no_dist opts (boot tree) = (Ok tt, started no_dist opts) /\
  make_dist no_dist opts (started no_dist opts) = (Ok tt, distributed no_dist opts) /\
  length (glob no_dist (dist_pattern (realpath no_dist (directory opts)))
            (fs (distributed no_dist opts))) <> 1%nat /\
  (let l := realpath no_dist (directory opts) in
   let w3 := record (EGlob (dist_pattern l)) (distributed no_dist opts) in
   build_phase no_dist opts (started no_dist opts) = (Raise AssertionError, w3) /\
   fst (main no_dist opts (boot tree)) = 1%Z /\
   snd (main no_dist opts (boot tree)) = snd (cleanup_phase no_dist w3) /\
   (trace (snd (main no_dist opts (boot tree))) = (trace w3 ++ [ECloseNull; EStat l])%list \/
    trace (snd (main no_dist opts (boot tree)))
      = (trace w3 ++ [ECloseNull; EStat l; ERmtree l])%list) /\
   (is_ok (fst (cleanup_phase no_dist w3)) = true ->
    fs (snd (main no_dist opts (boot tree))) !! l = None)).
Proof.
  assert (setup_phase no_dist opts (boot tree) = (Ok tt, started no_dist opts)) as H1
    by (vm_compute; reflexivity).
  assert (make_dist no_dist opts (started no_dist opts) = (Ok tt, distributed no_dist opts))
    as H2 by (vm_compute; reflexivity).
  assert (length (glob no_dist (dist_pattern (realpath no_dist (directory opts)))
            (fs (distributed no_dist opts))) <> 1%nat) as H3
    by (vm_compute; discriminate).
  split; [exact H1|]. split; [exact H2|]. split; [exact H3|].
  exact (dist_glob_mismatch no_dist opts (boot tree) (started no_dist opts)
           (distributed no_dist opts) H1 H2 H3).
Defined.

(** C9 as stated fails: acquisition accepts an archive whose version is the
    empty string. *)
Lemma empty_version_accepted :
  fst (get_orig_tar empty_version opts (started empty_version opts)) = Ok tt /\
  self_version (self (acquired empty_version opts)) = Some "".
Proof. vm_compute. split; reflexivity. Qed.

Lemma version_from_dist_name_witness :
  let w := distributed good opts in
  let path := Py.join wd ["git-tmp"; archive] in
  self_location (self w) = Some wd /\
  glob good (dist_pattern wd) (fs w) = [path] /\
  (let name := Py.basename path in
   file_name path name /\
   (Py.startswith name "dl-fldigi-" = true -> Py.endswith name ".tar.gz" = true ->
    exists v,
      fst (find_dist good w) = Ok name /\
      self_version (self (snd (find_dist good w))) = Some v /\
      v = Py.slice name (Py.len "dl-fldigi-") (- Py.len ".tar.gz") /\
      name = "dl-fldigi-" ++ v ++ ".tar.gz" /\
      (v = "" <-> name = "dl-fldigi-.tar.gz")) /\
   (Py.startswith name "dl-fldigi-" = false \/ Py.endswith name ".tar.gz" = false ->
    fst (find_dist good w) = Raise AssertionError /\
    self_version (self (snd (find_dist good w))) = self_version (self w)) /\
   (forall v, name = "dl-fldigi-" ++ v ++ ".tar.gz" ->
    fst (find_dist good w) = Ok name /\
    self_version (self (snd (find_dist good w))) = Some v)).
Proof.
  intros w path.
  assert (self_location (self w) = Some wd) as H1 by (vm_compute; reflexivity).
  assert (glob good (dist_pattern wd) (fs w) = [path]) as H2 by (vm_compute; reflexivity).
  split; [exact H1|]. split; [exact H2|].
  exact (version_from_dist_name good w wd path H1 H2).
Defined.

Lemma short_hash_gate_witness :
  let text := "abc 123" ++ nl in
  make_dist seven_wide opts (started seven_wide opts) = (Ok tt, distributed seven_wide opts) /\
  find_dist seven_wide (distributed seven_wide opts) = (Ok archive, found seven_wide opts) /\
  self_location (self (started seven_wide opts)) = Some wd /\
  (verbose opts = false -> self_null (self (started seven_wide opts)) = Some tt) /\
  run seven_wide git_log (Some (Py.join wd ["git-tmp"])) (fs (found seven_wide opts))
    = Exited 0 text (fs (found seven_wide opts)) /\
  (all_space text = true \/ exists tok, first_token text tok) /\
  (forall tok, first_token text tok ->
     (String.length tok = 7%nat ->
      exists w3,
        find_commit seven_wide opts (found seven_wide opts) = (Ok tt, w3) /\
        self_git (self w3) = Some tok) /\
     (String.length tok <> 7%nat ->
      exists w3,
        build_phase seven_wide opts (started seven_wide opts) = (Raise AssertionError, w3) /\
        self_git (self w3) = Some tok /\
        Forall quiet_event (drop (length (trace (started seven_wide opts))) (trace w3)))) /\
  (all_space text = true ->
   exists w3,
     build_phase seven_wide opts (started seven_wide opts) = (Raise IndexError, w3) /\
     Forall quiet_event (drop (length (trace (started seven_wide opts))) (trace w3))).
Proof.
  intros text.
  assert (make_dist seven_wide opts (started seven_wide opts)
          = (Ok tt, distributed seven_wide opts)) as H1 by (vm_compute; reflexivity).
  assert (find_dist seven_wide (distributed seven_wide opts)
          = (Ok archive, found seven_wide opts)) as H2 by (vm_compute; reflexivity).
  assert (self_location (self (started seven_wide opts)) = Some wd) as H3
    by (vm_compute; reflexivity).
  assert (verbose opts = false -> self_null (self (started seven_wide opts)) = Some tt) as H4
    by (intros _; vm_compute; reflexivity).
  assert (run seven_wide git_log (Some (Py.join wd ["git-tmp"])) (fs (found seven_wide opts))
          = Exited 0 text (fs (found seven_wide opts))) as H5
    by (vm_compute; reflexivity).
  split; [exact H1|]. split; [exact H2|]. split; [exact H3|]. split; [exact H4|].
  split; [exact H5|].
  exact (short_hash_gate seven_wide opts (started seven_wide opts)
           (distributed seven_wide opts) (found seven_wide opts) archive wd
           text (fs (found seven_wide opts)) H1 H2 H3 H4 H5).
Defined.

(** C8 as stated fails: the command prints two lines and both come back. *)
Lemma cmd_output_keeps_all_lines :
  let text := "abcdef1 Release 3.21" ++ nl ++ "0123456 Older" ++ nl in
  run two_lines git_log (Some (Py.join wd ["git-tmp"])) (fs (found two_lines opts))
    = Exited 0 text (fs (found two_lines opts)) /\
  fst (cmd_output two_lines opts git_log (cwd_ (Some (Py.join wd ["git-tmp"])))
         (found two_lines opts))
    = Ok ("abcdef1 Release 3.21" ++ nl ++ "0123456 Older") /\
  Py.strip (Py.first_line text) = "abcdef1 Release 3.21".
Proof. vm_compute. repeat split; reflexivity. Qed.

Lemma cmd_output_whole_text_witness :
  let kw := cwd_ (Some (Py.join wd ["git-tmp"])) in
  cmd_ready opts (found good opts) kw /\
  run good git_log (cwd_for (found good opts) kw) (fs (found good opts))
    = Exited 0 summary (fs (found good opts)) /\
  fst (cmd_output good opts git_log kw (found good opts)) = Ok (Py.strip summary) /\
  (single_line summary ->
   fst (cmd_output good opts git_log kw (found good opts))
     = Ok (Py.strip (Py.first_line summary))).
Proof.
  intros kw.
  assert (cmd_ready opts (found good opts) kw) as H1.
  { split; [intros _; vm_compute; reflexivity|discriminate]. }
  assert (run good git_log (cwd_for (found good opts) kw) (fs (found good opts))
          = Exited 0 summary (fs (found good opts))) as H2 by (vm_compute; reflexivity).
  split; [exact H1|]. split; [exact H2|].
  exact (cmd_output_whole_text good opts (found good opts) git_log kw summary
           (fs (found good opts)) H1 H2).
Defined.

Lemma get_files_source_only_asserts_witness :
  let o := source_only opts in
  get_src o = true /\
  self_version (self (built good o)) = Some "3.21" /\
  self_git (self (built good o)) = Some "abcdef1" /\
  self_origname (self (built good o)) = Some ("dl-fldigi_" ++ "3.21" ++ ".orig.tar.gz") /\
  get_files good o (built good o) = (Raise AssertionError, built good o).
Proof.
  intros o.
  assert (get_src o = true) as H1 by reflexivity.
  assert (self_version (self (built good o)) = Some "3.21") as H2 by (vm_compute; reflexivity).
  assert (self_git (self (built good o)) = Some "abcdef1") as H3 by (vm_compute; reflexivity).
  assert (self_origname (self (built good o))
          = Some ("dl-fldigi_" ++ "3.21" ++ ".orig.tar.gz")) as H4 by (vm_compute; reflexivity).
  split; [exact H1|]. split; [exact H2|]. split; [exact H3|]. split; [exact H4|].
  exact (get_files_source_only_asserts good o (built good o) "3.21" "abcdef1" H1 H2 H3 H4).
Defined.

(** C7 as stated fails: the option is given, as the empty string, and the
    changelog is filled in with the host's distribution. *)
Lemma empty_distro_option_ignored :
  let o := for_distro (Some "") opts in
  distro o = Some "" /\
  fst (resolve_distro good o (unpacked good o)) = Ok "unstable" /\
  fs (built good o) !! changelog_file =
    Some (File (substitute (value "3.21" "abcdef1" "unstable" (formatdate good)) pieces)).
Proof. vm_compute. repeat split; reflexivity. Qed.

Lemma changelog_filled_in_witness :
  let w := unpacked good opts in
  let w1 := snd (resolve_distro good opts (record (ERead changelog_file) w)) in
  let text := substitute (value "3.21" "abcdef1" "unstable" (formatdate good)) pieces in
  self_location (self w) = Some wd /\
  self_debsrc (self w) = Some debsrc /\
  self_version (self w) = Some "3.21" /\
  self_git (self w) = Some "abcdef1" /\
  (verbose opts = false -> self_null (self w) = Some tt) /\
  fault good (ERead changelog_file) (fs w) = None /\
  fs w !! changelog_file = Some (File (render pieces)) /\
  well_formed pieces = true /\
  resolve_distro good opts (record (ERead changelog_file) w) = (Ok "unstable", w1) /\
  fault good (EWrite changelog_file text) (fs w1) = None /\
  fs w1 !! changelog_file <> Some Dir /\
  fill_changelog good opts w =
    (Ok tt, with_fs (<[changelog_file := File text]> (fs w1))
              (record (EWrite changelog_file text) w1)) /\
  (forall n, distro opts = Some n -> n <> "" -> "unstable" = n) /\
  (truthy (distro opts) = false ->
   forall id t1,
     run good ["lsb_release"; "-si"] (Some wd) (fs w) = Exited 0 id t1 ->
     (Py.strip id = "Debian" -> "unstable" = "unstable") /\
     (Py.strip id <> "Debian" ->
      forall cn t2,
        run good ["lsb_release"; "-sc"] (Some wd) t1 = Exited 0 cn t2 ->
        "unstable" = Py.strip cn)).
Proof.
  intros w w1 text.
  assert (self_location (self w) = Some wd) as H1 by (vm_compute; reflexivity).
  assert (self_debsrc (self w) = Some debsrc) as H2 by (vm_compute; reflexivity).
  assert (self_version (self w) = Some "3.21") as H3 by (vm_compute; reflexivity).
  assert (self_git (self w) = Some "abcdef1") as H4 by (vm_compute; reflexivity).
  assert (verbose opts = false -> self_null (self w) = Some tt) as H5
    by (intros _; vm_compute; reflexivity).
  assert (fault good (ERead changelog_file) (fs w) = None) as H6 by reflexivity.
  assert (fs w !! changelog_file = Some (File (render pieces))) as H7
    by (vm_compute; reflexivity).
  assert (well_formed pieces = true) as H8 by reflexivity.
  assert (resolve_distro good opts (record (ERead changelog_file) w) = (Ok "unstable", w1))
    as H9 by (vm_compute; reflexivity).
  assert (fault good (EWrite changelog_file text) (fs w1) = None) as H10 by reflexivity.
  assert (fs w1 !! changelog_file <> Some Dir) as H11 by (vm_compute; discriminate).
  split; [exact H1|]. split; [exact H2|]. split; [exact H3|]. split; [exact H4|].
  split; [exact H5|]. split; [exact H6|]. split; [exact H7|]. split; [exact H8|].
  split; [exact H9|]. split; [exact H10|]. split; [exact H11|].
  exact (changelog_filled_in good opts w wd debsrc "3.21" "abcdef1" pieces "unstable" w1
           H1 H2 H3 H4 H5 H6 H7 H8 H9 H10 H11).
Defined.

End Concrete.

(** * Further properties *)

(** ** The working directory *)

Lemma remove_tree_outside p t k : under p k = false -> remove_tree p t !! k = t !! k.
Proof.
  intros H. unfold remove_tree. destruct (t !! k) as [n|] eqn:E.
  - apply map_lookup_filter_Some. split; [exact E|exact H].
  - apply map_lookup_filter_None. left. exact E.
Qed.

Lemma remove_tree_inside p t k : under p k = true -> remove_tree p t !! k = None.
Proof.
  intros H. unfold remove_tree. apply map_lookup_filter_None. right.
  intros x _. simpl. rewrite H. discriminate.
Qed.

Lemma under_self p : under p p = true.
Proof. unfold under. by rewrite String.eqb_refl. Qed.

Section Directory.

Context (env : Env) (opts : Options).

(** What [clean_build_dir] makes of the tree: it is left as it was, or the
    directory at [l] was removed with all below it; the latter or an absent
    [l] when it returns normally. *)
Lemma clean_build_dir_tree w l :
  self_location (self w) = Some l ->
  (fs (snd (clean_build_dir env w)) = fs w /\
   (is_ok (fst (clean_build_dir env w)) = true -> fs w !! l = None)) \/
  (fs w !! l = Some Dir /\ is_ok (fst (clean_build_dir env w)) = true /\
   fs (snd (clean_build_dir env w)) = remove_tree l (fs w)).
Proof.
  intros Hl. unfold clean_build_dir, bind, getattr. rewrite Hl.
  unfold try, os_stat, sys.
  destruct (fault env (EStat l) (fs w)) as [x|]; simpl.
  - left. destruct x; simpl; (split; [reflexivity|discriminate]).
  - destruct (through_file (fs w) l); simpl; [left; split; [reflexivity|discriminate]|].
    destruct (fs w !! l) as [n|] eqn:El; simpl.
    + rewrite Hl. unfold shutil_rmtree, sys. simpl. rewrite El.
      destruct (fault env (ERmtree l) (fs w)) as [x|]; simpl.
      * left. split; [reflexivity|discriminate].
      * destruct n; simpl.
        -- right. auto.
        -- left. split; [reflexivity|discriminate].
    + left. split; [reflexivity|]. intros _. reflexivity.
Qed.

(** A path runs through a regular file when it lies below one. *)
Lemma through_file_spec t p :
  through_file t p = true <->
  exists a c, t !! a = Some (File c) /\ under a p = true /\ a <> p.
Proof.
  unfold through_file. rewrite existsb_exists. split.
  - intros ([a [|c]] & Hin & H); [discriminate|]. simpl in H.
    apply andb_prop in H as [Hu Hne]. apply negb_true_iff, String.eqb_neq in Hne.
    apply list_elem_of_In, elem_of_map_to_list in Hin. by exists a, c.
  - intros (a & c & Ha & Hu & Hne). exists (a, File c). split.
    + by apply list_elem_of_In, elem_of_map_to_list.
    + simpl. rewrite Hu. by apply String.eqb_neq in Hne as ->.
Qed.

(** X1.  With nothing at the place of the working directory,
    [clean_build_dir] makes one [stat] and leaves the tree as it is.  Unless
    the host refuses that [stat], it returns normally when the working
    directory lies below no regular file, and raises [OSError] with
    [ENOTDIR] when it lies below one. *)
Theorem clean_absent_directory w l :
  self_location (self w) = Some l ->
  fs w !! l = None ->
  fs (snd (clean_build_dir env w)) = fs w /\
  trace (snd (clean_build_dir env w)) = (trace w ++ [EStat l])%list /\
  (fault env (EStat l) (fs w) = None ->
   ((forall a c, fs w !! a = Some (File c) -> under a l = false) ->
    fst (clean_build_dir env w) = Ok tt) /\
   (forall a c, fs w !! a = Some (File c) -> under a l = true ->
    fst (clean_build_dir env w) = Raise (OSError ENOTDIR))).
Proof.
  intros Hl Habs. unfold clean_build_dir, bind, getattr. rewrite Hl.
  unfold try, os_stat, sys. rewrite Habs.
  destruct (fault env (EStat l) (fs w)) as [x|]; simpl.
  - destruct x; simpl; (split; [reflexivity|split; [reflexivity|discriminate]]).
  - destruct (through_file (fs w) l) eqn:Et; simpl;
      (split; [reflexivity|]); (split; [reflexivity|]); intros _; split.
    + intros Hno. apply through_file_spec in Et as (a & c & Ha & Hu & _).
      rewrite (Hno a c Ha) in Hu. discriminate.
    + reflexivity.
    + reflexivity.
    + intros a c Ha Hu. assert (through_file (fs w) l = true) as Ht.
      { apply through_file_spec. exists a, c. split; [exact Ha|]. split; [exact Hu|].
        intros ->. rewrite Habs in Ha. discriminate. }
      rewrite Ht in Et. discriminate.
Qed.

(** X2.  Whatever its outcome, [clean_build_dir] leaves everything outside
    the working directory as it was; and when it returns normally on a
    directory that was there, nothing is left of what was below it. *)
Theorem clean_build_dir_frame w l :
  self_location (self w) = Some l ->
  (forall k, under l k = false -> fs (snd (clean_build_dir env w)) !! k = fs w !! k) /\
  (is_ok (fst (clean_build_dir env w)) = true -> fs w !! l = Some Dir ->
   forall k, under l k = true -> fs (snd (clean_build_dir env w)) !! k = None).
Proof.
  intros Hl. destruct (clean_build_dir_tree w l Hl) as [[Hfs Habs]|(Hd & Hok & Hfs)];
    rewrite Hfs; split.
  - done.
  - intros Hok Hd. specialize (Habs Hok). congruence.
  - intros k Hk. by apply remove_tree_outside.
  - intros _ _ k Hk. by apply remove_tree_inside.
Qed.

(** The tree and the attributes after the steps of a successful setup. *)
Lemma setup_phase_tree w w1 :
  setup_phase env opts w = (Ok tt, w1) ->
  let l := realpath env (directory opts) in
  exists t,
    (t = fs w /\ fs w !! l = None \/ fs w !! l = Some Dir /\ t = remove_tree l (fs w)) /\
    fs w1 = <[l := Dir]> t.
Proof.
  unfold setup_phase, open_null, setup_build_dir.
  set (l := realpath env (directory opts)).
  unfold bind at 1 2. unfold sys.
  destruct (fault env EOpenNull (fs w)); [discriminate|]. simpl.
  unfold bind at 1. simpl. unfold bind at 1. simpl.
  destruct (Re.match_location l) eqn:Em; simpl; [|discriminate].
  unfold bind at 1.
  match goal with |- context [clean_build_dir env ?w0] =>
    pose proof (clean_build_dir_spec env w0 l eq_refl) as (Hs & _ & _);
    pose proof (clean_build_dir_tree w0 l eq_refl) as Ht;
    destruct (clean_build_dir env w0) as [[[]|e] w'] end; [|discriminate].
  simpl in Hs, Ht. unfold bind, getattr. rewrite Hs. simpl.
  unfold os_mkdir, sys.
  destruct (fault env (EMkdir l) (fs w')); [discriminate|].
  destruct (fs w' !! l) eqn:El'; [discriminate|].
  intros [= <-]. simpl. exists (fs w'). split; [|reflexivity].
  destruct Ht as [[-> Habs]|(Hd & _ & ->)]; [left|right]; auto.
Qed.

(** X3.  After a successful setup the working directory is a directory,
    nothing outside it has changed, and, in a tree where a missing directory
    has nothing below it, nothing is left below it. *)
Theorem setup_fresh_directory w w1 :
  setup_phase env opts w = (Ok tt, w1) ->
  let l := realpath env (directory opts) in
  fs w1 !! l = Some Dir /\
  (forall k, under l k = false -> fs w1 !! k = fs w !! k) /\
  ((fs w !! l = None -> forall k, under l k = true -> fs w !! k = None) ->
   forall k, under l k = true -> k <> l -> fs w1 !! k = None).
Proof.
  intros H l. destruct (setup_phase_tree w w1 H) as (t & Ht & ->). fold l in Ht.
  split; [apply lookup_insert_eq|]. split.
  - intros k Hk. assert (l <> k) as Hne by (intros <-; by rewrite under_self in Hk).
    rewrite lookup_insert_ne by exact Hne.
    destruct Ht as [[-> _]|[_ ->]]; [reflexivity|by apply remove_tree_outside].
  - intros Hroot k Hk Hne. rewrite lookup_insert_ne by (intros E; exact (Hne (eq_sym E))).
    destruct Ht as [[-> Habs]|[_ ->]]; [by apply Hroot|by apply remove_tree_inside].
Qed.

(** X4.  With a regular file at the place of the working directory, setup
    fails and leaves the tree as it was. *)
Theorem setup_over_regular_file w c :
  fs w !! realpath env (directory opts) = Some (File c) ->
  is_ok (fst (setup_phase env opts w)) = false /\
  fs (snd (setup_phase env opts w)) = fs w.
Proof.
  set (l := realpath env (directory opts)). intros Hf.
  destruct (setup_phase env opts w) as [r w1] eqn:E. simpl. revert E.
  unfold setup_phase, open_null, setup_build_dir. fold l.
  unfold bind at 1 2. unfold sys.
  destruct (fault env EOpenNull (fs w)); [by intros [= <- <-]|]. simpl.
  unfold bind at 1. simpl. unfold bind at 1. simpl.
  destruct (Re.match_location l) eqn:Em; simpl; [|by intros [= <- <-]].
  unfold bind at 1.
  match goal with |- context [clean_build_dir env ?w0] =>
    pose proof (clean_build_dir_tree w0 l eq_refl) as Ht;
    destruct (clean_build_dir env w0) as [[[]|e] w'] end; simpl in Ht.
  - destruct Ht as [[_ Habs]|(Hd & _)]; [specialize (Habs eq_refl)|]; congruence.
  - intros [= <- <-]. destruct Ht as [[-> _]|(Hd & _)]; [by split|congruence].
Qed.

(** The calls of the setup phase, whatever its outcome. *)
Lemma setup_phase_trace w :
  exists evs,
    trace (snd (setup_phase env opts w)) = (trace w ++ evs)%list /\
    Forall (setup_call (realpath env (directory opts))) evs.
Proof.
  set (l := realpath env (directory opts)).
  assert (setup_call l EOpenNull) as C0 by (left; reflexivity).
  assert (setup_call l (EStat l)) as C1 by (right; left; reflexivity).
  assert (setup_call l (ERmtree l)) as C2 by (right; right; left; reflexivity).
  assert (setup_call l (EMkdir l)) as C3 by (right; right; right; reflexivity).
  unfold setup_phase, open_null, setup_build_dir. fold l.
  unfold bind at 1 2. unfold sys.
  destruct (fault env EOpenNull (fs w)); [exists [EOpenNull]; split; [reflexivity|auto]|].
  simpl. unfold bind at 1. simpl. unfold bind at 1. simpl.
  destruct (Re.match_location l) eqn:Em; simpl;
    [|exists [EOpenNull]; split; [reflexivity|auto]].
  unfold bind at 1.
  match goal with |- context [clean_build_dir env ?w0] =>
    pose proof (clean_build_dir_spec env w0 l eq_refl) as (Hs & Ht & _);
    destruct (clean_build_dir env w0) as [[[]|e] w'] end; simpl in Hs, Ht.
  - unfold bind, getattr. rewrite Hs. simpl. unfold os_mkdir, sys.
    assert (forall r w2, trace w2 = (trace w' ++ [EMkdir l])%list ->
              exists evs, trace (@snd (result unit) World (r, w2)) = (trace w ++ evs)%list /\
                          Forall (setup_call l) evs) as Hend.
    { intros r w2 E. simpl. rewrite E.
      destruct Ht as [-> | ->]; rewrite <- !List.app_assoc; simpl;
        eexists; (split; [reflexivity|]); auto 10. }
    destruct (fault env (EMkdir l) (fs w')); [by apply Hend|].
    destruct (fs w' !! l); by apply Hend.
  - simpl. destruct Ht as [-> | ->]; rewrite <- !List.app_assoc; simpl;
      eexists; (split; [reflexivity|]); auto 10.
Qed.

(** X5.  A setup that raises ends the process at once with status 1: what
    has been called is the opening of the null handle and calls on the
    working directory, no command, and no cleanup follows. *)
Theorem setup_failure_is_fatal w e w1 :
  setup_phase env opts w = (Raise e, w1) ->
  main env opts w = (1%Z, w1) /\
  exists evs,
    trace w1 = (trace w ++ evs)%list /\
    Forall (setup_call (realpath env (directory opts))) evs.
Proof.
  intros H. split.
  - unfold main. by rewrite H.
  - pose proof (setup_phase_trace w) as T. by rewrite H in T.
Qed.

End Directory.

(** ** Paths below the working directory *)

Lemma str_prefix_app_both a b c : String.prefix (a ++ b) (a ++ c) = String.prefix b c.
Proof.
  induction a as [|x a IH]; [reflexivity|].
  rewrite !str_app_cons. simpl. destruct (ascii_dec x x); [exact IH|contradiction].
Qed.

Lemma str_prefix_app_r a p x : String.prefix a p = true -> String.prefix a (p ++ x) = true.
Proof. intros H. apply prefix_split in H as [r ->]. rewrite str_app_assoc. apply str_prefix_app. Qed.

(** Joining a relative component appends to the path. *)
Lemma join2_rel l b : Py.startswith b "/" = false -> Py.join2 l b = Py.join2 l "" ++ b.
Proof.
  intros H. unfold Py.join2. rewrite H. change (Py.startswith "" "/") with false. cbv iota.
  destruct (String.eqb l "" || Py.endswith l "/").
  - by rewrite str_app_nil_r.
  - by rewrite !str_app_assoc.
Qed.

Lemma join2_shape p b : Py.startswith b "/" = false -> exists x, Py.join2 p b = p ++ x.
Proof.
  intros H. unfold Py.join2. rewrite H.
  destruct (String.eqb p "" || Py.endswith p "/"); eexists; reflexivity.
Qed.

Lemma under_join2 l p b :
  under l p = true -> Py.startswith b "/" = false -> under l (Py.join2 p b) = true.
Proof.
  intros Hp Hb. unfold under in *. apply orb_prop in Hp as [Hp|Hp].
  - apply String.eqb_eq in Hp as ->. rewrite (join2_rel l b Hb), str_prefix_app.
    apply orb_true_r.
  - destruct (join2_shape p b Hb) as [x ->]. rewrite (str_prefix_app_r _ _ _ Hp).
    apply orb_true_r.
Qed.

Lemma under_join l parts :
  Forall (fun b => Py.startswith b "/" = false) parts -> under l (Py.join l parts) = true.
Proof.
  unfold Py.join. generalize (under_self l). generalize l at 2 4 as p.
  intros p Hp H. revert p Hp. induction H as [|b parts Hb _ IH]; intros p Hp; [exact Hp|].
  simpl. apply IH. by apply under_join2.
Qed.

(** The orig archive does not lie in the clone. *)
Lemma orig_outside_clone l v :
  under (Py.join l ["git-tmp"]) (Py.join l ["dl-fldigi_" ++ v ++ ".orig.tar.gz"]) = false.
Proof.
  unfold Py.join. simpl fold_left.
  rewrite (join2_rel l "git-tmp") by reflexivity.
  rewrite (join2_rel l ("dl-fldigi_" ++ v ++ ".orig.tar.gz")) by reflexivity.
  unfold under. apply orb_false_intro.
  - apply String.eqb_neq. intros E. apply (inj (String.app _)) in E. discriminate E.
  - destruct (join2_shape (Py.join2 l "" ++ "git-tmp") "" eq_refl) as [x ->].
    rewrite str_app_assoc, str_prefix_app_both. reflexivity.
Qed.

(** ** Commands *)

Section Commands.

Context (env : Env) (opts : Options).

Lemma cmd_step w args kw :
  cmd_ready opts w kw ->
  exists r w',
    cmd env opts args kw w = (r, w') /\ self w' = self w /\
    trace w' =
      (trace w ++ [ECall args (cwd_for w kw) (stream_for (verbose opts) (kw_stdout kw))
                     (stream_for (verbose opts) (kw_stderr kw))])%list.
Proof.
  intros H. rewrite (cmd_spec env opts w args kw H). cbv zeta.
  destruct (run env args (cwd_for w kw) (fs w)) as [e|rc text t]; [by eexists _, _|].
  destruct (stream_for (verbose opts) (kw_stdout kw)); by eexists _, _.
Qed.

(** X6.  [cmd] makes one call, in the working directory unless another is
    given and with the streams on the null handle unless the run is verbose
    or a stream is given.  It raises [OSError] when the command cannot be
    started and the exception of a failed command when the exit status is
    not 0; what the command did to the tree stays. *)
Theorem cmd_outcome w args kw :
  cmd_ready opts w kw ->
  trace (snd (cmd env opts args kw w)) =
    (trace w ++ [ECall args (cwd_for w kw) (stream_for (verbose opts) (kw_stdout kw))
                   (stream_for (verbose opts) (kw_stderr kw))])%list /\
  self (snd (cmd env opts args kw w)) = self w /\
  match run env args (cwd_for w kw) (fs w) with
  | SpawnError e =>
      fst (cmd env opts args kw w) = Raise (OSError e) /\
      fs (snd (cmd env opts args kw w)) = fs w
  | Exited rc _ t =>
      fst (cmd env opts args kw w) =
        (if (rc =? 0)%Z then Ok tt else Raise (SubprocessExited args)) /\
      fs (snd (cmd env opts args kw w)) = t
  end.
Proof.
  intros H. rewrite (cmd_spec env opts w args kw H). cbv zeta.
  destruct (run env args (cwd_for w kw) (fs w)) as [e|rc text t]; [by simpl|].
  destruct (stream_for (verbose opts) (kw_stdout kw)); by simpl.
Qed.

(** X7.  The capturing variant returns a value only when the command exits
    with status 0; otherwise it raises as [cmd] does and what the command
    printed is not returned. *)
Theorem cmd_output_outcome w args kw :
  cmd_ready opts w kw ->
  fst (cmd_output env opts args kw w) =
    match run env args (cwd_for w kw) (fs w) with
    | SpawnError e => Raise (OSError e)
    | Exited rc text _ =>
        if (rc =? 0)%Z then Ok (Py.strip text) else Raise (SubprocessExited args)
    end.
Proof.
  intros H. unfold cmd_output. unfold bind at 1. unfold os_pipe at 1. unfold bind at 1.
  rewrite cmd_spec by exact H. simpl.
  change (cwd_for (with_pipe "" w) _) with (cwd_for w kw).
  destruct (run env args (cwd_for w kw) (fs w)) as [e|rc text t]; [reflexivity|].
  by destruct (rc =? 0)%Z.
Qed.

Lemma for_each_cons {A} (x : A) r body w :
  for_each (x :: r) body w =
    match body x w with
    | (Ok _, w') => for_each r body w'
    | (Raise e, w') => (Raise e, w')
    end.
Proof. reflexivity. Qed.

(** Commands run one after the other: the calls made are the first ones of
    the list, all of them when none fails. *)
Lemma commands_in_order cmds w :
  (verbose opts = false -> self_null (self w) = Some tt) ->
  exists evs,
    trace (snd (for_each cmds (fun c => cmd env opts c.1 (cwd_ c.2)) w))
      = (trace w ++ evs)%list /\
    evs `prefix_of` map (call_of opts) cmds /\
    (is_ok (fst (for_each cmds (fun c => cmd env opts c.1 (cwd_ c.2)) w)) = true ->
     evs = map (call_of opts) cmds).
Proof.
  revert w. induction cmds as [|c cmds IH]; intros w Hn.
  - exists []. simpl. split; [by rewrite List.app_nil_r|]. split; [apply prefix_nil|done].
  - rewrite for_each_cons.
    destruct (cmd_step w c.1 (cwd_ c.2)) as (r & w' & E & Hs & Ht);
      [split; [exact Hn|discriminate]|].
    rewrite E. destruct r as [[]|e].
    + destruct (IH w') as (evs & Ht' & Hp & Hall); [by rewrite Hs|].
      exists (call_of opts c :: evs). split; [|split].
      * rewrite Ht', Ht. by rewrite <- List.app_assoc.
      * simpl. by apply prefix_cons.
      * intros Hok. simpl. by rewrite (Hall Hok).
    + exists [call_of opts c]. simpl. split; [exact Ht|]. split; [|discriminate].
      apply prefix_cons, prefix_nil.
Qed.

(** [make_dist] is its commands run one after the other. *)
Lemma make_dist_commands w l :
  self_location (self w) = Some l ->
  make_dist env opts w =
    for_each (dist_commands opts (Py.join l ["git-tmp"]))
      (fun c => cmd env opts c.1 (cwd_ c.2)) w.
Proof.
  intros Hl. unfold make_dist, loc, dist_commands.
  unfold bind at 1. unfold bind at 1. unfold getattr at 1. rewrite Hl. unfold ret at 1.
  destruct (dl_fldigi_commit opts) as [c|]; [destruct (truthy (Some c))|]; reflexivity.
Qed.

(** X8.  Acquisition runs its commands in a fixed order (clone, checkout
    when a commit is given, the two submodule commands, autoreconf,
    configure, make dist) and stops at the first that fails: the calls made
    are the first ones of that list, and all of it when [make_dist] returns
    normally. *)
Theorem make_dist_in_order w l :
  self_location (self w) = Some l ->
  (verbose opts = false -> self_null (self w) = Some tt) ->
  exists evs,
    trace (snd (make_dist env opts w)) = (trace w ++ evs)%list /\
    evs `prefix_of` map (call_of opts) (dist_commands opts (Py.join l ["git-tmp"])) /\
    (is_ok (fst (make_dist env opts w)) = true ->
     evs = map (call_of opts) (dist_commands opts (Py.join l ["git-tmp"]))).
Proof.
  intros Hl Hn. rewrite (make_dist_commands w l Hl). by apply commands_in_order.
Qed.

End Commands.

(** ** The build and the collection *)

Lemma dash_j j : "-j" ++ j = String "-" (String "j" j).
Proof. reflexivity. Qed.

Section Build.

Context (env : Env) (opts : Options).

(** X9.  [build] makes one call, [debuild -uc -us] in the versioned
    directory; [-S] is among the further arguments exactly in source-only
    mode and [-j<jobs>] exactly when the job count is given as a non-empty
    string.  It raises unless the command exits with status 0. *)
Theorem build_call w l d :
  self_location (self w) = Some l ->
  self_debsrc (self w) = Some d ->
  (verbose opts = false -> self_null (self w) = Some tt) ->
  exists more,
    trace (snd (build env opts w)) =
      (trace w ++ [ECall ("debuild" :: "-uc" :: "-us" :: more) (Some (Py.join l [d]))
                     (stream_for (verbose opts) None) (stream_for (verbose opts) None)])%list /\
    ("-S" ∈ more <-> get_src opts = true) /\
    (forall j, "-j" ++ j ∈ more <-> make_jobs opts = Some j /\ j <> "") /\
    fst (build env opts w) =
      match run env ("debuild" :: "-uc" :: "-us" :: more) (Some (Py.join l [d])) (fs w) with
      | SpawnError e => Raise (OSError e)
      | Exited rc _ _ =>
          if (rc =? 0)%Z then Ok tt
          else Raise (SubprocessExited ("debuild" :: "-uc" :: "-us" :: more))
      end.
Proof.
  intros Hl Hd Hn. unfold build.
  set (more := app _ _).
  exists more. unfold bind, getattr, loc. rewrite Hd. unfold bind, getattr. rewrite Hl.
  unfold ret.
  assert (cmd_ready opts w (cwd_ (Some (Py.join l [d])))) as Hready
    by (split; [exact Hn|discriminate]).
  rewrite (cmd_spec env opts w _ _ Hready). cbv zeta.
  change (cwd_for w (cwd_ (Some (Py.join l [d])))) with (Some (Py.join l [d])).
  change (kw_stdout (cwd_ (Some (Py.join l [d])))) with (@None stream).
  change (kw_stderr (cwd_ (Some (Py.join l [d])))) with (@None stream).
  split; [|split; [|split]].
  - destruct (run env _ _ (fs w)) as [e|rc text t]; [reflexivity|].
    by destruct (stream_for (verbose opts) None).
  - unfold more. destruct (make_jobs opts) as [j0|]; [destruct (truthy (Some j0))|];
      destruct (get_src opts); simpl; rewrite ?dash_j;
      repeat rewrite elem_of_cons; rewrite ?elem_of_nil;
      intuition (first [discriminate | congruence]).
  - intros j. unfold more. rewrite dash_j.
    destruct (make_jobs opts) as [j0|]; [destruct (truthy (Some j0)) eqn:Et|];
      destruct (get_src opts); simpl; rewrite ?dash_j;
      repeat rewrite elem_of_cons; rewrite ?elem_of_nil; try simpl in Et;
      try (apply negb_true_iff, String.eqb_neq in Et);
      try (apply negb_false_iff, String.eqb_eq in Et);
      intuition (first [discriminate | congruence]).
  - by destruct (run env _ _ (fs w)) as [e|rc text t].
Qed.

End Build.

Section Collect2.

Context (env : Env) (opts : Options).

(** In binary mode [get_files] globs once for the package and goes on with
    the copy only when there is exactly one match. *)
Lemma get_files_glob w l v g :
  get_src opts = false ->
  self_location (self w) = Some l ->
  self_version (self w) = Some v ->
  self_git (self w) = Some g ->
  let pattern := Py.join l [("dl-fldigi_" ++ v ++ "-" ++ g) ++ "_*.deb"] in
  get_files env opts w =
    match glob env pattern (fs w) with
    | [deb] => shutil_copy env deb (output opts) (record (EGlob pattern) w)
    | _ => (Raise AssertionError, record (EGlob pattern) w)
    end.
Proof.
  intros Hsrc Hl Hv Hg pattern. unfold get_files, bind, getattr. rewrite Hv, Hg, Hsrc.
  unfold loc, bind, getattr. rewrite Hl. unfold ret, glob_glob. fold pattern.
  destruct (glob env pattern (fs w)) as [|deb [|x r]]; reflexivity.
Qed.

(** X10.  In binary mode, when the glob for the package yields no match or
    several, [get_files] raises [AssertionError] right after the glob:
    nothing is copied and the tree is as it was. *)
Theorem get_files_mismatch w l v g :
  let pattern := Py.join l [("dl-fldigi_" ++ v ++ "-" ++ g) ++ "_*.deb"] in
  get_src opts = false ->
  self_location (self w) = Some l ->
  self_version (self w) = Some v ->
  self_git (self w) = Some g ->
  length (glob env pattern (fs w)) <> 1%nat ->
  get_files env opts w = (Raise AssertionError, record (EGlob pattern) w).
Proof.
  intros pattern Hsrc Hl Hv Hg Hlen.
  rewrite (get_files_glob w l v g Hsrc Hl Hv Hg). cbv zeta. fold pattern.
  destruct (glob env pattern (fs w)) as [|deb [|x r]]; [reflexivity| |reflexivity].
  by contradict Hlen.
Qed.


End Collect2.

Section Keep.

Context (env : Env).

(** X12.  [keep_orig] names the orig archive [dl-fldigi_<version>.orig.tar.gz]
    and copies the distribution archive from the clone to that name at the
    root of the working directory, then removes the clone.  When the archive
    is not that very file, it returns normally: afterwards the orig archive
    is there with the archive's content, nothing is left of the clone, and
    every other path is as it was.  The two are the same file only for an
    archive name that is not relative; [shutil.copy] then refuses to copy
    the file onto itself and the tree is unchanged. *)
Theorem keep_orig_result w l v d c :
  let clone := Py.join l ["git-tmp"] in
  let src := Py.join l ["git-tmp"; d] in
  let name := "dl-fldigi_" ++ v ++ ".orig.tar.gz" in
  let dst := Py.join l [name] in
  self_location (self w) = Some l ->
  self_version (self w) = Some v ->
  fs w !! src = Some (File c) ->
  fs w !! dst <> Some Dir ->
  fs w !! clone = Some Dir ->
  fault env (ECopy src dst) (fs w) = None ->
  fault env (ERmtree clone) (<[dst := File c]> (fs w)) = None ->
  (Py.startswith d "/" = false -> src <> dst) /\
  self_origname (self (snd (keep_orig env d w))) = Some name /\
  (src = dst ->
   fst (keep_orig env d w) = Raise (SameFile src dst) /\
   fs (snd (keep_orig env d w)) = fs w) /\
  (src <> dst ->
   fst (keep_orig env d w) = Ok tt /\
   fs (snd (keep_orig env d w)) !! dst = Some (File c) /\
   (forall k, under clone k = true -> fs (snd (keep_orig env d w)) !! k = None) /\
   (forall k, under clone k = false -> k <> dst ->
      fs (snd (keep_orig env d w)) !! k = fs w !! k)).
Proof.
  intros clone src name dst Hl Hv Hsrc Hdst Hclone Hf1 Hf2.
  pose proof (orig_outside_clone l v) as Hout. fold clone name dst in Hout.
  assert (clone <> dst) as Hne.
  { intros E. rewrite <- E, under_self in Hout. discriminate. }
  split.
  { intros Hd E. assert (under clone src = true) as Hin.
    { unfold clone, src, Py.join. simpl fold_left. by apply under_join2, Hd; apply under_self. }
    rewrite E, Hout in Hin. discriminate. }
  destruct (keep_orig env d w) as [r w'] eqn:E. revert E.
  subst clone src dst. unfold Py.join in *. simpl fold_left in *.
  unfold keep_orig, bind, getattr, loc, set_origname, shutil_copy, shutil_rmtree, sys, ret.
  rewrite Hv. fold name. cbn -[Py.join2 Py.basename remove_tree String.eqb].
  rewrite Hl. cbn -[Py.join2 Py.basename remove_tree String.eqb].
  rewrite Hf1, Hsrc.
  assert (forall n, n <> Some Dir ->
            match n with
            | Some Dir => Py.join2 (Py.join2 l name) (Py.basename (Py.join2 (Py.join2 l "git-tmp") d))
            | _ => Py.join2 l name
            end = Py.join2 l name) as Htarget.
  { intros [[|?]|] Hn; [contradiction|reflexivity..]. }
  cbn -[Py.join2 Py.basename remove_tree String.eqb]. rewrite (Htarget _ Hdst).
  destruct (String.eqb_spec (Py.join2 (Py.join2 l "git-tmp") d) (Py.join2 l name)) as [Es|Es].
  - intros [= <- <-]. cbn -[Py.join2 Py.basename remove_tree].
    split; [reflexivity|]. split; [done|]. intros Hd. contradiction.
  - assert (match fs w !! Py.join2 l name with
            | Some Dir => @Raise (unit * gmap string node) (OSError EISDIR)
            | _ => Ok (tt, <[Py.join2 l name := File c]> (fs w))
            end = Ok (tt, <[Py.join2 l name := File c]> (fs w))) as Hw.
    { destruct (fs w !! Py.join2 l name) as [[|?]|]; [contradiction|reflexivity..]. }
    rewrite Hw. cbn -[Py.join2 Py.basename remove_tree].
    rewrite ?Hl. cbn -[Py.join2 Py.basename remove_tree].
    rewrite Hf2, (lookup_insert_ne _ _ _ _ (fun E => Hne (eq_sym E))), Hclone.
    intros [= <- <-]. cbn -[Py.join2 Py.basename remove_tree].
    split; [reflexivity|]. split; [intros Hd; contradiction|]. intros _.
    split; [reflexivity|]. split; [|split].
    + rewrite remove_tree_outside by exact Hout. apply lookup_insert_eq.
    + intros k Hk. by apply remove_tree_inside.
    + intros k Hk Hkd. rewrite remove_tree_outside by exact Hk.
      apply lookup_insert_ne. intros E'. exact (Hkd (eq_sym E')).
Qed.

End Keep.

(** ** Templates with other placeholders *)

Lemma scan_field kw acc n rest :
  field_tail n = true ->
  Fmt.scan kw (Fmt.Field acc) (n ++ String "}" rest) =
    match kw !! (acc ++ n) with
    | Some v => Fmt.emit v (Fmt.scan kw Fmt.Text rest)
    | None => Some (Raise (KeyError (acc ++ n)))
    end.
Proof.
  revert acc. induction n as [|c n IH]; intros acc H.
  - rewrite str_app_nil_l, str_app_nil_r. reflexivity.
  - simpl in H. apply andb_prop in H as [Hc Hn]. apply andb_prop in Hc as [Hcl Hsp].
    rewrite str_app_cons. simpl.
    destruct (Ascii.eqb c "}"); [discriminate|].
    destruct (Fmt.special c); [discriminate|].
    rewrite IH by exact Hn.
    replace ((acc ++ String c "") ++ n) with (acc ++ String c n); [reflexivity|].
    by rewrite str_app_assoc.
Qed.

(** A field whose name is no keyword argument is a [KeyError]. *)
Lemma scan_unknown kw name rest :
  field_name name = true ->
  kw !! name = None ->
  Fmt.scan kw Fmt.Text ("{" ++ name ++ "}" ++ rest) = Some (Raise (KeyError name)).
Proof.
  intros Hname Hkw. destruct name as [|c n]; [discriminate|].
  simpl in Hname. apply andb_prop in Hname as [Hs Ht].
  unfold field_start in Hs. apply andb_prop in Hs as [Hs Hd].
  apply andb_prop in Hs as [Hs Hsp]. apply andb_prop in Hs as [Ho Hc].
  change ("{" ++ String c n ++ "}" ++ rest) with (String "{" (String c (n ++ String "}" rest))).
  simpl.
  destruct (Ascii.eqb c "{"); [discriminate|]. destruct (Ascii.eqb c "}"); [discriminate|].
  destruct (Fmt.special c); [discriminate|]. destruct (Fmt.digit c); [discriminate|].
  simpl. rewrite scan_field by exact Ht.
  change ("" ++ String c "" ++ n) with (String c n).
  change (String c "" ++ n) with (String c n). by rewrite Hkw.
Qed.

Lemma scan_render_then v g dist date ps rest :
  well_formed ps = true ->
  Fmt.scan (changelog_kwargs v g dist date) Fmt.Text (render ps ++ rest) =
    Fmt.emit (substitute (value v g dist date) ps)
      (Fmt.scan (changelog_kwargs v g dist date) Fmt.Text rest).
Proof.
  induction ps as [|[t|p] ps IH]; intros H.
  - by rewrite emit_nil.
  - simpl in H. apply andb_prop in H as [Ht Hps].
    change (render (Plain t :: ps)) with (t ++ render ps). rewrite str_app_assoc.
    rewrite scan_plain by exact Ht. rewrite IH by exact Hps. by rewrite emit_emit.
  - change (render (Hole p :: ps)) with ("{" ++ key p ++ "}" ++ render ps).
    rewrite !str_app_assoc.
    rewrite (scan_hole _ p _ _ (changelog_kwargs_lookup v g dist date p)).
    rewrite IH by exact H. by rewrite emit_emit.
Qed.

Lemma changelog_kwargs_other v g dist date name :
  (forall p, name <> key p) -> changelog_kwargs v g dist date !! name = None.
Proof.
  intros H. unfold changelog_kwargs.
  rewrite !lookup_insert_ne; [apply lookup_empty|..].
  - intros E. exact (H PDate (eq_sym E)).
  - intros E. exact (H PCommit (eq_sym E)).
  - intros E. exact (H PDistro (eq_sym E)).
  - intros E. exact (H PVersion (eq_sym E)).
Qed.

Section Unknown.

Context (env : Env) (opts : Options).

(** X13.  A changelog with a placeholder other than the four makes
    [fill_changelog] raise [KeyError] with that name once the distribution
    is resolved: nothing is written and the file keeps its template. *)
Theorem unknown_placeholder_raises w l d v g ps name rest dist w1 :
  self_location (self w) = Some l ->
  self_debsrc (self w) = Some d ->
  self_version (self w) = Some v ->
  self_git (self w) = Some g ->
  let file := Py.join l [d; "debian"; "changelog"] in
  fault env (ERead file) (fs w) = None ->
  fs w !! file = Some (File (render ps ++ "{" ++ name ++ "}" ++ rest)) ->
  well_formed ps = true ->
  field_name name = true ->
  (forall p, name <> key p) ->
  resolve_distro env opts (record (ERead file) w) = (Ok dist, w1) ->
  fill_changelog env opts w = (Raise (KeyError name), w1).
Proof.
  intros Hl Hd Hv Hg file Hfr Hfile Hwf Hname Hother Hres.
  destruct (resolve_distro_steady env opts same_self (record (ERead file) w)) as (Hs & _).
  rewrite Hres in Hs. unfold same_self in Hs. simpl in Hs.
  unfold fill_changelog. unfold bind at 1, getattr at 1. rewrite Hd.
  unfold bind at 1, loc at 1, bind at 1, getattr at 1. rewrite Hl. unfold ret at 1.
  fold file. unfold bind at 1, file_read at 1, sys. rewrite Hfr, Hfile.
  change (with_fs (fs w) (record (ERead file) w)) with (record (ERead file) w).
  unfold bind at 1. rewrite Hres.
  unfold bind at 1, getattr at 1. rewrite Hs, Hv.
  unfold bind at 1, getattr at 1. rewrite Hs, Hg.
  unfold bind at 1, str_format. rewrite scan_render_then by exact Hwf.
  rewrite scan_unknown; [reflexivity|exact Hname|by apply changelog_kwargs_other].
Qed.

End Unknown.

(** ** The overlay of the packaging directory *)





Section Overlay.

Context (env : Env) (opts : Options).


End Overlay.

(** ** Where the script changes the file tree *)

Section Hoare.

Context (env : Env) (opts : Options) (P : event -> Prop).

Lemma hoare_conseq {A} (pre pre' : Builder -> Prop) (m : M A) post :
  hoare P pre' m post -> (forall b, pre b -> pre' b) -> hoare P pre m post.
Proof. intros H Hp w Hw. apply H, Hp, Hw. Qed.

Lemma hoare_post {A} (pre : Builder -> Prop) (m : M A) (post post' : A -> Builder -> Prop) :
  hoare P pre m post' -> (forall a b, post' a b -> post a b) -> hoare P pre m post.
Proof.
  intros H Hp w Hw. destruct (H w Hw) as [Hq He]. split; [|exact He].
  intros a Ha. by apply Hp, Hq.
Qed.

Lemma hoare_bind {A B} pre mid post (m : M A) (k : A -> M B) :
  (forall a, hoare P (mid a) (k a) post) -> hoare P pre m mid ->
  hoare P pre (bind m k) post.
Proof.
  intros Hk Hm w Hw. unfold bind. destruct (Hm w Hw) as (Hq & evs & Ht & Hp).
  destruct (m w) as [[a|e] w1]; simpl in *.
  - destruct (Hk a w1 (Hq a eq_refl)) as (Hq' & evs' & Ht' & Hp'). split; [exact Hq'|].
    exists (evs ++ evs')%list. split; [|by apply Forall_app].
    rewrite Ht', Ht. by rewrite <- List.app_assoc.
  - split; [discriminate|]. by exists evs.
Qed.

Lemma hoare_still {A} (m : M A) (pre : Builder -> Prop) post :
  (forall w, snd (m w) = w) ->
  (forall w a, pre (self w) -> fst (m w) = Ok a -> post a (self w)) ->
  hoare P pre m post.
Proof.
  intros Hs Hq w Hw. rewrite Hs. split; [intros a Ha; by apply Hq|].
  exists []. split; [by rewrite List.app_nil_r|constructor].
Qed.

Lemma hoare_ret {A} (a : A) post : hoare P (post a) (ret a) post.
Proof. apply hoare_still; [done|]. by intros w a' Hw [= <-]. Qed.

Lemma hoare_raise {A} e post : hoare P (fun _ => True) (@raise A e) post.
Proof. by apply hoare_still. Qed.

Lemma hoare_getattr name f post :
  hoare P (fun b => forall a, f b = Some a -> post a b) (getattr name f) post.
Proof.
  apply hoare_still; unfold getattr.
  - intros w. by destruct (f (self w)).
  - intros w a Hw. destruct (f (self w)) as [v|]; [|discriminate].
    intros [= <-]. by apply Hw.
Qed.

Lemma hoare_assert c post : hoare P (fun b => c = true -> post tt b) (assert c) post.
Proof.
  apply hoare_still; [by destruct c|]. intros w [] Hw. destruct c; [|discriminate].
  intros _. by apply Hw.
Qed.

Lemma hoare_steady (R : Builder -> Builder -> Prop) {A} (m : M A) post :
  steady R P m -> hoare P (fun b => forall a b', R b b' -> post a b') m post.
Proof.
  intros H w Hw. destruct (H w) as [Hr He]. split; [|exact He]. intros a _. by apply Hw.
Qed.

Lemma hoare_sys {A} e (sem : gmap string node -> result (A * gmap string node)) post :
  hoare P (fun b => P e /\ forall a, post a b) (sys env e sem) post.
Proof.
  intros w [He Hq]. unfold sys.
  assert (forall (r : result A) w', self w' = self w ->
            trace w' = (trace w ++ [e])%list ->
            (forall a, fst (r, w') = Ok a -> post a (self (snd (r, w')))) /\
            exists evs, trace (snd (r, w')) = (trace w ++ evs)%list /\ Forall P evs) as H.
  { intros r w' Hs Ht. simpl. rewrite Hs. split; [intros a _; apply Hq|].
    exists [e]. split; [exact Ht|by constructor]. }
  destruct (fault env e (fs w)); [by apply H|].
  destruct (sem (fs w)) as [[a t]|]; by apply H.
Qed.

Lemma hoare_set_origname v post :
  hoare P (fun b => post tt
             {| self_null := self_null b; self_location := self_location b;
                self_version := self_version b; self_git := self_git b;
                self_origname := Some v; self_debsrc := self_debsrc b |})
        (set_origname v) post.
Proof.
  intros w Hw. split; [by intros []|]. exists []. split; [by rewrite List.app_nil_r|constructor].
Qed.

Lemma hoare_set_debsrc v post :
  hoare P (fun b => post tt
             {| self_null := self_null b; self_location := self_location b;
                self_version := self_version b; self_git := self_git b;
                self_origname := self_origname b; self_debsrc := Some v |})
        (set_debsrc v) post.
Proof.
  intros w Hw. split; [by intros []|]. exists []. split; [by rewrite List.app_nil_r|constructor].
Qed.

Lemma hoare_set_version v post :
  hoare P (fun b => post tt
             {| self_null := self_null b; self_location := self_location b;
                self_version := Some v; self_git := self_git b;
                self_origname := self_origname b; self_debsrc := self_debsrc b |})
        (set_version v) post.
Proof.
  intros w Hw. split; [by intros []|]. exists []. split; [by rewrite List.app_nil_r|constructor].
Qed.

Lemma hoare_set_git v post :
  hoare P (fun b => post tt
             {| self_null := self_null b; self_location := self_location b;
                self_version := self_version b; self_git := Some v;
                self_origname := self_origname b; self_debsrc := self_debsrc b |})
        (set_git v) post.
Proof.
  intros w Hw. split; [by intros []|]. exists []. split; [by rewrite List.app_nil_r|constructor].
Qed.

Lemma hoare_if {A} (c : bool) (m1 m2 : M A) pre1 pre2 post :
  hoare P pre1 m1 post -> hoare P pre2 m2 post ->
  hoare P (fun b => pre1 b /\ pre2 b) (if c then m1 else m2) post.
Proof. intros H1 H2. destruct c; intros w [Hw1 Hw2]; [by apply H1|by apply H2]. Qed.

(** A command changes no attribute and makes at most one call, in the
    directory given or else in [self.location]. *)
Lemma cmd_call w args kw :
  self (snd (cmd env opts args kw w)) = self w /\
  (trace (snd (cmd env opts args kw w)) = trace w \/
   exists o e,
     trace (snd (cmd env opts args kw w)) = (trace w ++ [ECall args (cwd_for w kw) o e])%list).
Proof.
  destruct kw as [c o e].
  unfold cmd, cwd_for, bind, get_null, getattr, ret, raise, subprocess_call. simpl.
  repeat match goal with
         | |- context [verbose opts] => destruct (verbose opts); simpl
         | |- context [match ?x with _ => _ end] => is_var x; destruct x; simpl
         | |- context [self_null (self w)] => destruct (self_null (self w)); simpl
         | |- context [self_location (self w)] => destruct (self_location (self w)); simpl
         | |- context [run env ?a ?d ?t] => destruct (run env a d t); simpl
         | |- context [(?a =? 0)%Z] => destruct (a =? 0)%Z; simpl
         end.
  all: split; [reflexivity|first [left; reflexivity | right; eexists _, _; reflexivity]].
Qed.

Lemma cmd_output_call w args kw :
  self (snd (cmd_output env opts args kw w)) = self w /\
  (trace (snd (cmd_output env opts args kw w)) = trace w \/
   exists o e,
     trace (snd (cmd_output env opts args kw w))
       = (trace w ++ [ECall args (cwd_for w kw) o e])%list).
Proof.
  unfold cmd_output, bind, os_pipe, read_pipe, ret.
  match goal with |- context [cmd env opts args ?k ?w0] =>
    destruct (cmd_call w0 args k) as [Hs Ht];
    destruct (cmd env opts args k w0) as [[[]|x] w1] end; simpl in *.
  all: split; [exact Hs|exact Ht].
Qed.

Lemma hoare_call {A} (m : M A) args kw post :
  (forall w, self (snd (m w)) = self w /\
             (trace (snd (m w)) = trace w \/
              exists o e, trace (snd (m w)) = (trace w ++ [ECall args (cwd_for w kw) o e])%list)) ->
  hoare P (fun b => (forall o e,
                       P (ECall args match kw_cwd kw with
                                     | Some d => d
                                     | None => self_location b
                                     end o e)) /\
                    forall a, post a b) m post.
Proof.
  intros H w [Hp Hq]. destruct (H w) as [Hs Ht]. split.
  - intros a _. rewrite Hs. apply Hq.
  - destruct Ht as [Ht|(o & e & Ht)].
    + exists []. split; [by rewrite List.app_nil_r|constructor].
    + eexists. split; [exact Ht|]. constructor; [apply Hp|constructor].
Qed.

Lemma hoare_cmd args kw post :
  hoare P (fun b => (forall o e,
                       P (ECall args match kw_cwd kw with
                                     | Some d => d
                                     | None => self_location b
                                     end o e)) /\
                    forall a, post a b) (cmd env opts args kw) post.
Proof. apply hoare_call. intros w. apply cmd_call. Qed.

Lemma hoare_cmd_output args kw post :
  hoare P (fun b => (forall o e,
                       P (ECall args match kw_cwd kw with
                                     | Some d => d
                                     | None => self_location b
                                     end o e)) /\
                    forall a, post a b) (cmd_output env opts args kw) post.
Proof. apply hoare_call. intros w. apply cmd_output_call. Qed.

Lemma hoare_list {A B} (x : list A) (m1 : M B) (m2 : A -> list A -> M B) pre1 pre2 post :
  hoare P pre1 m1 post -> (forall h t, hoare P (pre2 h t) (m2 h t) post) ->
  hoare P (fun b => pre1 b /\ forall h t, pre2 h t b)
        (match x with [] => m1 | h :: t => m2 h t end) post.
Proof.
  intros H1 H2. destruct x as [|h t]; intros w [Hw1 Hw2]; [by apply H1|by apply H2].
Qed.

Lemma hoare_for_each {A} (I : Builder -> Prop) (l : list A) body :
  (forall x, hoare P I (body x) (fun _ => I)) ->
  hoare P I (for_each l body) (fun _ => I).
Proof.
  intros Hb. induction l as [|x l IH]; simpl.
  - apply (hoare_ret tt (fun _ => I)).
  - eapply hoare_bind; [intros u; exact IH|apply Hb].
Qed.

End Hoare.

Ltac hoare_step :=
  lazymatch goal with
  | |- hoare _ _ (bind _ _) _ => eapply hoare_bind; [intros ?|]
  | |- hoare ?P ?pre (ret ?a) ?post =>
      let p := eval cbv beta in (post a) in unify pre p; exact (hoare_ret P a post)
  | |- hoare _ _ (raise _) _ => refine (hoare_raise _ _ _)
  | |- hoare _ _ (getattr _ _) _ => refine (hoare_getattr _ _ _ _)
  | |- hoare _ _ (assert _) _ => refine (hoare_assert _ _ _)
  | |- hoare _ _ (set_version _) _ => refine (hoare_set_version _ _ _)
  | |- hoare _ _ (set_git _) _ => refine (hoare_set_git _ _ _)
  | |- hoare _ _ (set_origname _) _ => refine (hoare_set_origname _ _ _)
  | |- hoare _ _ (set_debsrc _) _ => refine (hoare_set_debsrc _ _ _)
  | |- hoare _ _ (os_mkdir _ _) _ => refine (hoare_sys _ _ _ _ _)
  | |- hoare _ _ (shutil_rmtree _ _) _ => refine (hoare_sys _ _ _ _ _)
  | |- hoare _ _ (shutil_copy _ _ _) _ => refine (hoare_sys _ _ _ _ _)
  | |- hoare _ _ (shutil_copytree _ _ _) _ => refine (hoare_sys _ _ _ _ _)
  | |- hoare _ _ (file_read _ _) _ => refine (hoare_sys _ _ _ _ _)
  | |- hoare _ _ (file_write _ _ _) _ => refine (hoare_sys _ _ _ _ _)
  | |- hoare _ _ (cmd _ _ _ _) _ => refine (hoare_cmd _ _ _ _ _ _)
  | |- hoare _ _ (cmd_output _ _ _ _) _ => refine (hoare_cmd_output _ _ _ _ _ _)
  | |- hoare _ _ (match _ with [] => _ | _ :: _ => _ end) _ =>
      refine (hoare_list _ _ _ _ _ _ _ _ _); [|intros ? ?]
  | |- hoare _ _ (if _ then _ else _) _ => refine (hoare_if _ _ _ _ _ _ _ _ _)
  | |- hoare _ _ _ _ =>
      refine (hoare_steady _ same_self _ _ _);
      unfold str_format, get_files;
      repeat steady_script; first [exact I | right; reflexivity]
  end.

(** A path made by [loc] from relative names is the working directory or
    below it. *)
Ltac below :=
  first [ apply under_self
        | apply under_join;
          repeat match goal with
                 | |- Forall _ (_ :: _) => constructor
                 | |- Forall _ [] => constructor
                 end;
          first [reflexivity | assumption] ].

Ltac hoare_vc :=
  repeat first
    [ progress intros
    | progress (unfold located, sourced, named, same_self, same_base in *; cbv beta)
    | progress (cbn [self_null self_location self_version self_git self_origname
                     self_debsrc kw_cwd cwd_ no_kwargs] in *)
    | progress simplify_eq
    | match goal with
      | H : _ /\ _ |- _ => destruct H
      | H : exists _, _ |- _ => destruct H
      | H : False |- _ => destruct H
      | H : self_location ?b = Some _ |- context [self_location ?b] => rewrite H
      | |- _ => assumption
      | |- _ /\ _ => split
      | |- True => exact I
      | |- any_event _ => exact I
      | |- confined _ _ _ => cbn [confined]
      | |- under _ _ = true => below
      | |- under _ _ = true \/ _ => left; below
      | |- _ \/ ?x = ?x => right; reflexivity
      | |- exists _ _, _ = _ => eexists _, _; reflexivity
      | |- exists _, _ => eexists; split; [eassumption || reflexivity|]
      | |- Py.startswith _ _ = false => first [assumption | reflexivity]
      | |- _ = _ => first [assumption | reflexivity | congruence]
      end ].

(** A step whose own specification is at hand. *)
Tactic Notation "hoare_use" uconstr(lem) := eapply hoare_post; [refine lem|solve [hoare_vc]].

Section Confined.

Context (env : Env) (opts : Options) (l : string).

Lemma make_dist_confined :
  hoare (confined l (output opts)) (located l) (make_dist env opts) (fun _ => located l).
Proof.
  unfold make_dist, loc.
  destruct (dl_fldigi_commit opts) as [c|];
    (eapply hoare_conseq; [repeat hoare_step|hoare_vc]).
Qed.

Lemma find_dist_confined :
  hoare (confined l (output opts)) (located l) (find_dist env) (fun _ => located l).
Proof.
  eapply hoare_conseq; [unfold find_dist, loc; repeat hoare_step|hoare_vc].
Qed.

Lemma find_commit_confined :
  hoare (confined l (output opts)) (located l) (find_commit env opts) (fun _ => located l).
Proof.
  eapply hoare_conseq; [unfold find_commit, loc; repeat hoare_step|hoare_vc].
Qed.

Lemma keep_orig_confined d :
  hoare (confined l (output opts)) (located l) (keep_orig env d) (fun _ => located l).
Proof.
  eapply hoare_conseq; [unfold keep_orig, loc; repeat hoare_step|hoare_vc].
Qed.

Lemma unpack_orig_confined :
  hoare (confined l (output opts)) (located l) (unpack_orig env opts) (fun _ => sourced l).
Proof.
  eapply hoare_conseq; [unfold unpack_orig, loc; repeat hoare_step|hoare_vc].
Qed.

Lemma fill_changelog_confined :
  hoare (confined l (output opts)) (sourced l) (fill_changelog env opts) (fun _ => sourced l).
Proof.
  unfold fill_changelog, resolve_distro, default_distro, loc.
  destruct (distro opts) as [n|];
    (eapply hoare_conseq; [repeat hoare_step|hoare_vc]).
Qed.

Lemma build_confined :
  hoare (confined l (output opts)) (sourced l) (build env opts) (fun _ => located l).
Proof.
  eapply hoare_conseq; [unfold build, loc; repeat hoare_step|hoare_vc].
Qed.

Lemma get_orig_tar_confined :
  hoare (confined l (output opts)) (located l) (get_orig_tar env opts) (fun _ => located l).
Proof.
  eapply hoare_conseq.
  - unfold get_orig_tar.
    repeat first [ hoare_use make_dist_confined | hoare_use find_dist_confined
                 | hoare_use find_commit_confined | hoare_use (keep_orig_confined _)
                 | hoare_step ].
  - hoare_vc.
Qed.

Lemma build_phase_confined :
  hoare (confined l (output opts)) (located l) (build_phase env opts) (fun _ _ => True).
Proof.
  eapply hoare_conseq.
  - unfold build_phase, add_debian_dir.
    repeat first [ hoare_use get_orig_tar_confined | hoare_use unpack_orig_confined
                 | hoare_use fill_changelog_confined | hoare_use build_confined
                 | hoare_step ].
  - hoare_vc.
Qed.

End Confined.

Lemma setup_call_confined l out e : setup_call l e -> confined l out e.
Proof. intros [-> | [-> | [-> | ->]]]; simpl; first [exact I | apply under_self]. Qed.

Section Whole.

Context (env : Env) (opts : Options).

(** X15.  Whatever the host and the commands do, the calls by which the
    script itself changes the file tree stay in the working directory: what
    it removes, creates, writes or copies to is the resolved working
    directory or a path that begins with it, the only other destination
    being the output option handed to [shutil.copy].  Every command is
    started in the working directory or in a path that begins with it,
    except the clone, which is given no directory. *)
Theorem main_confined w :
  exists evs,
    trace (snd (main env opts w)) = (trace w ++ evs)%list /\
    Forall (confined (realpath env (directory opts)) (output opts)) evs.
Proof.
  set (l := realpath env (directory opts)).
  destruct (setup_phase_trace env opts w) as (evs0 & Ht0 & Hp0). fold l in Hp0.
  assert (Forall (confined l (output opts)) evs0) as Hc0.
  { eapply Forall_impl; [exact Hp0|]. intros e. apply setup_call_confined. }
  destruct (setup_phase env opts w) as [[[]|e] w1] eqn:E; simpl in Ht0.
  - rewrite (main_after_setup env opts w w1 E). simpl snd.
    destruct (setup_phase_ok env opts w w1 E) as (Hn & Hl & _). fold l in Hl.
    destruct (build_phase_confined env opts l w1 Hl) as (_ & evs1 & Ht1 & Hc1).
    destruct (build_phase_steady env opts w1) as ((Hn2 & Hl2) & _).
    rewrite Hn in Hn2. rewrite Hl in Hl2.
    destruct (cleanup_phase_spec env (snd (build_phase env opts w1)) l Hn2 Hl2)
      as (Ht2 & _).
    assert (Forall (confined l (output opts)) [ECloseNull; EStat l]) as Ha
      by (repeat constructor).
    assert (Forall (confined l (output opts)) [ECloseNull; EStat l; ERmtree l]) as Hb
      by (repeat constructor; apply under_self).
    destruct Ht2 as [-> | ->]; rewrite Ht1, Ht0, <- !List.app_assoc;
      eexists; (split; [reflexivity|]); repeat apply Forall_app_2; assumption.
  - unfold main. rewrite E. by exists evs0.
Qed.

End Whole.

(** ** Source-only runs *)

Section SourceOnly.

Context (env : Env) (opts : Options).

Lemma keep_orig_named d :
  hoare any_event (fun _ => True) (keep_orig env d) (fun _ => named).
Proof.
  eapply hoare_conseq; [unfold keep_orig, loc; repeat hoare_step|hoare_vc].
Qed.

Lemma get_orig_tar_named :
  hoare any_event (fun _ => True) (get_orig_tar env opts) (fun _ => named).
Proof.
  unfold get_orig_tar, make_dist, find_dist, find_commit, loc.
  destruct (dl_fldigi_commit opts) as [c|];
    (eapply hoare_conseq;
     [repeat first [hoare_use (keep_orig_named _) | hoare_step]|hoare_vc]).
Qed.

Lemma add_debian_dir_named :
  hoare any_event named (add_debian_dir env opts) (fun _ => named).
Proof.
  unfold add_debian_dir, unpack_orig, fill_changelog, resolve_distro, default_distro, loc.
  destruct (distro opts) as [n|];
    (eapply hoare_conseq; [repeat hoare_step|hoare_vc]).
Qed.

Lemma build_named : hoare any_event named (build env opts) (fun _ => named).
Proof.
  eapply hoare_conseq; [unfold build, loc; repeat hoare_step|hoare_vc].
Qed.

Lemma get_files_source_fails :
  get_src opts = true ->
  hoare any_event named (get_files env opts) (fun _ _ => False).
Proof.
  intros Hsrc. unfold get_files. rewrite Hsrc.
  eapply hoare_conseq; [repeat hoare_step|].
  intros b (v & Hv & Ho) v' Hv' g Hg o Ho' Hassert. exfalso.
  rewrite Hv in Hv'. rewrite Ho in Ho'. injection Hv' as <-. injection Ho' as <-.
  rewrite orig_names_differ in Hassert. discriminate.
Qed.

Lemma build_phase_source_fails :
  get_src opts = true ->
  hoare any_event (fun _ => True) (build_phase env opts) (fun _ _ => False).
Proof.
  intros Hsrc. eapply hoare_conseq.
  - unfold build_phase.
    repeat first [ hoare_use get_orig_tar_named | hoare_use add_debian_dir_named
                 | hoare_use build_named | hoare_use (get_files_source_fails Hsrc)
                 | hoare_step ].
  - done.
Qed.

(** X16.  A source-only run never succeeds: whatever the host, the
    commands and the tree, the exit status is 1.  The name [get_files]
    expects for the orig archive carries the commit hash, the name
    [get_orig_tar] gave it does not, so a run that gets as far as
    [get_files] stops at its assertion. *)
Theorem source_only_always_fails w :
  get_src opts = true -> fst (main env opts w) = 1%Z.
Proof.
  intros Hsrc. unfold main.
  destruct (setup_phase env opts w) as [[[]|e] w1]; [|reflexivity].
  destruct (build_phase_source_fails Hsrc w1 I) as [Hq _].
  destruct (build_phase env opts w1) as [[[]|e] w2]; simpl in *.
  - destruct (Hq tt eq_refl).
  - by destruct (cleanup_phase env w2).
Qed.

End SourceOnly.

(** ** The paths the check lets through *)

Lemma match_location_newline s :
  s <> "" -> allowed s = true -> Re.match_location (s ++ String Py.LF "") = true.
Proof.
  unfold Re.match_location. induction s as [|c s IH]; intros Hne H; [contradiction|].
  simpl in H. apply andb_prop in H as [Hc Hs]. rewrite str_app_cons. simpl. rewrite Hc. simpl.
  destruct s as [|d s]; [reflexivity|].
  rewrite IH; [reflexivity|discriminate|exact Hs].
Qed.

Section Accepted.

Context (env : Env) (opts : Options).

(** X17.  [setup_build_dir] raises its character-set exception exactly
    when the resolved path is not a non-empty run of the characters
    [a-zA-Z0-9_-/], alone or followed by one line feed. *)
Theorem charset_exactly w :
  let l := realpath env (directory opts) in
  fst (setup_build_dir env opts w) = Raise (Exception_ charset_message) <->
  ~ exists body,
      body <> "" /\ allowed body = true /\ (l = body \/ l = body ++ String Py.LF "").
Proof.
  intros l. rewrite charset_verdict_on_realpath. fold l. split.
  - intros Hm (body & Hne & Hb & [E|E]); rewrite E in Hm.
    + by rewrite match_location_allowed in Hm.
    + by rewrite match_location_newline in Hm.
  - intros H. destruct (Re.match_location l) eqn:Em; [|reflexivity].
    exfalso. apply H. by apply match_location_shape.
Qed.

End Accepted.

(** ** The further properties on the sample host *)

Section Exercised.

Import Sample Scenario Cases.

Lemma clean_absent_directory_witness :
  self_location (self blocked) = Some (Py.join wd ["notes"; "build"]) /\
  fs blocked !! Py.join wd ["notes"; "build"] = None /\
  fs (snd (clean_build_dir good blocked)) = fs blocked /\
  trace (snd (clean_build_dir good blocked))
    = (trace blocked ++ [EStat (Py.join wd ["notes"; "build"])])%list /\
  (fault good (EStat (Py.join wd ["notes"; "build"])) (fs blocked) = None ->
   ((forall a c, fs blocked !! a = Some (File c) ->
       under a (Py.join wd ["notes"; "build"]) = false) ->
    fst (clean_build_dir good blocked) = Ok tt) /\
   (forall a c, fs blocked !! a = Some (File c) ->
      under a (Py.join wd ["notes"; "build"]) = true ->
    fst (clean_build_dir good blocked) = Raise (OSError ENOTDIR))).
Proof.
  assert (self_location (self blocked) = Some (Py.join wd ["notes"; "build"])) as H1
    by (vm_compute; reflexivity).
  assert (fs blocked !! Py.join wd ["notes"; "build"] = None) as H2
    by (vm_compute; reflexivity).
  split; [exact H1|]. split; [exact H2|].
  exact (clean_absent_directory good blocked (Py.join wd ["notes"; "build"]) H1 H2).
Defined.

Lemma clean_build_dir_frame_witness :
  let w := built good opts in
  self_location (self w) = Some wd /\
  (forall k, under wd k = false -> fs (snd (clean_build_dir good w)) !! k = fs w !! k) /\
  (is_ok (fst (clean_build_dir good w)) = true -> fs w !! wd = Some Dir ->
   forall k, under wd k = true -> fs (snd (clean_build_dir good w)) !! k = None).
Proof.
  intros w.
  assert (self_location (self w) = Some wd) as H by (vm_compute; reflexivity).
  split; [exact H|].
  exact (clean_build_dir_frame good w wd H).
Defined.

Lemma setup_fresh_directory_witness :
  setup_phase good opts (boot tree) = (Ok tt, started good opts) /\
  (let l := realpath good (directory opts) in
   fs (started good opts) !! l = Some Dir /\
   (forall k, under l k = false -> fs (started good opts) !! k = fs (boot tree) !! k) /\
   ((fs (boot tree) !! l = None -> forall k, under l k = true -> fs (boot tree) !! k = None) ->
    forall k, under l k = true -> k <> l -> fs (started good opts) !! k = None)).
Proof.
  assert (setup_phase good opts (boot tree) = (Ok tt, started good opts)) as H
    by (vm_compute; reflexivity).
  split; [exact H|].
  exact (setup_fresh_directory good opts (boot tree) (started good opts) H).
Defined.

Lemma setup_over_regular_file_witness :
  fs (boot occupied) !! realpath good (directory opts) = Some (File "notes") /\
  is_ok (fst (setup_phase good opts (boot occupied))) = false /\
  fs (snd (setup_phase good opts (boot occupied))) = fs (boot occupied).
Proof.
  assert (fs (boot occupied) !! realpath good (directory opts) = Some (File "notes")) as H
    by (vm_compute; reflexivity).
  split; [exact H|].
  exact (setup_over_regular_file good opts (boot occupied) "notes" H).
Defined.

Lemma setup_failure_is_fatal_witness :
  let w1 := snd (setup_phase good opts (boot occupied)) in
  setup_phase good opts (boot occupied) = (Raise (OSError ENOTDIR), w1) /\
  main good opts (boot occupied) = (1%Z, w1) /\
  exists evs,
    trace w1 = (trace (boot occupied) ++ evs)%list /\
    Forall (setup_call (realpath good (directory opts))) evs.
Proof.
  intros w1.
  assert (setup_phase good opts (boot occupied) = (Raise (OSError ENOTDIR), w1)) as H
    by (vm_compute; reflexivity).
  split; [exact H|].
  exact (setup_failure_is_fatal good opts (boot occupied) (OSError ENOTDIR) w1 H).
Defined.

Lemma cmd_outcome_witness :
  let w := found good opts in
  let kw := cwd_ (Some (Py.join wd ["git-tmp"])) in
  cmd_ready opts w kw /\
  trace (snd (cmd good opts git_log kw w)) =
    (trace w ++ [ECall git_log (cwd_for w kw) (stream_for (verbose opts) (kw_stdout kw))
                   (stream_for (verbose opts) (kw_stderr kw))])%list /\
  self (snd (cmd good opts git_log kw w)) = self w /\
  match run good git_log (cwd_for w kw) (fs w) with
  | SpawnError e =>
      fst (cmd good opts git_log kw w) = Raise (OSError e) /\
      fs (snd (cmd good opts git_log kw w)) = fs w
  | Exited rc _ t =>
      fst (cmd good opts git_log kw w) =
        (if (rc =? 0)%Z then Ok tt else Raise (SubprocessExited git_log)) /\
      fs (snd (cmd good opts git_log kw w)) = t
  end.
Proof.
  intros w kw.
  assert (cmd_ready opts w kw) as H.
  { split; [intros _; vm_compute; reflexivity|discriminate]. }
  split; [exact H|].
  exact (cmd_outcome good opts w git_log kw H).
Defined.

Lemma cmd_output_outcome_witness :
  let w := found good opts in
  let kw := cwd_ (Some (Py.join wd ["git-tmp"])) in
  cmd_ready opts w kw /\
  fst (cmd_output good opts git_log kw w) =
    match run good git_log (cwd_for w kw) (fs w) with
    | SpawnError e => Raise (OSError e)
    | Exited rc text _ =>
        if (rc =? 0)%Z then Ok (Py.strip text) else Raise (SubprocessExited git_log)
    end.
Proof.
  intros w kw.
  assert (cmd_ready opts w kw) as H.
  { split; [intros _; vm_compute; reflexivity|discriminate]. }
  split; [exact H|].
  exact (cmd_output_outcome good opts w git_log kw H).
Defined.

Lemma make_dist_in_order_witness :
  let w := started good opts in
  self_location (self w) = Some wd /\
  (verbose opts = false -> self_null (self w) = Some tt) /\
  exists evs,
    trace (snd (make_dist good opts w)) = (trace w ++ evs)%list /\
    evs `prefix_of` map (call_of opts) (dist_commands opts (Py.join wd ["git-tmp"])) /\
    (is_ok (fst (make_dist good opts w)) = true ->
     evs = map (call_of opts) (dist_commands opts (Py.join wd ["git-tmp"]))).
Proof.
  intros w.
  assert (self_location (self w) = Some wd) as H1 by (vm_compute; reflexivity).
  assert (verbose opts = false -> self_null (self w) = Some tt) as H2
    by (intros _; vm_compute; reflexivity).
  split; [exact H1|]. split; [exact H2|].
  exact (make_dist_in_order good opts w wd H1 H2).
Defined.

Lemma build_call_witness :
  let w := injected in
  self_location (self w) = Some wd /\
  self_debsrc (self w) = Some debsrc /\
  (verbose opts = false -> self_null (self w) = Some tt) /\
  exists more,
    trace (snd (build good opts w)) =
      (trace w ++ [ECall ("debuild" :: "-uc" :: "-us" :: more) (Some (Py.join wd [debsrc]))
                     (stream_for (verbose opts) None) (stream_for (verbose opts) None)])%list /\
    ("-S" ∈ more <-> get_src opts = true) /\
    (forall j, "-j" ++ j ∈ more <-> make_jobs opts = Some j /\ j <> "") /\
    fst (build good opts w) =
      match run good ("debuild" :: "-uc" :: "-us" :: more) (Some (Py.join wd [debsrc])) (fs w) with
      | SpawnError e => Raise (OSError e)
      | Exited rc _ _ =>
          if (rc =? 0)%Z then Ok tt
          else Raise (SubprocessExited ("debuild" :: "-uc" :: "-us" :: more))
      end.
Proof.
  intros w.
  assert (self_location (self w) = Some wd) as H1 by (vm_compute; reflexivity).
  assert (self_debsrc (self w) = Some debsrc) as H2 by (vm_compute; reflexivity).
  assert (verbose opts = false -> self_null (self w) = Some tt) as H3
    by (intros _; vm_compute; reflexivity).
  split; [exact H1|]. split; [exact H2|]. split; [exact H3|].
  exact (build_call good opts w wd debsrc H1 H2 H3).
Defined.

Lemma get_files_mismatch_witness :
  let w := injected in
  let pattern := Py.join wd [("dl-fldigi_" ++ "3.21" ++ "-" ++ "abcdef1") ++ "_*.deb"] in
  get_src opts = false /\
  self_location (self w) = Some wd /\
  self_version (self w) = Some "3.21" /\
  self_git (self w) = Some "abcdef1" /\
  length (glob good pattern (fs w)) <> 1%nat /\
  get_files good opts w = (Raise AssertionError, record (EGlob pattern) w).
Proof.
  intros w pattern.
  assert (get_src opts = false) as H1 by reflexivity.
  assert (self_location (self w) = Some wd) as H2 by (vm_compute; reflexivity).
  assert (self_version (self w) = Some "3.21") as H3 by (vm_compute; reflexivity).
  assert (self_git (self w) = Some "abcdef1") as H4 by (vm_compute; reflexivity).
  assert (length (glob good pattern (fs w)) <> 1%nat) as H5 by (vm_compute; discriminate).
  split; [exact H1|]. split; [exact H2|]. split; [exact H3|]. split; [exact H4|].
  split; [exact H5|].
  exact (get_files_mismatch good opts w wd "3.21" "abcdef1" H1 H2 H3 H4 H5).
Defined.


Lemma keep_orig_result_witness :
  let w := hashed in
  let clone := Py.join wd ["git-tmp"] in
  let src := Py.join wd ["git-tmp"; archive] in
  let name := "dl-fldigi_" ++ "3.21" ++ ".orig.tar.gz" in
  let dst := Py.join wd [name] in
  self_location (self w) = Some wd /\
  self_version (self w) = Some "3.21" /\
  fs w !! src = Some (File "tarball") /\
  fs w !! dst <> Some Dir /\
  fs w !! clone = Some Dir /\
  fault good (ECopy src dst) (fs w) = None /\
  fault good (ERmtree clone) (<[dst := File "tarball"]> (fs w)) = None /\
  (Py.startswith archive "/" = false -> src <> dst) /\
  self_origname (self (snd (keep_orig good archive w))) = Some name /\
  (src = dst ->
   fst (keep_orig good archive w) = Raise (SameFile src dst) /\
   fs (snd (keep_orig good archive w)) = fs w) /\
  (src <> dst ->
   fst (keep_orig good archive w) = Ok tt /\
   fs (snd (keep_orig good archive w)) !! dst = Some (File "tarball") /\
   (forall k, under clone k = true -> fs (snd (keep_orig good archive w)) !! k = None) /\
   (forall k, under clone k = false -> k <> dst ->
      fs (snd (keep_orig good archive w)) !! k = fs w !! k)).
Proof.
  intros w clone src name dst.
  assert (self_location (self w) = Some wd) as H1 by (vm_compute; reflexivity).
  assert (self_version (self w) = Some "3.21") as H2 by (vm_compute; reflexivity).
  assert (fs w !! src = Some (File "tarball")) as H3 by (vm_compute; reflexivity).
  assert (fs w !! dst <> Some Dir) as H4 by (vm_compute; discriminate).
  assert (fs w !! clone = Some Dir) as H5 by (vm_compute; reflexivity).
  assert (fault good (ECopy src dst) (fs w) = None) as H6 by (vm_compute; reflexivity).
  assert (fault good (ERmtree clone) (<[dst := File "tarball"]> (fs w)) = None) as H7
    by (vm_compute; reflexivity).
  split; [exact H1|]. split; [exact H2|]. split; [exact H3|]. split; [exact H4|].
  split; [exact H5|]. split; [exact H6|]. split; [exact H7|].
  exact (keep_orig_result good w wd "3.21" archive "tarball" H1 H2 H3 H4 H5 H6 H7).
Defined.

Lemma unknown_placeholder_raises_witness :
  let w := odd_unpacked in
  let w1 := snd (resolve_distro good opts (record (ERead changelog_file) w)) in
  self_location (self w) = Some wd /\
  self_debsrc (self w) = Some debsrc /\
  self_version (self w) = Some "3.21" /\
  self_git (self w) = Some "abcdef1" /\
  fault good (ERead changelog_file) (fs w) = None /\
  fs w !! changelog_file = Some (File (render odd_pieces ++ "{" ++ "urgency" ++ "}" ++ "")) /\
  well_formed odd_pieces = true /\
  field_name "urgency" = true /\
  (forall p, "urgency" <> key p) /\
  resolve_distro good opts (record (ERead changelog_file) w) = (Ok "unstable", w1) /\
  fill_changelog good opts w = (Raise (KeyError "urgency"), w1).
Proof.
  intros w w1.
  assert (self_location (self w) = Some wd) as H1 by (vm_compute; reflexivity).
  assert (self_debsrc (self w) = Some debsrc) as H2 by (vm_compute; reflexivity).
  assert (self_version (self w) = Some "3.21") as H3 by (vm_compute; reflexivity).
  assert (self_git (self w) = Some "abcdef1") as H4 by (vm_compute; reflexivity).
  assert (fault good (ERead changelog_file) (fs w) = None) as H5 by (vm_compute; reflexivity).
  assert (fs w !! changelog_file
          = Some (File (render odd_pieces ++ "{" ++ "urgency" ++ "}" ++ ""))) as H6
    by (vm_compute; reflexivity).
  assert (well_formed odd_pieces = true) as H7 by (vm_compute; reflexivity).
  assert (field_name "urgency" = true) as H8 by (vm_compute; reflexivity).
  assert (forall p, "urgency" <> key p) as H9 by (intros []; discriminate).
  assert (resolve_distro good opts (record (ERead changelog_file) w) = (Ok "unstable", w1))
    as H10 by (vm_compute; reflexivity).
  split; [exact H1|]. split; [exact H2|]. split; [exact H3|]. split; [exact H4|].
  split; [exact H5|]. split; [exact H6|]. split; [exact H7|]. split; [exact H8|].
  split; [exact H9|]. split; [exact H10|].
  exact (unknown_placeholder_raises good opts w wd debsrc "3.21" "abcdef1" odd_pieces
           "urgency" "" "unstable" w1 H1 H2 H3 H4 H5 H6 H7 H8 H9 H10).
Defined.


Lemma source_only_always_fails_witness :
  get_src (source_only opts) = true /\
  fst (main good (source_only opts) (boot tree)) = 1%Z.
Proof.
  assert (get_src (source_only opts) = true) as H by reflexivity.
  split; [exact H|].
  exact (source_only_always_fails good (source_only opts) (boot tree) H).
Defined.

End Exercised.

(** ** Examples *)

Example strip_ex : Py.strip (" ab c" ++ String Py.LF "") = "ab c".
Proof. reflexivity. Qed.
Example split_ex : Py.split "abcdef1  Fix  it" = ["abcdef1"; "Fix"; "it"].
Proof. reflexivity. Qed.
Example slice_ex : Py.slice "dl-fldigi-3.21.tar.gz" (Py.len "dl-fldigi-") (- Py.len ".tar.gz") = "3.21".
Proof. reflexivity. Qed.
Example join_ex : Py.join "/tmp/b" ["git-tmp"; "dl-fldigi-*.tar.gz"] = "/tmp/b/git-tmp/dl-fldigi-*.tar.gz".
Proof. reflexivity. Qed.
Example basename_ex : Py.basename "/tmp/b/git-tmp/dl-fldigi-3.21.tar.gz" = "dl-fldigi-3.21.tar.gz".
Proof. reflexivity. Qed.
Example dirname_ex : Py.dirname "/opt/pkg/debian.py" = "/opt/pkg".
Proof. reflexivity. Qed.
Example re_ex1 : Re.match_location "/tmp/build-1_x" = true.
Proof. reflexivity. Qed.
Example re_ex2 : Re.match_location "/tmp/my build" = false.
Proof. reflexivity. Qed.
Example re_ex3 : Re.match_location ("/tmp/b" ++ String Py.LF "") = true.
Proof. reflexivity. Qed.

(** The whole run on the good host: the package lands in the output
    directory and the working directory is gone. *)
Example good_run :
  let r := main Sample.good Sample.opts (boot Sample.tree) in
  fst r = 0%Z /\
  fs (snd r) !! "./dl-fldigi_3.21-abcdef1_amd64.deb" = Some (File "deb") /\
  fs (snd r) !! Scenario.wd = None.
Proof. vm_compute. repeat split; reflexivity. Qed.

(** The same run in source-only mode: it fails and nothing is copied to the
    output directory. *)
Example source_only_run :
  let r := main Sample.good (Sample.source_only Sample.opts) (boot Sample.tree) in
  fst r = 1%Z /\
  fst (build_phase Sample.good (Sample.source_only Sample.opts)
         (Scenario.started Sample.good (Sample.source_only Sample.opts)))
    = Raise AssertionError /\
  List.filter (fun e => match e with ECopy _ dst => String.eqb dst "." | _ => false end)
    (trace (snd r)) = [] /\
  List.filter (fun e => match e with EGlob p => Py.endswith p ".deb" | _ => false end)
    (trace (snd r)) = [].
Proof. vm_compute. repeat split; reflexivity. Qed.

(** The check looks at the resolved path: the option as given is made of
    allowed characters, the home directory it resolves under is not, and
    setup raises before any call on the file tree. *)
Example clean_option_under_spaced_home :
  let r := setup_phase Scenario.spaced_home Sample.opts (boot Sample.tree) in
  allowed (directory Sample.opts) = true /\
  realpath Scenario.spaced_home (directory Sample.opts) = "/home/my user/debian_build" /\
  fst r = Raise (Exception_ charset_message) /\
  trace (snd r) = [EOpenNull].
Proof. vm_compute. repeat split; reflexivity. Qed.

(** The first token is what counts: the line has seven characters, its
    first token three, and the run stops at the length check with
    [self.git] set to that token. *)
Example seven_wide_line :
  let r := build_phase Scenario.seven_wide Sample.opts
             (Scenario.started Scenario.seven_wide Sample.opts) in
  Py.strip ("abc 123" ++ Sample.nl) = "abc 123" /\
  fst r = Raise AssertionError /\
  self_git (self (snd r)) = Some "abc".
Proof. vm_compute. repeat split; reflexivity. Qed.

(** With the working directory as output directory the package would be
    copied onto itself: [shutil.copy] refuses and the run fails. *)
Example package_onto_itself :
  let o := Cases.into_workdir in
  fst (get_files Sample.good o (Scenario.built Sample.good o))
    = Raise (SameFile Cases.package Cases.package) /\
  fst (main Sample.good o (boot Sample.tree)) = 1%Z.
Proof. vm_compute. split; reflexivity. Qed.

(** A working directory below a regular file: [stat] answers [ENOTDIR],
    which [clean_build_dir] lets through. *)
Example stat_below_file :
  fs Cases.blocked !! Py.join Scenario.wd ["notes"] = Some (File "notes") /\
  fst (clean_build_dir Sample.good Cases.blocked) = Raise (OSError ENOTDIR).
Proof. vm_compute. split; reflexivity. Qed.

(** [shutil.copytree] looks at its source first: with no source and a
    destination that exists, the error is [ENOENT]. *)
Example copytree_source_first :
  fst (shutil_copytree Sample.good "/opt/pkg/missing" "/opt/pkg/debian" (boot Sample.tree))
    = Raise (OSError ENOENT).
Proof. vm_compute. reflexivity. Qed.

